(** * Account, session, membership and history engine of [js/auth.js]

    A shallow embedding of the authentication module of the saju2026 web
    application.  JavaScript values are modelled by [val]; a JavaScript
    string is its list of UTF-16 code units ([jsstr]); an object is the list
    of its own properties in insertion order.  The two localStorage keys of
    the module ([saju2026_users] and [saju2026_current_user]) form the
    [state], and every public function is a computation in a state and
    exception monad [M]. *)

From Stdlib Require Import ZArith Lia List Bool String Ascii Permutation.
Import ListNotations.
Local Open Scope string_scope.
Local Open Scope Z_scope.
Local Open Scope list_scope.
Set Warnings "-register-all".

Notation "x <-? a ;; b" := (match a with Some x => b | None => None end)
  (at level 61, a at next level, right associativity).

(** ** Strings *)

(** A JavaScript string: its sequence of UTF-16 code units. *)
Definition jsstr := list Z.

(** Decoding the UTF-8 bytes of a Rocq literal into UTF-16 code units; only
    used to write the literals of the source (messages, names) faithfully. *)
Fixpoint utf8_units (l : list Z) : jsstr :=
  match l with
  | [] => []
  | b0 :: r =>
      if b0 <? 128 then b0 :: utf8_units r
      else if b0 <? 224 then
        match r with
        | b1 :: r' => ((b0 - 192) * 64 + (b1 - 128)) :: utf8_units r'
        | [] => []
        end
      else if b0 <? 240 then
        match r with
        | b1 :: b2 :: r' =>
            ((b0 - 224) * 4096 + (b1 - 128) * 64 + (b2 - 128)) :: utf8_units r'
        | _ => []
        end
      else
        match r with
        | b1 :: b2 :: b3 :: r' =>
            let cp := (b0 - 240) * 262144 + (b1 - 128) * 4096
                      + (b2 - 128) * 64 + (b3 - 128) - 65536 in
            (55296 + cp / 1024) :: (56320 + cp mod 1024) :: utf8_units r'
        | _ => []
        end
  end.

Definition u (s : string) : jsstr :=
  utf8_units (map (fun a => Z.of_nat (nat_of_ascii a)) (list_ascii_of_string s)).

Fixpoint jseqb (a b : jsstr) : bool :=
  match a, b with
  | [], [] => true
  | x :: a', y :: b' => (x =? y) && jseqb a' b'
  | _, _ => false
  end.

(** Decimal digits, fixed width [k]: the code units of [n mod 10^k]. *)
Fixpoint digits (k : nat) (n : Z) : jsstr :=
  match k with
  | O => []
  | S k' => digits k' (n / 10) ++ [48 + n mod 10]
  end.

(** Number of decimal digits of [n >= 0]; [fuel] bounds the recursion. *)
Fixpoint ndig_aux (fuel : nat) (n : Z) : nat :=
  match fuel with
  | O => 1%nat
  | S f => if n <? 10 then 1%nat else S (ndig_aux f (n / 10))
  end.

Definition ndig (n : Z) : nat := ndig_aux (Pos.size_nat (Z.to_pos n)) n.

(** Shortest decimal representation of [n >= 0]. *)
Definition to_dec (n : Z) : jsstr := digits (ndig n) n.

(** [Number::toString] on an integral number. *)
Definition num_to_str (n : Z) : jsstr :=
  if n <? 0 then 45 :: to_dec (- n) else to_dec n.

(** [ToZeroPaddedDecimalString(n, minLength)] of the ECMAScript spec. *)
Definition zpad (minlen : nat) (n : Z) : jsstr :=
  let s := to_dec n in List.repeat 48 (minlen - List.length s) ++ s.

(** ** Values *)

(** JavaScript values as they occur in this module.  Numbers are integral
    (all numbers the module handles are millisecond counts); objects and
    arrays are kept by value: every array or object the module compares is
    a fresh [JSON.parse] copy or the caller's own object, so two of them are
    never the same reference. *)
Inductive val : Type :=
| VUndef
| VNull
| VBool (b : bool)
| VNum (n : Z)
| VStr (s : jsstr)
| VArr (l : list val)
| VObj (o : list (jsstr * val)).

Definition obj := list (jsstr * val).

(** Own property lookup [o[k]]; a missing property reads as [undefined]. *)
Fixpoint oget (o : obj) (k : jsstr) : val :=
  match o with
  | [] => VUndef
  | (k', v) :: r => if jseqb k' k then v else oget r k
  end.

Fixpoint ohas (o : obj) (k : jsstr) : bool :=
  match o with
  | [] => false
  | (k', _) :: r => jseqb k' k || ohas r k
  end.

(** Property assignment [o[k] = v]: an existing property keeps its position,
    a new one is added last. *)
Fixpoint oset (o : obj) (k : jsstr) (v : val) : obj :=
  match o with
  | [] => [(k, v)]
  | (k', v') :: r => if jseqb k' k then (k', v) :: r else (k', v') :: oset r k v
  end.

(** [Object.assign(target, src)] and the spread [{...src}] into [target]:
    the own properties of [src] in order. *)
Definition oassign (target src : obj) : obj :=
  fold_left (fun acc kv => oset acc (fst kv) (snd kv)) src target.

(** Property read [v.k] on a stored record or argument.  Records are always
    objects in this module; on a primitive the property is absent. *)
Definition fld (v : val) (k : jsstr) : val :=
  match v with
  | VObj o => oget o k
  | _ => VUndef
  end.

Definition truthy (v : val) : bool :=
  match v with
  | VUndef | VNull => false
  | VBool b => b
  | VNum n => negb (n =? 0)
  | VStr s => match s with [] => false | _ => true end
  | VArr _ | VObj _ => true
  end.

(** Strict equality [===].  Arrays and objects compare by reference, and no
    two of the references compared in this module coincide. *)
Definition strict_eq (a b : val) : bool :=
  match a, b with
  | VUndef, VUndef | VNull, VNull => true
  | VBool x, VBool y => Bool.eqb x y
  | VNum x, VNum y => x =? y
  | VStr x, VStr y => jseqb x y
  | _, _ => false
  end.

(** [ToString] (after [ToPrimitive] for arrays and objects). *)
Fixpoint to_str (v : val) : jsstr :=
  match v with
  | VUndef => u "undefined"
  | VNull => u "null"
  | VBool true => u "true"
  | VBool false => u "false"
  | VNum n => num_to_str n
  | VStr s => s
  | VArr l =>
      (fix join (l : list val) : jsstr :=
         match l with
         | [] => []
         | x :: r =>
             let sx := match x with VUndef | VNull => [] | _ => to_str x end in
             match r with [] => sx | _ => sx ++ [44] ++ join r end
         end) l
  | VObj _ => u "[object Object]"
  end.

(** [JSON.parse(JSON.stringify(v))]: object properties holding [undefined]
    are dropped, [undefined] array elements become [null]. *)
Fixpoint jnorm (v : val) : val :=
  match v with
  | VArr l =>
      VArr ((fix go (l : list val) : list val :=
               match l with
               | [] => []
               | VUndef :: r => VNull :: go r
               | x :: r => jnorm x :: go r
               end) l)
  | VObj o =>
      VObj ((fix go (o : obj) : obj :=
               match o with
               | [] => []
               | (k, VUndef) :: r => go r
               | (k, x) :: r => (k, jnorm x) :: go r
               end) o)
  | _ => v
  end.

(** ** The credential codec: [hashPassword] and [verifyPassword] *)

Inductive exn : Type :=
| InvalidCharacterError
| RangeError
| TypeError.

Inductive result (A : Type) : Type :=
| Ret (a : A)
| Exc (e : exn).
Arguments Ret {A} a.
Arguments Exc {A} e.

Definition b64_char (n : Z) : Z :=
  if n <? 26 then 65 + n
  else if n <? 52 then 97 + (n - 26)
  else if n <? 62 then 48 + (n - 52)
  else if n =? 62 then 43 else 47.

(** Base64 encoding of a sequence of octets, with [=] padding. *)
Fixpoint base64 (l : list Z) : jsstr :=
  match l with
  | a :: b :: c :: r =>
      b64_char (a / 4) :: b64_char ((a mod 4) * 16 + b / 16)
      :: b64_char ((b mod 16) * 4 + c / 64) :: b64_char (c mod 64) :: base64 r
  | [a; b] =>
      [b64_char (a / 4); b64_char ((a mod 4) * 16 + b / 16);
       b64_char ((b mod 16) * 4); 61]
  | [a] => [b64_char (a / 4); b64_char ((a mod 4) * 16); 61; 61]
  | [] => []
  end.

Definition latin1 (c : Z) : bool := (0 <=? c) && (c <=? 255).

(** [btoa(s)]: throws an [InvalidCharacterError] on a code unit above
    U+00FF, otherwise Base64 of the code units taken as octets. *)
Definition btoa (s : jsstr) : result jsstr :=
  if forallb latin1 s then Ret (base64 s) else Exc InvalidCharacterError.

Definition salt : jsstr := u "saju2026_salt".

(** [hashPassword(password)] = [btoa(password + 'saju2026_salt')]. *)
Definition hashPassword (password : val) : result jsstr :=
  btoa (to_str password ++ salt).

(** [verifyPassword(input, hashed)] = [hashPassword(input) === hashed]. *)
Definition verifyPassword (input hashed : val) : result bool :=
  match hashPassword input with
  | Ret h => Ret (strict_eq (VStr h) hashed)
  | Exc e => Exc e
  end.

(** ** Time values and the [Date] built-ins used by the module

    A time value is a number of milliseconds since the epoch; a [Date] is a
    time value or NaN ([option Z]).  The host's local time zone and the
    implementation-specific part of [Date.parse] form a [host], passed to
    the functions that depend on them.  Day, month and year of a day number are those of the
    proleptic Gregorian calendar of ECMAScript, computed with the era-based
    (400-year cycle) algorithm. *)

Definition msPerDay : Z := 86400000.

Definition valid_time (t : Z) : bool := Z.abs t <=? 8640000000000000.

(** [TimeClip]. *)
Definition time_clip (t : Z) : option Z := if valid_time t then Some t else None.

(** Day number of the civil date [y]-[m]-[d] ([m] from 1 to 12). *)
Definition days_from_civil (y m d : Z) : Z :=
  let y' := if m <=? 2 then y - 1 else y in
  let era := y' / 400 in
  let yoe := y' - era * 400 in
  let mp := (m + 9) mod 12 in
  let doy := (153 * mp + 2) / 5 + d - 1 in
  let doe := yoe * 365 + yoe / 4 - yoe / 100 + doy in
  era * 146097 + doe - 719468.

(** Civil date [(year, month 1..12, day 1..31)] of a day number:
    YearFromTime, MonthFromTime + 1 and DateFromTime. *)
Definition civil_from_days (z : Z) : Z * Z * Z :=
  let z := z + 719468 in
  let era := z / 146097 in
  let doe := z - era * 146097 in
  let yoe := (doe - doe / 1460 + doe / 36524 - doe / 146096) / 365 in
  let y := yoe + era * 400 in
  let doy := doe - (365 * yoe + yoe / 4 - yoe / 100) in
  let mp := (5 * doy + 2) / 153 in
  let d := doy - (153 * mp + 2) / 5 + 1 in
  let m := if mp <? 10 then mp + 3 else mp - 9 in
  (if m <=? 2 then y + 1 else y, m, d).

(** [MakeDay(year, month, date)] with a 0-based [month] that may overflow. *)
Definition make_day (year month date : Z) : Z :=
  days_from_civil (year + month / 12) (month mod 12 + 1) 1 + date - 1.

(** [Date.prototype.toISOString]: [YYYY-MM-DDTHH:mm:ss.sssZ], with the
    six-digit signed year outside 0..9999; RangeError on an invalid time. *)
Definition iso_year (y : Z) : jsstr :=
  if (0 <=? y) && (y <=? 9999) then digits 4 y
  else (if y <? 0 then 45 else 43) :: digits 6 (Z.abs y).

Definition iso_string (t : Z) : jsstr :=
  let '(y, m, d) := civil_from_days (t / msPerDay) in
  let ms := t mod msPerDay in
  iso_year y ++ [45] ++ digits 2 m ++ [45] ++ digits 2 d ++ [84]
  ++ digits 2 (ms / 3600000) ++ [58] ++ digits 2 (ms / 60000 mod 60) ++ [58]
  ++ digits 2 (ms / 1000 mod 60) ++ [46] ++ digits 3 (ms mod 1000) ++ [90].

Definition toISOString (t : Z) : result jsstr :=
  if valid_time t then Ret (iso_string t) else Exc RangeError.

Definition is_digit (c : Z) : bool := (48 <=? c) && (c <=? 57).

Definition digits_val (a : jsstr) : Z :=
  fold_left (fun acc c => acc * 10 + (c - 48)) a 0.

Definition take_num (k : nat) (s : jsstr) : option (Z * jsstr) :=
  let a := firstn k s in
  if Nat.eqb (List.length a) k && forallb is_digit a
  then Some (digits_val a, skipn k s) else None.

Definition expect (c : Z) (s : jsstr) : option jsstr :=
  match s with
  | x :: r => if x =? c then Some r else None
  | [] => None
  end.

Definition parse_year (s : jsstr) : option (Z * jsstr) :=
  match s with
  | c :: r =>
      if c =? 43 then take_num 6 r
      else if c =? 45 then
        yr <-? take_num 6 r ;;
        if fst yr =? 0 then None else Some (- fst yr, snd yr)
      else take_num 4 s
  | [] => None
  end.

(** The fields of a string in the date-time format written by
    [toISOString]: the time it denotes, when the fields are in range (a day
    of month up to 31 rolls over). *)
Definition parse_iso (s : jsstr) : option Z :=
  yr <-? parse_year s ;; let (y, r) := yr in
  r <-? expect 45 r ;; mo <-? take_num 2 r ;; let (mo, r) := mo in
  r <-? expect 45 r ;; d <-? take_num 2 r ;; let (d, r) := d in
  r <-? expect 84 r ;; h <-? take_num 2 r ;; let (h, r) := h in
  r <-? expect 58 r ;; mi <-? take_num 2 r ;; let (mi, r) := mi in
  r <-? expect 58 r ;; sec <-? take_num 2 r ;; let (sec, r) := sec in
  r <-? expect 46 r ;; ms <-? take_num 3 r ;; let (ms, r) := ms in
  r <-? expect 90 r ;;
  match r with
  | [] =>
      if (1 <=? mo) && (mo <=? 12) && (1 <=? d) && (d <=? 31)
         && (h <=? 23) && (mi <=? 59) && (sec <=? 59)
      then time_clip (make_day y (mo - 1) d * msPerDay
                      + (h * 3600000 + mi * 60000 + sec * 1000 + ms))
      else None
  | _ => None
  end.

(** The host: its local time zone, as the offsets [LocalTZA(t, true)] of a
    UTC time [t] and [LocalTZA(t, false)] of a local time [t] (both in
    milliseconds, and free to vary with [t], as daylight saving time does),
    and [Date.parse] on the strings that are not written by [toISOString],
    whose reading is left to the implementation (date-only forms, other
    offsets, the implementation's own formats). *)
Record host : Type := mkHost {
  tz_utc : Z -> Z;
  tz_local : Z -> Z;
  parse_other : jsstr -> option Z
}.

(** [Date.parse(s)]: a string written by [toISOString] denotes its time;
    every other string is read by the host. *)
Definition parse_date (hst : host) (s : jsstr) : option Z :=
  match parse_iso s with
  | Some t => if jseqb (iso_string t) s then Some t else parse_other hst s
  | None => parse_other hst s
  end.

(** [new Date(v)] for a single argument: strings are parsed, other
    primitives converted to a number, arrays and objects through their
    string form. *)
Definition date_of_val (hst : host) (v : val) : option Z :=
  match v with
  | VStr s => parse_date hst s
  | VNum n => time_clip n
  | VNull => Some 0
  | VBool b => Some (if b then 1 else 0)
  | VUndef => None
  | VArr _ | VObj _ => parse_date hst (to_str v)
  end.

(** A host in UTC+9 all year (Seoul), whose own reading of other strings is
    that of the date-time format, with days of month rolling over. *)
Definition seoul : host := mkHost (fun _ => 32400000) (fun _ => 32400000) parse_iso.

(** The same host in UTC. *)
Definition utc : host := mkHost (fun _ => 0) (fun _ => 0) parse_iso.

(** The offsets of the host stay within [[lo, hi]] (today's time zones lie
    within [[-12 h, +14 h]]). *)
Definition offsets_within (hst : host) (lo hi : Z) : Prop :=
  forall x, lo <= tz_utc hst x <= hi /\ lo <= tz_local hst x <= hi.

Section LocalTime.

Variable hst : host.

Definition weekday_name (w : Z) : jsstr :=
  match w with
  | 0 => u "Sun" | 1 => u "Mon" | 2 => u "Tue" | 3 => u "Wed"
  | 4 => u "Thu" | 5 => u "Fri" | _ => u "Sat"
  end.

Definition month_name (m : Z) : jsstr :=
  match m with
  | 1 => u "Jan" | 2 => u "Feb" | 3 => u "Mar" | 4 => u "Apr"
  | 5 => u "May" | 6 => u "Jun" | 7 => u "Jul" | 8 => u "Aug"
  | 9 => u "Sep" | 10 => u "Oct" | 11 => u "Nov" | _ => u "Dec"
  end.

(** The local day number of a time value: [Day(LocalTime(t))]. *)
Definition local_day (t : Z) : Z := (t + tz_utc hst t) / msPerDay.

(** [Date.prototype.toDateString]: [Www Mmm DD YYYY] in local time. *)
Definition toDateString (d : option Z) : jsstr :=
  match d with
  | None => u "Invalid Date"
  | Some t =>
      let day := local_day t in
      let '(y, m, dd) := civil_from_days day in
      weekday_name ((day + 4) mod 7) ++ [32] ++ month_name m ++ [32]
      ++ zpad 2 dd ++ [32] ++ (if y <? 0 then [45] else []) ++ zpad 4 (Z.abs y)
  end.

(** [d.setMonth(d.getMonth() + k)] on [d = new Date()] at time [t]: the
    local date moves [k] months on at the same local time of day, and
    [UTC] converts it back with the offset of that local time. *)
Definition add_months (t k : Z) : option Z :=
  let lt := t + tz_utc hst t in
  let '(y, m, d) := civil_from_days (lt / msPerDay) in
  let nl := make_day y (m - 1 + k) d * msPerDay + lt mod msPerDay in
  time_clip (nl - tz_local hst nl).

End LocalTime.

(** ** Storage and the state and exception monad *)

(** The two localStorage entries: the parsed [saju2026_users] array (an
    absent entry reads as [[]]), and the parsed [saju2026_current_user]
    session, [None] when the entry is absent. *)
Record state : Type := mkState {
  users : list val;
  current : option val
}.

Definition M (A : Type) : Type := state -> result A * state.

Definition ret {A} (a : A) : M A := fun st => (Ret a, st).

Definition bind {A B} (m : M A) (k : A -> M B) : M B :=
  fun st =>
    match m st with
    | (Ret a, st') => k a st'
    | (Exc e, st') => (Exc e, st')
    end.

Definition throw {A} (e : exn) : M A := fun st => (Exc e, st).

Definition lift {A} (r : result A) : M A :=
  match r with Ret a => ret a | Exc e => throw e end.

Notation "x <- m ;; k" := (bind m (fun x => k))
  (at level 61, m at next level, right associativity).
Notation "m ;;; k" := (bind m (fun _ => k))
  (at level 61, right associativity).

Definition K (s : string) : jsstr := u s.

(** [getUsers()]. *)
Definition getUsers : M (list val) := fun st => (Ret (users st), st).

(** The array written back by [JSON.stringify] and read by [JSON.parse]. *)
Definition jnorm_list (l : list val) : list val :=
  match jnorm (VArr l) with VArr l' => l' | _ => [] end.

(** [localStorage.setItem(USER_STORAGE_KEY, JSON.stringify(users))]. *)
Definition store_users (l : list val) : M unit :=
  fun st => (Ret tt, mkState (jnorm_list l) (current st)).

(** [getCurrentUser()]. *)
Definition getCurrentUser : M (option val) := fun st => (Ret (current st), st).

(** [users.find(pred)]. *)
Fixpoint find (p : val -> bool) (l : list val) : option val :=
  match l with
  | [] => None
  | x :: r => if p x then Some x else find p r
  end.

(** [users.findIndex(pred)], [None] for [-1]. *)
Fixpoint findIndex (p : val -> bool) (l : list val) : option nat :=
  match l with
  | [] => None
  | x :: r => if p x then Some 0%nat else option_map S (findIndex p r)
  end.

(** [users[i] = x] for an index [i] in range. *)
Fixpoint replace_nth (i : nat) (x : val) (l : list val) : list val :=
  match l, i with
  | [], _ => []
  | _ :: r, O => x :: r
  | y :: r, S i' => y :: replace_nth i' x r
  end.

Definition by_id (id : val) (x : val) : bool := strict_eq (fld x (K "id")) id.
Definition by_email (email : val) (x : val) : bool :=
  strict_eq (fld x (K "email")) email.

(** [saveUser(user)]. *)
Definition saveUser (user : val) : M unit :=
  users <- getUsers ;;
  match findIndex (by_id (fld user (K "id"))) users with
  | Some i => store_users (replace_nth i user users)
  | None => store_users (users ++ [user])
  end.

(** [sanitizeUser(user)]: [const { password, ...sanitized } = user].
    Only records (objects) are passed to it. *)
Definition sanitizeUser (user : val) : val :=
  match user with
  | VObj o => VObj (filter (fun kv => negb (jseqb (fst kv) (K "password"))) o)
  | _ => VObj []
  end.

(** [setCurrentUser(user)]. *)
Definition setCurrentUser (user : val) : M unit :=
  fun st => (Ret tt, mkState (users st) (Some (jnorm (sanitizeUser user)))).

(** [localStorage.removeItem(CURRENT_USER_KEY)]. *)
Definition clearCurrentUser : M unit :=
  fun st => (Ret tt, mkState (users st) None).

(** [user.k = v] on a record. *)
Definition set_fld (v : val) (k : jsstr) (x : val) : val :=
  match v with
  | VObj o => VObj (oset o k x)
  | _ => v
  end.

(** The result objects of the module. *)
Definition fail (msg : jsstr) : val :=
  VObj [(K "success", VBool false); (K "message", VStr msg)].

Definition ok_with (msg : jsstr) (k : jsstr) (x : val) : val :=
  VObj [(K "success", VBool true); (K "message", VStr msg); (k, x)].

Definition msg_required := K "필수 정보를 모두 입력해주세요.".
Definition msg_bad_email := K "올바른 이메일 형식이 아닙니다.".
Definition msg_short_password := K "비밀번호는 최소 8자 이상이어야 합니다.".
Definition msg_bad_phone :=
  K "올바른 전화번호 형식이 아닙니다. (예: 010-1234-5678)".
Definition msg_email_taken := K "이미 가입된 이메일입니다.".
Definition msg_registered := K "회원가입이 완료되었습니다!".
Definition msg_login_required := K "이메일과 비밀번호를 입력해주세요.".
Definition msg_not_registered := K "가입되지 않은 이메일입니다.".
Definition msg_wrong_password := K "비밀번호가 올바르지 않습니다.".
Definition msg_logged_in := K "로그인 되었습니다!".
Definition msg_logged_out := K "로그아웃 되었습니다.".
Definition msg_user_not_found := K "사용자를 찾을 수 없습니다.".
Definition msg_email_in_use := K "이미 사용중인 이메일입니다.".
Definition msg_updated := K "정보가 업데이트되었습니다.".
Definition msg_temp_sent := K "임시 비밀번호가 이메일로 전송되었습니다.".

(** ** Validation *)

(** [\s] of JavaScript regular expressions. *)
Definition is_ws (c : Z) : bool :=
  (9 <=? c) && (c <=? 13) || (c =? 32) || (c =? 160) || (c =? 5760)
  || (8192 <=? c) && (c <=? 8202) || (c =? 8232) || (c =? 8233)
  || (c =? 8239) || (c =? 8287) || (c =? 12288) || (c =? 65279).

(** [[^\s@]+]. *)
Definition plus_nc (s : jsstr) : bool :=
  match s with
  | [] => false
  | _ => forallb (fun c => negb (is_ws c) && negb (c =? 64)) s
  end.

(** All the ways to write [s] as [a ++ [ch] ++ b]. *)
Fixpoint splits_on (ch : Z) (s : jsstr) : list (jsstr * jsstr) :=
  match s with
  | [] => []
  | c :: r =>
      let rest := map (fun ab => (c :: fst ab, snd ab)) (splits_on ch r) in
      if c =? ch then ([], r) :: rest else rest
  end.

(** [isValidEmail]: [/^[^\s@]+@[^\s@]+\.[^\s@]+$/.test(email)]. *)
Definition isValidEmail (email : jsstr) : bool :=
  existsb (fun ar =>
    plus_nc (fst ar) &&
    existsb (fun bc => plus_nc (fst bc) && plus_nc (snd bc)) (splits_on 46 (snd ar)))
    (splits_on 64 email).

(** [isValidPassword]: [password.length >= 8]. *)
Definition isValidPassword (password : jsstr) : bool :=
  Nat.leb 8 (List.length password).

Definition four_digits (s : jsstr) : option jsstr :=
  match s with
  | a :: b :: c :: d :: r =>
      if is_digit a && is_digit b && is_digit c && is_digit d then Some r else None
  | _ => None
  end.

(** The alternatives of [-?]: with the hyphen first. *)
Definition opt_hyphen (s : jsstr) : list jsstr :=
  match s with
  | c :: r => if c =? 45 then [r; s] else [s]
  | [] => [s]
  end.

(** [isValidPhone]: [/^01[0-9]-?[0-9]{4}-?[0-9]{4}$/.test(phone)]. *)
Definition isValidPhone (phone : jsstr) : bool :=
  match phone with
  | z :: o :: d :: r =>
      (z =? 48) && (o =? 49) && is_digit d &&
      existsb (fun r1 =>
        match four_digits r1 with
        | Some r2 =>
            existsb (fun r3 =>
              match four_digits r3 with Some [] => true | _ => false end)
              (opt_hyphen r2)
        | None => false
        end) (opt_hyphen r)
  | _ => false
  end.

(** ** Public operations *)

(** Value of [Math.random().toString(36).substr(2, n)] and of [Date.now()]
    are inputs of the operations that use them: [rnd] and [now]. *)

(** [generateUserId()]. *)
Definition generateUserId (now : Z) (rnd : jsstr) : jsstr :=
  K "user_" ++ num_to_str now ++ K "_" ++ rnd.

(** The fields [register] destructures from [userData]; the sign-up form
    passes strings, an absent field is [None] ([undefined]). *)
Record reg_input : Type := mkRegInput {
  in_email : option jsstr;
  in_password : option jsstr;
  in_name : option jsstr;
  in_phone : option jsstr;
  in_birthDate : option jsstr;
  in_birthTime : option jsstr;
  in_gender : option jsstr;
  in_calendarType : option jsstr
}.

(** [x] is truthy: present and non-empty. *)
Definition given (x : option jsstr) : option jsstr :=
  match x with
  | Some ((_ :: _) as s) => Some s
  | _ => None
  end.

(** [x || d]. *)
Definition or_default (x : option jsstr) (d : val) : val :=
  match given x with Some s => VStr s | None => d end.

(** [register(userData)]. *)
Definition register (now : Z) (rnd : jsstr) (input : reg_input) : M val :=
  match given (in_email input), given (in_password input), given (in_name input) with
  | Some email, Some password, Some name =>
      if negb (isValidEmail email) then ret (fail msg_bad_email)
      else if negb (isValidPassword password) then ret (fail msg_short_password)
      else if match given (in_phone input) with
              | Some phone => negb (isValidPhone phone)
              | None => false
              end
      then ret (fail msg_bad_phone)
      else
        users <- getUsers ;;
        match find (by_email (VStr email)) users with
        | Some _ => ret (fail msg_email_taken)
        | None =>
            h <- lift (hashPassword (VStr password)) ;;
            created <- lift (toISOString now) ;;
            last <- lift (toISOString now) ;;
            let newUser := VObj [
              (K "id", VStr (generateUserId now rnd));
              (K "email", VStr email);
              (K "password", VStr h);
              (K "name", VStr name);
              (K "phone", or_default (in_phone input) VNull);
              (K "birthDate", or_default (in_birthDate input) VNull);
              (K "birthTime", or_default (in_birthTime input) VNull);
              (K "gender", or_default (in_gender input) VNull);
              (K "calendarType", or_default (in_calendarType input) (VStr (K "solar")));
              (K "membershipType", VStr (K "free"));
              (K "premiumExpiry", VNull);
              (K "createdAt", VStr created);
              (K "lastLogin", VStr last);
              (K "sajuData", VNull);
              (K "purchaseHistory", VArr []);
              (K "consultationHistory", VArr [])] in
            saveUser newUser ;;;
            ret (ok_with msg_registered (K "user") (sanitizeUser newUser))
        end
  | _, _, _ => ret (fail msg_required)
  end.

(** [login(email, password)]. *)
Definition login (now : Z) (email password : jsstr) : M val :=
  match email, password with
  | [], _ | _, [] => ret (fail msg_login_required)
  | _, _ =>
      users <- getUsers ;;
      match find (by_email (VStr email)) users with
      | None => ret (fail msg_not_registered)
      | Some user =>
          okp <- lift (verifyPassword (VStr password) (fld user (K "password"))) ;;
          if negb okp then ret (fail msg_wrong_password)
          else
            ts <- lift (toISOString now) ;;
            let user' := set_fld user (K "lastLogin") (VStr ts) in
            saveUser user' ;;;
            setCurrentUser user' ;;;
            ret (ok_with msg_logged_in (K "user") (sanitizeUser user'))
      end
  end.

(** [logout()]. *)
Definition logout : M val :=
  clearCurrentUser ;;;
  ret (VObj [(K "success", VBool true); (K "message", VStr msg_logged_out)]).

(** [updateUser(userId, updates)]; [updates] is the caller's object. *)
Definition updateUser (userId : val) (updates : obj) : M val :=
  users <- getUsers ;;
  match find (by_id userId) users with
  | None => ret (fail msg_user_not_found)
  | Some user =>
      updates <- (if truthy (oget updates (K "password"))
                  then h <- lift (hashPassword (oget updates (K "password"))) ;;
                       ret (oset updates (K "password") (VStr h))
                  else ret updates) ;;
      let ne := oget updates (K "email") in
      if truthy ne && negb (strict_eq ne (fld user (K "email")))
         && match find (fun x => by_email ne x && negb (by_id userId x)) users with
            | Some _ => true
            | None => false
            end
      then ret (fail msg_email_in_use)
      else
        let user' := match user with
                     | VObj o => VObj (oassign o updates)
                     | _ => user
                     end in
        saveUser user' ;;;
        cur <- getCurrentUser ;;
        (match cur with
         | Some c => if strict_eq (fld c (K "id")) userId
                     then setCurrentUser user' else ret tt
         | None => ret tt
         end) ;;;
        ret (ok_with msg_updated (K "user") (sanitizeUser user'))
  end.

(** [saveSajuData(userId, sajuData)]. *)
Definition saveSajuData (now : Z) (userId sajuData : val) : M val :=
  users <- getUsers ;;
  match find (by_id userId) users with
  | None => ret (fail msg_user_not_found)
  | Some user =>
      ts <- lift (toISOString now) ;;
      let user' := set_fld (set_fld user (K "sajuData") sajuData)
                           (K "sajuCalculatedAt") (VStr ts) in
      saveUser user' ;;;
      cur <- getCurrentUser ;;
      (match cur with
       | Some c => if strict_eq (fld c (K "id")) userId
                   then setCurrentUser user' else ret tt
       | None => ret tt
       end) ;;;
      ret (VObj [(K "success", VBool true)])
  end.

(** [history.unshift(record)] on the field [k] of [user]. *)
Definition unshift_fld (user : val) (k : jsstr) (record : val) : M val :=
  match fld user k with
  | VArr l => ret (set_fld user k (VArr (record :: l)))
  | _ => throw TypeError
  end.

(** [if (!user.k) user.k = [];]. *)
Definition ensure_array (user : val) (k : jsstr) : val :=
  if truthy (fld user k) then user else set_fld user k (VArr []).

(** The record literal [{ id: idv, ...input, date: new Date().toISOString() }]. *)
Definition history_record (idv : jsstr) (input : obj) (date : jsstr) : val :=
  VObj (oset (oassign [(K "id", VStr idv)] input) (K "date") (VStr date)).

Definition is_premium_type (v : val) : bool :=
  strict_eq v (VStr (K "premium_monthly")) || strict_eq v (VStr (K "premium_yearly")).

(** [addPurchaseHistory(userId, purchase)] on the host [hst]. *)
Definition addPurchaseHistory (hst : host) (now : Z) (userId : val) (purchase : obj) : M val :=
  users <- getUsers ;;
  match find (by_id userId) users with
  | None => ret (fail msg_user_not_found)
  | Some user =>
      let user := ensure_array user (K "purchaseHistory") in
      date <- lift (toISOString now) ;;
      let record := history_record (K "purchase_" ++ num_to_str now) purchase date in
      user <- unshift_fld user (K "purchaseHistory") record ;;
      saveUser user ;;;
      let ty := oget purchase (K "type") in
      (if is_premium_type ty then
         let k := if strict_eq ty (VStr (K "premium_yearly")) then 12 else 1 in
         expiry <- (match add_months hst now k with
                    | Some e => lift (toISOString e)
                    | None => throw RangeError
                    end) ;;
         updateUser userId [(K "membershipType", VStr (K "premium"));
                            (K "premiumExpiry", VStr expiry)] ;;;
         ret tt
       else ret tt) ;;;
      ret (VObj [(K "success", VBool true); (K "purchase", record)])
  end.

(** [addConsultationHistory(userId, consultation)]. *)
Definition addConsultationHistory (now : Z) (userId : val) (consultation : obj) : M val :=
  users <- getUsers ;;
  match find (by_id userId) users with
  | None => ret (fail msg_user_not_found)
  | Some user =>
      let user := ensure_array user (K "consultationHistory") in
      date <- lift (toISOString now) ;;
      let record := history_record (K "consult_" ++ num_to_str now) consultation date in
      user <- unshift_fld user (K "consultationHistory") record ;;
      saveUser user ;;;
      ret (VObj [(K "success", VBool true); (K "consultation", record)])
  end.

(** [c.date] inside the filter callback: a TypeError on [null]/[undefined]. *)
Definition get_date (c : val) : result val :=
  match c with
  | VUndef | VNull => Exc TypeError
  | _ => Ret (fld c (K "date"))
  end.

(** The [filter(...).length] of [getTodayConsultationCount]. *)
Fixpoint count_today (hst : host) (today : jsstr) (l : list val) : result Z :=
  match l with
  | [] => Ret 0
  | c :: r =>
      match get_date c, count_today hst today r with
      | Ret d, Ret n =>
          Ret (if jseqb (toDateString hst (date_of_val hst d)) today then n + 1 else n)
      | Exc e, _ | _, Exc e => Exc e
      end
  end.

(** [getTodayConsultationCount(userId)]. *)
Definition getTodayConsultationCount (hst : host) (now : Z) (userId : val) : M Z :=
  users <- getUsers ;;
  match find (by_id userId) users with
  | None => ret 0
  | Some user =>
      let h := fld user (K "consultationHistory") in
      if negb (truthy h) then ret 0
      else
        let today := toDateString hst (time_clip now) in
        match h with
        | VArr l => lift (count_today hst today l)
        | _ => throw TypeError
        end
  end.

(** [isPremiumUser()], on the published session. *)
Definition isPremiumUser (hst : host) (now : Z) : M bool :=
  cur <- getCurrentUser ;;
  match cur with
  | None => ret false
  | Some user =>
      if strict_eq (fld user (K "membershipType")) (VStr (K "premium")) then
        let e := fld user (K "premiumExpiry") in
        if negb (truthy e) then ret true
        else ret (match date_of_val hst e, time_clip now with
                  | Some x, Some y => y <? x
                  | _, _ => false
                  end)
      else ret false
  end.

(** [isLoggedIn()] = [getCurrentUser() !== null]. *)
Definition isLoggedIn : M bool :=
  cur <- getCurrentUser ;;
  ret (match cur with Some _ => true | None => false end).

(** [resetPassword(email)]; [rnd] is the random suffix of the temporary
    password. *)
Definition resetPassword (rnd : jsstr) (email : val) : M val :=
  users <- getUsers ;;
  match find (by_email email) users with
  | None => ret (fail msg_not_registered)
  | Some user =>
      let tempPassword := K "temp" ++ rnd in
      h <- lift (hashPassword (VStr tempPassword)) ;;
      saveUser (set_fld user (K "password") (VStr h)) ;;;
      ret (VObj [(K "success", VBool true); (K "message", VStr msg_temp_sent);
                 (K "tempPassword", VStr tempPassword)])
  end.

(** [initializeUsers()], run when the module is loaded. *)
Definition initializeUsers (now : Z) (rnd : jsstr) : M unit :=
  users <- getUsers ;;
  match users with
  | [] =>
      h <- lift (hashPassword (VStr (K "demo1234"))) ;;
      created <- lift (toISOString now) ;;
      last <- lift (toISOString now) ;;
      saveUser (VObj [
        (K "id", VStr (generateUserId now rnd));
        (K "email", VStr (K "demo@saju2026.com"));
        (K "password", VStr h);
        (K "name", VStr (K "홍길동"));
        (K "phone", VStr (K "010-1234-5678"));
        (K "birthDate", VStr (K "1990-05-15"));
        (K "birthTime", VStr (K "자시(子時, 23:30-01:29)"));
        (K "gender", VStr (K "male"));
        (K "calendarType", VStr (K "lunar"));
        (K "membershipType", VStr (K "free"));
        (K "premiumExpiry", VNull);
        (K "createdAt", VStr created);
        (K "lastLogin", VStr last);
        (K "sajuData", VNull);
        (K "purchaseHistory", VArr []);
        (K "consultationHistory", VArr [])])
  | _ => ret tt
  end.

(** ** Runs of the module *)

(** One call of a public function of the module (or its load), with the
    environment's values of [Date.now()], [Math.random()] suffixes and the
    local time zone; the state after the call, whether it returned or threw. *)
Inductive step (hst : host) : state -> state -> Prop :=
| step_init : forall now rnd st r st',
    initializeUsers now rnd st = (r, st') -> step hst st st'
| step_register : forall now rnd input st r st',
    register now rnd input st = (r, st') -> step hst st st'
| step_login : forall now email password st r st',
    login now email password st = (r, st') -> step hst st st'
| step_logout : forall st r st',
    logout st = (r, st') -> step hst st st'
| step_setCurrentUser : forall user st r st',
    setCurrentUser user st = (r, st') -> step hst st st'
| step_update : forall userId updates st r st',
    updateUser userId updates st = (r, st') -> step hst st st'
| step_saveSajuData : forall now userId data st r st',
    saveSajuData now userId data st = (r, st') -> step hst st st'
| step_purchase : forall now userId purchase st r st',
    addPurchaseHistory hst now userId purchase st = (r, st') -> step hst st st'
| step_consultation : forall now userId c st r st',
    addConsultationHistory now userId c st = (r, st') -> step hst st st'
| step_reset : forall rnd email st r st',
    resetPassword rnd email st = (r, st') -> step hst st st'.

Definition empty_state : state := mkState [] None.

(** States reachable from an empty localStorage. *)
Inductive reachable (hst : host) : state -> Prop :=
| reach_empty : reachable hst empty_state
| reach_step : forall st st', reachable hst st -> step hst st st' -> reachable hst st'.

(** ** Notions used by the statements *)

(** [k in v] for a record [v]. *)
Definition has_key (v : val) (k : jsstr) : bool :=
  match v with
  | VObj o => ohas o k
  | _ => false
  end.

(** The published session holds no credential verifier. *)
Definition session_redacted (st : state) : Prop :=
  match current st with
  | Some v => has_key v (K "password") = false
  | None => True
  end.

(** A sign-up form as the page submits it. *)
Definition sample_input : reg_input :=
  mkRegInput (Some (K "kim@example.com")) (Some (K "secret123")) (Some (K "김철수"))
    (Some (K "010-9876-5432")) (Some (K "1992-03-04")) None (Some (K "female")) None.

(** A computation keeps the state property [P]. *)
Definition preserves (P : state -> Prop) {A : Type} (m : M A) : Prop :=
  forall st r st', m st = (r, st') -> P st -> P st'.

(** Every normal result of a computation satisfies [Q]. *)
Definition returns {A : Type} (Q : A -> Prop) (m : M A) : Prop :=
  forall st r st', m st = (Ret r, st') -> Q r.

(** Weakest precondition: [Q] holds of the outcome of [m] run from [st]. *)
Definition wp {A : Type} (m : M A) (Q : result A -> state -> Prop) (st : state) : Prop :=
  let (r, st') := m st in Q r st'.

(** The [user] field of a result object holds no credential verifier. *)
Definition user_redacted (r : val) : Prop :=
  has_key (fld r (K "user")) (K "password") = false.

(** The checks [register] makes after the required fields, in its order,
    each with the message it fails with. *)
Definition register_checks (us : list val) (email password : jsstr) (phone : option jsstr)
  : list (bool * jsstr) :=
  [(isValidEmail email, msg_bad_email);
   (isValidPassword password, msg_short_password);
   (match given phone with Some p => isValidPhone p | None => true end, msg_bad_phone);
   (match find (by_email (VStr email)) us with Some _ => false | None => true end,
    msg_email_taken)].

Fixpoint first_failure (l : list (bool * jsstr)) : option jsstr :=
  match l with
  | [] => None
  | (ok, msg) :: r => if ok then first_failure r else Some msg
  end.

(** An input that breaks the email, secret-length and phone checks. *)
Definition bad_input : reg_input :=
  mkRegInput (Some (K "kim-at-example")) (Some (K "short")) (Some (K "김철수"))
    (Some (K "02-123-4567")) None None None None.

(** The outcomes of [login(email, secret)] by case. *)
Definition login_cases (now : Z) (email secret : jsstr) (st : state) : Prop :=
  ((email = [] \/ secret = []) ->
     login now email secret st = (Ret (fail msg_login_required), st)) /\
  (email <> [] -> secret <> [] -> find (by_email (VStr email)) (users st) = None ->
     login now email secret st = (Ret (fail msg_not_registered), st)) /\
  (forall u, email <> [] -> secret <> [] -> find (by_email (VStr email)) (users st) = Some u ->
     verifyPassword (VStr secret) (fld u (K "password")) = Ret false ->
     login now email secret st = (Ret (fail msg_wrong_password), st)) /\
  (forall u, email <> [] -> secret <> [] -> find (by_email (VStr email)) (users st) = Some u ->
     verifyPassword (VStr secret) (fld u (K "password")) = Ret true ->
     let u' := set_fld u (K "lastLogin") (VStr (iso_string now)) in
     login now email secret st =
       (Ret (ok_with msg_logged_in (K "user") (sanitizeUser u')),
        mkState (users (snd (saveUser u' st))) (Some (jnorm (sanitizeUser u'))))) /\
  (forall v, exists b, verifyPassword (VStr secret) v = Ret b).

(** An array element after [JSON.stringify]/[JSON.parse]. *)
Definition jnorm_elem (x : val) : val := match x with VUndef => VNull | _ => jnorm x end.

(** An account registered from [sample_input], and an update whose patch
    carries an [id]. *)
Definition reg_state : state :=
  snd (register 1700000000000 (K "x7k2") sample_input empty_state).

Definition reg_uid : val := fld (hd VUndef (users reg_state)) (K "id").

Definition id_patch_run : result val * state :=
  updateUser reg_uid [(K "id", VStr (K "hacked"))] reg_state.

(** [check_range f z n]: [f] holds on [z], [z + 1], ..., [z + n - 1]. *)
Fixpoint check_range (f : Z -> bool) (z : Z) (n : nat) : bool :=
  match n with
  | O => true
  | S n' => f z && check_range f (z + 1) n'
  end.

(** The twelve month abbreviations of [toDateString] are pairwise distinct. *)
Definition month_names_distinct : bool :=
  check_range (fun i => check_range (fun j =>
    Bool.eqb (jseqb (month_name i) (month_name j)) (i =? j)) 1 12) 1 12.

(** The filter of [getTodayConsultationCount] on a consultation record [c]:
    [new Date(c.date)] falls on the local day of [now]. *)
Definition same_day (hst : host) (now : Z) (c : val) : bool :=
  match date_of_val hst (fld c (K "date")) with
  | Some t => local_day hst t =? local_day hst now
  | None => false
  end.

(** An account with three consultations dated on the day of
    2023-11-15 07:13:20 in Seoul (UTC+9) and two on the day before. *)
Definition consult_at (t : Z) : val := VObj [(K "date", VStr (iso_string t))].

Definition today_history : list val :=
  [consult_at 1700000000000; consult_at (1700000000000 - 3600000);
   consult_at (1700000000000 - 18000000); consult_at (1700000000000 - 36000000);
   consult_at (1700000000000 - 72000000)].

Definition today_user : val :=
  VObj [(K "id", VStr (K "u1")); (K "consultationHistory", VArr today_history)].

(** The demo account of [initializeUsers], logged in. *)
Definition demo_state : state :=
  snd (initializeUsers 1700000000000 (K "abc123xyz") empty_state).
Definition demo_session : state :=
  snd (login 1700000000000 (K "demo@saju2026.com") (K "demo1234") demo_state).
Definition demo_uid : jsstr :=
  match fld (hd VUndef (users demo_session)) (K "id") with VStr s => s | _ => [] end.
Definition expiry_patch_state (e : val) : state :=
  snd (updateUser (VStr demo_uid)
         [(K "membershipType", VStr (K "premium")); (K "premiumExpiry", e)] demo_session).
Definition monthly_run : result val * state :=
  addPurchaseHistory seoul 1700000000000 (VStr demo_uid)
    [(K "type", VStr (K "premium_monthly"))] demo_session.

(** The demo account after an update that stores the consultation history
    [[null]]. *)
Definition demo_null_history : state :=
  snd (updateUser (VStr demo_uid) [(K "consultationHistory", VArr [VNull])] demo_state).

(** Two accounts, and a patch of the first that takes the e-mail of the
    second. *)
Definition two_accounts : state :=
  mkState [VObj [(K "id", VStr (K "u1")); (K "email", VStr (K "a@b.co"))];
           VObj [(K "id", VStr (K "u2")); (K "email", VStr (K "c@d.co"))]] None.

(** Caller input carrying its own [id] (and, for a consultation, [date]). *)
Definition caller_purchase : obj :=
  [(K "id", VStr (K "caller_id")); (K "type", VStr (K "reading"))].
Definition caller_consultation : obj :=
  [(K "id", VStr (K "caller_id")); (K "date", VStr (K "1999-01-01T00:00:00.000Z"));
   (K "question", VStr (K "올해 운세"))].
Definition purchase_run : result val * state :=
  addPurchaseHistory utc 1700000100000 reg_uid caller_purchase reg_state.
Definition consultation_run : result val * state :=
  addConsultationHistory 1700000100000 reg_uid caller_consultation reg_state.
Definition first_entry (st : state) (k : jsstr) : val :=
  match fld (hd VUndef (users st)) k with VArr (r :: _) => r | _ => VUndef end.


(** ** Notions of the history and e-mail properties *)

(** The two ledgers of an account. *)
Inductive ledger : Type := Purchases | Consultations.

Definition ledger_field (l : ledger) : jsstr :=
  match l with Purchases => K "purchaseHistory" | Consultations => K "consultationHistory" end.

Definition ledger_prefix (l : ledger) : jsstr :=
  match l with Purchases => K "purchase_" | Consultations => K "consult_" end.

(** [addPurchaseHistory(userId, input)] or [addConsultationHistory(userId, input)]. *)
Definition append_record (l : ledger) (hst : host) (now : Z) (userId : val) (input : obj) : M val :=
  match l with
  | Purchases => addPurchaseHistory hst now userId input
  | Consultations => addConsultationHistory now userId input
  end.

(** The stored record [rec] of an append at time [now] with the caller's [input]:
    the ledger's date, the caller's [id] when the input has one (the ledger's
    otherwise), and every other field of the input after [JSON] normalisation. *)
Definition ledger_record (l : ledger) (now : Z) (input : obj) (rec : val) : Prop :=
  fld rec (K "date") = VStr (iso_string now) /\
  fld rec (K "id") = (if ohas input (K "id") then jnorm (oget input (K "id"))
                      else VStr (ledger_prefix l ++ num_to_str now)) /\
  forall k, k <> K "id" -> k <> K "date" -> fld rec k = jnorm (oget input k).

(** Induction on values through the arrays and objects they contain. *)
Section ValInd.

Variable P : val -> Prop.

Hypothesis HUndef : P VUndef.

Hypothesis HNull : P VNull.

Hypothesis HBool : forall b, P (VBool b).

Hypothesis HNum : forall n, P (VNum n).

Hypothesis HStr : forall s, P (VStr s).

Hypothesis HArr : forall l, Forall P l -> P (VArr l).

Hypothesis HObj : forall o, Forall (fun kv => P (snd kv)) o -> P (VObj o).

Fixpoint val_ind_nested (v : val) : P v :=
  match v with
  | VUndef => HUndef
  | VNull => HNull
  | VBool b => HBool b
  | VNum n => HNum n
  | VStr s => HStr s
  | VArr l =>
      HArr l ((fix go (l : list val) : Forall P l :=
                 match l with
                 | [] => Forall_nil _
                 | x :: r => Forall_cons _ (val_ind_nested x) (go r)
                 end) l)
  | VObj o =>
      HObj o ((fix go (o : obj) : Forall (fun kv => P (snd kv)) o :=
                 match o with
                 | [] => Forall_nil _
                 | (k, x) :: r => @Forall_cons _ (fun kv => P (snd kv)) (k, x) r
                                    (val_ind_nested x) (go r)
                 end) o)
  end.

End ValInd.

(** The properties [JSON.parse(JSON.stringify(.))] keeps. *)
Fixpoint jprops (o : obj) : obj :=
  match o with
  | [] => []
  | (k, VUndef) :: r => jprops r
  | (k, x) :: r => (k, jnorm x) :: jprops r
  end.

(** The array [x.f] starts with [R]. *)
Definition heads_with (f : jsstr) (R : val) (x : val) : Prop :=
  exists rest, fld x f = VArr (R :: rest).

(** A purchase whose caller supplies an [id] and a [date]. *)
Definition forged_input : obj :=
  [(K "id", VStr (K "forged")); (K "date", VStr (K "1999-01-01"));
   (K "type", VStr (K "saju_report")); (K "amount", VNum 9900)].

(** One account with an empty purchase history. *)
Definition ledger_state : state :=
  mkState [VObj [(K "id", VStr (K "u1")); (K "email", VStr (K "a@b.co"));
                 (K "purchaseHistory", VArr [])]] None.

(** A stored account: an object with distinct keys and a string id. *)
Definition record_ok (x : val) : Prop :=
  match x with
  | VObj o => NoDup (map fst o) /\ exists s, oget o (K "id") = VStr s
  | _ => False
  end.

(** [x.email && x.email === y.email], and [x.id === y.id]. *)
Definition same_email (x y : val) : bool :=
  truthy (fld x (K "email")) && strict_eq (fld x (K "email")) (fld y (K "email")).

Definition same_id (x y : val) : bool := strict_eq (fld x (K "id")) (fld y (K "id")).

(** The accounts array: well-formed records, ids and emails each held by at most
    one slot. *)
Definition store_ok (l : list val) : Prop :=
  Forall record_ok l /\
  (forall i j xi xj, nth_error l i = Some xi -> nth_error l j = Some xj ->
     same_id xi xj = true -> i = j) /\
  (forall i j xi xj, nth_error l i = Some xi -> nth_error l j = Some xj ->
     same_email xi xj = true -> i = j).

(** An [updateUser] patch that is a JavaScript object (distinct keys) without an
    [id] property. *)
Definition id_free_patch (p : obj) : Prop := ohas p (K "id") = false /\ NoDup (map fst p).

(** The calls of [step] where every [updateUser] patch is [id_free_patch]. *)
Inductive guarded_step (hst : host) : state -> state -> Prop :=
| gstep_init : forall now rnd st r st',
    initializeUsers now rnd st = (r, st') -> guarded_step hst st st'
| gstep_register : forall now rnd input st r st',
    register now rnd input st = (r, st') -> guarded_step hst st st'
| gstep_login : forall now email password st r st',
    login now email password st = (r, st') -> guarded_step hst st st'
| gstep_logout : forall st r st',
    logout st = (r, st') -> guarded_step hst st st'
| gstep_setCurrentUser : forall user st r st',
    setCurrentUser user st = (r, st') -> guarded_step hst st st'
| gstep_update : forall userId updates st r st',
    id_free_patch updates ->
    updateUser userId updates st = (r, st') -> guarded_step hst st st'
| gstep_saveSajuData : forall now userId data st r st',
    saveSajuData now userId data st = (r, st') -> guarded_step hst st st'
| gstep_purchase : forall now userId purchase st r st',
    addPurchaseHistory hst now userId purchase st = (r, st') -> guarded_step hst st st'
| gstep_consultation : forall now userId c st r st',
    addConsultationHistory now userId c st = (r, st') -> guarded_step hst st st'
| gstep_reset : forall rnd email st r st',
    resetPassword rnd email st = (r, st') -> guarded_step hst st st'.

(** The states reached from the empty storage by such calls. *)
Inductive guarded_reachable (hst : host) : state -> Prop :=
| greach_empty : guarded_reachable hst empty_state
| greach_step : forall st st', guarded_reachable hst st -> guarded_step hst st st' ->
    guarded_reachable hst st'.

(** Distinct keys, decided. *)
Fixpoint keys_nodupb (l : list jsstr) : bool :=
  match l with
  | [] => true
  | k :: r => negb (existsb (jseqb k) r) && keys_nodupb r
  end.

(** The record [w] saved into [L] clashes by email only with a slot of its own id. *)
Definition save_cond (L : list val) (w : val) : Prop :=
  forall j xj, nth_error L j = Some xj -> same_email w xj = true -> same_id xj w = true.

(** The demo account of the module load, then an account registered from
    [sample_input]. *)
Definition demo_reg_state : state :=
  snd (register 1700000000000 (K "x7k2") sample_input demo_state).

(** Every property of a stored object record holds a defined value: the
    [JSON] round trip of [saveUser] drops the properties set to [undefined]. *)
Definition defined_fields (x : val) : Prop :=
  match x with VObj o => Forall (fun kv => snd kv <> VUndef) o | _ => True end.

Definition store_normal (st : state) : Prop := Forall defined_fields (users st).

(** Every stored record is its own [JSON] round trip. *)
Definition store_fixed (st : state) : Prop := Forall (fun x => jnorm_elem x = x) (users st).

(** A store whose only account has a [null] entry in its consultation history. *)
Definition null_history_state : state :=
  mkState [VObj [(K "id", VStr (K "u1")); (K "consultationHistory", VArr [VNull])]] None.

(** * Properties *)

(** ** Basic facts about strings and values *)

Lemma jseqb_refl : forall s, jseqb s s = true.
Proof. induction s as [|c s IH]; simpl; [reflexivity|rewrite Z.eqb_refl; exact IH]. Qed.

Lemma jseqb_eq : forall a b, jseqb a b = true <-> a = b.
Proof.
  induction a as [|x a IH]; destruct b as [|y b]; simpl; split; intro H;
    try discriminate; try reflexivity.
  - apply andb_prop in H as [H1 H2]. apply Z.eqb_eq in H1.
    apply IH in H2. subst. reflexivity.
  - injection H as -> ->. rewrite Z.eqb_refl. apply jseqb_refl.
Qed.

Lemma jseqb_neq : forall a b, jseqb a b = false <-> a <> b.
Proof.
  intros a b. split.
  - intros H E. apply jseqb_eq in E. congruence.
  - intros H. destruct (jseqb a b) eqn:E; [apply jseqb_eq in E; congruence|reflexivity].
Qed.

Lemma salt_latin1 : forallb latin1 salt = true.
Proof. reflexivity. Qed.

Lemma codec_non_latin1_hash : forall s : jsstr, forallb latin1 s = false ->
  hashPassword (VStr s) = Exc InvalidCharacterError /\
  forall v, verifyPassword (VStr s) v = Exc InvalidCharacterError.
Proof.
  intros s Hs.
  assert (Hh : hashPassword (VStr s) = Exc InvalidCharacterError).
  { unfold hashPassword, btoa. simpl to_str. rewrite forallb_app, Hs. reflexivity. }
  split; [exact Hh|]. intros v. unfold verifyPassword. rewrite Hh. reflexivity.
Qed.

(** ** C1: the credential codec *)

(** For every string [s] whose code units are all within Latin-1
    (U+0000..U+00FF), [hashPassword(s)] returns a verifier [h] (a function
    of [s] alone, hence deterministic), [verifyPassword(s, h)] is true, and
    [verifyPassword(s, v)] is true exactly when [h === v]. *)
Theorem codec_latin1_roundtrip :
  forall s : jsstr, forallb latin1 s = true ->
  exists h : jsstr,
    hashPassword (VStr s) = Ret h /\
    verifyPassword (VStr s) (VStr h) = Ret true /\
    (forall v, verifyPassword (VStr s) v = Ret (strict_eq (VStr h) v)).
Proof.
  intros s Hs.
  exists (base64 (s ++ salt)).
  assert (Hh : hashPassword (VStr s) = Ret (base64 (s ++ salt))).
  { unfold hashPassword, btoa. simpl.
    rewrite forallb_app, Hs, salt_latin1. reflexivity. }
  split; [exact Hh|]. split.
  - unfold verifyPassword. rewrite Hh. simpl. rewrite jseqb_refl. reflexivity.
  - intros v. unfold verifyPassword. rewrite Hh. reflexivity.
Qed.

(** C1 (code bug). For every secret [s] with a code unit above U+00FF
    (such as a Korean secret), [hashPassword(s)] throws an
    [InvalidCharacterError] from [btoa], so no verifier exists, and
    [verifyPassword(s, v)] throws it too for every [v]. *)
Theorem codec_non_latin1_throws : forall s : jsstr, forallb latin1 s = false ->
  hashPassword (VStr s) = Exc InvalidCharacterError /\
  forall v, verifyPassword (VStr s) v = Exc InvalidCharacterError.
Proof. exact codec_non_latin1_hash. Qed.

Lemma codec_non_latin1_throws_witness :
  forallb latin1 (K "비밀번호1234") = false /\
  hashPassword (VStr (K "비밀번호1234")) = Exc InvalidCharacterError /\
  verifyPassword (VStr (K "비밀번호1234")) (VStr (K "abc")) = Exc InvalidCharacterError.
Proof.
  assert (H : forallb latin1 (K "비밀번호1234") = false) by reflexivity.
  split; [exact H|]. destruct (codec_non_latin1_throws _ H) as [H1 H2].
  split; [exact H1|apply H2].
Defined.

Lemma codec_latin1_roundtrip_witness :
  forallb latin1 (K "demo1234") = true /\
  exists h : jsstr,
    hashPassword (VStr (K "demo1234")) = Ret h /\
    verifyPassword (VStr (K "demo1234")) (VStr h) = Ret true /\
    (forall v, verifyPassword (VStr (K "demo1234")) v = Ret (strict_eq (VStr h) v)).
Proof. split; [reflexivity|]. apply (codec_latin1_roundtrip (K "demo1234")). reflexivity. Defined.

(** ** Symbolic execution of the monad *)

Arguments K : simpl never.

Lemma fail_success : forall m, fld (fail m) (K "success") = VBool false.
Proof. reflexivity. Qed.

Lemma ok_with_success : forall m k x, fld (ok_with m k x) (K "success") = VBool true.
Proof. reflexivity. Qed.

Ltac run_in H :=
  cbv beta iota zeta delta [bind ret lift throw getUsers getCurrentUser store_users
    setCurrentUser clearCurrentUser saveUser] in H.

Ltac split_in H :=
  repeat (run_in H;
    match type of H with
    | context [match ?x with _ => _ end] =>
        lazymatch x with
        | context [match _ with _ => _ end] => fail
        | _ => destruct x eqn:?
        end
    end); run_in H.

Ltac finish_pair H :=
  match type of H with
  | (_, _) = (_, _) => injection H as <- <-
  end.

(** ** C10: failures leave the store and the session untouched *)

Lemma register_fail_atomic : forall now rnd input st r st',
  register now rnd input st = (Ret r, st') ->
  fld r (K "success") = VBool false -> st' = st.
Proof.
  intros now rnd input st r st' H Hf. unfold register in H.
  split_in H; try discriminate; finish_pair H; try reflexivity;
    rewrite ?ok_with_success in Hf; discriminate.
Qed.

Lemma login_fail_atomic : forall now email password st r st',
  login now email password st = (Ret r, st') ->
  fld r (K "success") = VBool false -> st' = st.
Proof.
  intros now email password st r st' H Hf. unfold login in H.
  split_in H; try discriminate; finish_pair H; try reflexivity;
    rewrite ?ok_with_success in Hf; discriminate.
Qed.

Lemma update_fail_atomic : forall userId updates st r st',
  updateUser userId updates st = (Ret r, st') ->
  fld r (K "success") = VBool false -> st' = st.
Proof.
  intros userId updates st r st' H Hf. unfold updateUser in H.
  split_in H; try discriminate; finish_pair H; try reflexivity;
    rewrite ?ok_with_success in Hf; discriminate.
Qed.

Lemma reset_fail_atomic : forall rnd email st r st',
  resetPassword rnd email st = (Ret r, st') ->
  fld r (K "success") = VBool false -> st' = st.
Proof.
  intros rnd email st r st' H Hf. unfold resetPassword in H.
  split_in H; try discriminate; finish_pair H; try reflexivity; discriminate.
Qed.

(** C10. Whenever [register], [login], [updateUser] or [resetPassword]
    returns a failure result ([success: false]: validation, unknown
    account, wrong password, e-mail conflict), the stored account
    collection and the published session are exactly those before the
    call. *)
Theorem failure_leaves_state_unchanged :
  (forall now rnd input st r st', register now rnd input st = (Ret r, st') ->
     fld r (K "success") = VBool false -> st' = st) /\
  (forall now email password st r st', login now email password st = (Ret r, st') ->
     fld r (K "success") = VBool false -> st' = st) /\
  (forall userId updates st r st', updateUser userId updates st = (Ret r, st') ->
     fld r (K "success") = VBool false -> st' = st) /\
  (forall rnd email st r st', resetPassword rnd email st = (Ret r, st') ->
     fld r (K "success") = VBool false -> st' = st).
Proof.
  split; [exact register_fail_atomic|].
  split; [exact login_fail_atomic|].
  split; [exact update_fail_atomic|exact reset_fail_atomic].
Qed.

(** ** Reasoning rules for the monad *)

Section Preserves.
Variable P : state -> Prop.

Lemma pres_ret : forall A (a : A), preserves P (ret a).
Proof. intros A a st r st' E H. injection E as _ <-. exact H. Qed.

Lemma pres_throw : forall A e, preserves P (@throw A e).
Proof. intros A e st r st' E H. injection E as _ <-. exact H. Qed.

Lemma pres_lift : forall A (x : result A), preserves P (lift x).
Proof. intros A [a|e]; [apply pres_ret|apply pres_throw]. Qed.

Lemma pres_getUsers : preserves P getUsers.
Proof. intros st r st' E H. injection E as _ <-. exact H. Qed.

Lemma pres_getCurrentUser : preserves P getCurrentUser.
Proof. intros st r st' E H. injection E as _ <-. exact H. Qed.

Lemma pres_bind : forall A B (m : M A) (k : A -> M B),
  preserves P m -> (forall a, preserves P (k a)) -> preserves P (bind m k).
Proof.
  intros A B m k Hm Hk st r st' E H. unfold bind in E.
  destruct (m st) as [[a|e] s1] eqn:Em.
  - exact (Hk a s1 r st' E (Hm st _ s1 Em H)).
  - injection E as _ <-. exact (Hm st _ s1 Em H).
Qed.

End Preserves.

Lemma rets_ret : forall A (Q : A -> Prop) a, Q a -> returns Q (ret a).
Proof. intros A Q a H st r st' E. injection E as <- _. exact H. Qed.

Lemma rets_throw : forall A (Q : A -> Prop) e, returns Q (throw e).
Proof. intros A Q e st r st' E. discriminate E. Qed.

Lemma rets_bind : forall A B (Q : B -> Prop) (m : M A) (k : A -> M B),
  (forall a, returns Q (k a)) -> returns Q (bind m k).
Proof.
  intros A B Q m k Hk st r st' E. unfold bind in E.
  destruct (m st) as [[a|e] s1] eqn:Em; [exact (Hk a s1 r st' E)|discriminate E].
Qed.

(** Walk a computation, splitting on its conditionals; [hint] handles the
    calls the generic rules do not cover. *)
Ltac pres_step hint :=
  match goal with
  | |- preserves _ (bind _ _) => apply pres_bind; [|intro]
  | |- preserves _ (ret _) => apply pres_ret
  | |- preserves _ (throw _) => apply pres_throw
  | |- preserves _ (lift _) => apply pres_lift
  | |- preserves _ getUsers => apply pres_getUsers
  | |- preserves _ getCurrentUser => apply pres_getCurrentUser
  | |- preserves _ (match ?x with _ => _ end) => destruct x; cbv beta iota zeta
  | |- preserves _ (let _ := _ in _) => cbv zeta
  | |- preserves _ _ => hint
  end.

Ltac pres hint := repeat (pres_step hint).

Ltac rets_step hint :=
  match goal with
  | |- returns _ (bind _ _) => apply rets_bind; intro
  | |- returns _ (ret _) => apply rets_ret; hint
  | |- returns _ (throw _) => apply rets_throw
  | |- returns _ (match ?x with _ => _ end) => destruct x; cbv beta iota zeta
  | |- returns _ (let _ := _ in _) => cbv zeta
  end.

Ltac rets hint := repeat (rets_step hint).

(** ** C4: redaction of the credential verifier *)

Lemma sanitize_no_password : forall v, has_key (sanitizeUser v) (K "password") = false.
Proof.
  intros [| | | | | |o]; try reflexivity. simpl sanitizeUser.
  induction o as [|[k x] o IH]; [reflexivity|]. simpl filter.
  destruct (jseqb k (K "password")) eqn:E; simpl negb; cbv iota; [exact IH|].
  simpl. rewrite E. exact IH.
Qed.

Lemma jnorm_has_key : forall v k, has_key v k = false -> has_key (jnorm v) k = false.
Proof.
  intros [| | | | | |o] k H; try reflexivity; try exact H.
  simpl in H |- *. induction o as [|[k' x] o IH]; [reflexivity|].
  simpl in H. apply orb_false_iff in H as [H1 H2].
  destruct x; simpl; rewrite ?H1; simpl; auto.
Qed.

Lemma session_jnorm_sanitize : forall v,
  has_key (jnorm (sanitizeUser v)) (K "password") = false.
Proof. intros v. apply jnorm_has_key, sanitize_no_password. Qed.

Lemma fld_ok_with_user : forall m x, fld (ok_with m (K "user") x) (K "user") = x.
Proof. reflexivity. Qed.

Lemma redacted_store : forall l, preserves session_redacted (store_users l).
Proof. intros l st r st' E H. injection E as _ <-. exact H. Qed.

Lemma redacted_saveUser : forall u, preserves session_redacted (saveUser u).
Proof. intros u. unfold saveUser. pres ltac:(apply redacted_store). Qed.

Lemma redacted_setCurrentUser : forall u, preserves session_redacted (setCurrentUser u).
Proof. intros u st r st' E _. injection E as _ <-. apply session_jnorm_sanitize. Qed.

Lemma redacted_clearCurrentUser : preserves session_redacted clearCurrentUser.
Proof. intros st r st' E _. injection E as _ <-. exact I. Qed.

Ltac red_hint :=
  first [ apply redacted_store | apply redacted_saveUser | apply redacted_setCurrentUser
        | apply redacted_clearCurrentUser ].

Lemma register_redacted : forall now rnd input,
  preserves session_redacted (register now rnd input).
Proof. intros. unfold register. pres red_hint. Qed.

Lemma login_redacted : forall now e p, preserves session_redacted (login now e p).
Proof. intros. unfold login. pres red_hint. Qed.

Lemma update_redacted : forall i p, preserves session_redacted (updateUser i p).
Proof. intros. unfold updateUser. pres red_hint. Qed.

Lemma purchase_redacted : forall hst now i c,
  preserves session_redacted (addPurchaseHistory hst now i c).
Proof.
  intros. unfold addPurchaseHistory, unshift_fld.
  pres ltac:(first [red_hint | apply update_redacted]).
Qed.

Lemma saveSajuData_redacted : forall now i d,
  preserves session_redacted (saveSajuData now i d).
Proof. intros. unfold saveSajuData. pres red_hint. Qed.

Lemma consultation_redacted : forall now i c,
  preserves session_redacted (addConsultationHistory now i c).
Proof. intros. unfold addConsultationHistory, unshift_fld. pres red_hint. Qed.

Lemma reset_redacted : forall rnd e, preserves session_redacted (resetPassword rnd e).
Proof. intros. unfold resetPassword. pres red_hint. Qed.

Lemma init_redacted : forall now rnd, preserves session_redacted (initializeUsers now rnd).
Proof. intros. unfold initializeUsers. pres red_hint. Qed.

Lemma logout_redacted : preserves session_redacted logout.
Proof. unfold logout. pres red_hint. Qed.

Lemma reachable_redacted : forall hst st, reachable hst st -> session_redacted st.
Proof.
  intros hst st R. induction R as [|st st' R IH S]; [exact I|].
  destruct S as [now rnd st r st' E|now rnd inp st r st' E|now e p st r st' E|st r st' E
    |v st r st' E|i p st r st' E|now i d st r st' E|now i p st r st' E|now i c st r st' E
    |rnd e st r st' E].
  - exact (init_redacted _ _ _ _ _ E IH).
  - exact (register_redacted _ _ _ _ _ _ E IH).
  - exact (login_redacted _ _ _ _ _ _ E IH).
  - exact (logout_redacted _ _ _ E IH).
  - exact (redacted_setCurrentUser _ _ _ _ E IH).
  - exact (update_redacted _ _ _ _ _ E IH).
  - exact (saveSajuData_redacted _ _ _ _ _ _ E IH).
  - exact (purchase_redacted _ _ _ _ _ _ _ E IH).
  - exact (consultation_redacted _ _ _ _ _ _ E IH).
  - exact (reset_redacted _ _ _ _ _ E IH).
Qed.

Ltac user_hint :=
  first [ reflexivity
        | unfold user_redacted; rewrite fld_ok_with_user; apply sanitize_no_password ].

Lemma register_user_redacted : forall now rnd input,
  returns user_redacted (register now rnd input).
Proof. intros. unfold register. rets user_hint. Qed.

Lemma login_user_redacted : forall now e p, returns user_redacted (login now e p).
Proof. intros. unfold login. rets user_hint. Qed.

Lemma update_user_redacted : forall i p, returns user_redacted (updateUser i p).
Proof. intros. unfold updateUser. rets user_hint. Qed.

(** C4. Every account view handed out has no [password] property: the
    [user] field of every normal result of [register], [login] and
    [updateUser], and the published session ([getCurrentUser()]) in every
    state reachable from an empty storage by any sequence of calls of the
    module's functions. *)
Theorem redacted_views :
  (forall now rnd input, returns user_redacted (register now rnd input)) /\
  (forall now email password, returns user_redacted (login now email password)) /\
  (forall userId updates, returns user_redacted (updateUser userId updates)) /\
  (forall hst st, reachable hst st -> session_redacted st).
Proof.
  split; [exact register_user_redacted|].
  split; [exact login_user_redacted|].
  split; [exact update_user_redacted|exact reachable_redacted].
Qed.

Lemma redacted_views_witness :
  match register 1700000000000 (K "x7k2") sample_input empty_state with
  | (Ret r, _) => user_redacted r
  | _ => False
  end.
Proof.
  destruct (register 1700000000000 (K "x7k2") sample_input empty_state)
    as [[r|e] st'] eqn:E.
  - destruct redacted_views as [Hreg _]. exact (Hreg _ _ _ _ r st' E).
  - vm_compute in E. discriminate.
Defined.

(** ** Weakest preconditions *)

Lemma wp_bind : forall A B (m : M A) (k : A -> M B) Q st,
  wp m (fun r s => match r with Ret a => wp (k a) Q s | Exc e => Q (Exc e) s end) st ->
  wp (bind m k) Q st.
Proof. unfold wp, bind. intros A B m k Q st H. destruct (m st) as [[a|e] s]; exact H. Qed.

Lemma wp_ret : forall A (a : A) Q st, Q (Ret a) st -> wp (ret a) Q st.
Proof. intros A a Q st H. exact H. Qed.

Lemma wp_throw : forall A e Q st, Q (Exc e) st -> wp (@throw A e) Q st.
Proof. intros A e Q st H. exact H. Qed.

Lemma wp_lift : forall A (x : result A) Q st, Q x st -> wp (lift x) Q st.
Proof. intros A [a|e] Q st H; exact H. Qed.

Lemma wp_getUsers : forall Q st, Q (Ret (users st)) st -> wp getUsers Q st.
Proof. intros Q st H. exact H. Qed.

Lemma wp_getCurrentUser : forall Q st, Q (Ret (current st)) st -> wp getCurrentUser Q st.
Proof. intros Q st H. exact H. Qed.

Lemma wp_store_users : forall l Q st,
  Q (Ret tt) (mkState (jnorm_list l) (current st)) -> wp (store_users l) Q st.
Proof. intros l Q st H. exact H. Qed.

Lemma wp_setCurrentUser : forall u Q st,
  Q (Ret tt) (mkState (users st) (Some (jnorm (sanitizeUser u)))) ->
  wp (setCurrentUser u) Q st.
Proof. intros u Q st H. exact H. Qed.

Lemma wp_clearCurrentUser : forall Q st,
  Q (Ret tt) (mkState (users st) None) -> wp clearCurrentUser Q st.
Proof. intros Q st H. exact H. Qed.

(** A call left unexpanded: [Q] holds of whatever it returns. *)
Lemma wp_call : forall A (m : M A) Q st,
  (forall r s, m st = (r, s) -> Q r s) -> wp m Q st.
Proof. intros A m Q st H. unfold wp. destruct (m st) as [r s]. apply H. reflexivity. Qed.

Lemma wp_run : forall A (m : M A) Q st r st',
  m st = (r, st') -> wp m Q st -> Q r st'.
Proof. intros A m Q st r st' E H. unfold wp in H. rewrite E in H. exact H. Qed.

Lemma wp_eval : forall A (m : M A) st, wp m (fun r s => m st = (r, s)) st.
Proof. intros A m st. unfold wp. destruct (m st). reflexivity. Qed.

(** One step of the symbolic run of a goal [wp m Q st]; [updateUser] is
    left as a call (the operations that use it are verified through its own
    properties). *)
Ltac wp_step :=
  cbv beta iota;
  match goal with
  | |- wp (bind _ _) _ _ => apply wp_bind
  | |- wp (ret _) _ _ => apply wp_ret
  | |- wp (throw _) _ _ => apply wp_throw
  | |- wp (lift _) _ _ => apply wp_lift
  | |- wp getUsers _ _ => apply wp_getUsers
  | |- wp getCurrentUser _ _ => apply wp_getCurrentUser
  | |- wp (store_users _) _ _ => apply wp_store_users
  | |- wp (setCurrentUser _) _ _ => apply wp_setCurrentUser
  | |- wp clearCurrentUser _ _ => apply wp_clearCurrentUser
  | |- wp (saveUser _) _ _ => unfold saveUser
  | |- wp (let _ := _ in _) _ _ => cbv zeta
  | |- wp (match ?x with _ => _ end) _ _ => destruct x eqn:?
  | |- wp (updateUser _ _) _ _ => apply wp_call; intros ?r ?s ?E
  | |- match ?x with _ => _ end => destruct x eqn:?
  end.

Ltac wp_all := repeat wp_step; cbv beta iota.

(** Turn [m st = (r, st')] into the goal [wp m Q st] for the goal [Q r st']. *)
Ltac wp_from H :=
  match type of H with
  | ?m ?st = (?r, ?st') =>
      match goal with
      | |- ?G =>
          let Q := eval pattern r, st' in G in
          match Q with
          | ?F r st' => apply (wp_run _ m F st r st' H); clear H
          end
      end
  end.

(** ** C6: the order of the registration checks *)

(** C6: [register] fails with [msg_required] when email, secret or name is
    missing; otherwise it fails with the message of the first failing check of
    [register_checks] (email shape, secret length, phone shape when a phone is
    given, email not taken), and leaves the state as it was. *)
Theorem register_first_violation : forall now rnd input st,
  ((given (in_email input) = None \/ given (in_password input) = None \/
    given (in_name input) = None) ->
   register now rnd input st = (Ret (fail msg_required), st)) /\
  (forall email password name msg,
     given (in_email input) = Some email -> given (in_password input) = Some password ->
     given (in_name input) = Some name ->
     first_failure (register_checks (users st) email password (in_phone input)) = Some msg ->
     register now rnd input st = (Ret (fail msg), st)).
Proof.
  intros now rnd input st. split.
  - intros Hreq. unfold register.
    destruct (given (in_email input)), (given (in_password input)), (given (in_name input));
      try reflexivity; intuition discriminate.
  - intros email password name msg He Hp Hn Hf. unfold register.
    rewrite He, Hp, Hn. unfold register_checks, first_failure in Hf.
    destruct (isValidEmail email); [|injection Hf as <-; reflexivity].
    destruct (isValidPassword password); [|injection Hf as <-; reflexivity].
    destruct (given (in_phone input)) as [ph|].
    + destruct (isValidPhone ph); [|injection Hf as <-; reflexivity].
      cbv beta iota delta [negb bind getUsers ret].
      lazymatch goal with |- context [find ?p ?l] => destruct (find p l) end;
        [injection Hf as <-; reflexivity|discriminate].
    + cbv beta iota delta [negb bind getUsers ret].
      lazymatch goal with |- context [find ?p ?l] => destruct (find p l) end;
        [injection Hf as <-; reflexivity|discriminate].
Qed.

Lemma register_first_violation_witness :
  first_failure (register_checks [] (K "kim-at-example") (K "short") (Some (K "02-123-4567")))
    = Some msg_bad_email /\
  register 1700000000000 (K "x7k2") bad_input empty_state = (Ret (fail msg_bad_email), empty_state).
Proof.
  split; [vm_compute; reflexivity|].
  destruct (register_first_violation 1700000000000 (K "x7k2") bad_input empty_state) as [_ H].
  apply (H (K "kim-at-example") (K "short") (K "김철수")); vm_compute; reflexivity.
Defined.

(** ** C5: the outcomes of login *)

Lemma hash_latin1 : forall s, forallb latin1 s = true ->
  hashPassword (VStr s) = Ret (base64 (s ++ salt)).
Proof.
  intros s Hs. unfold hashPassword, btoa. simpl to_str.
  rewrite forallb_app, Hs, salt_latin1. reflexivity.
Qed.

Lemma toISOString_valid : forall t, valid_time t = true -> toISOString t = Ret (iso_string t).
Proof. intros t H. unfold toISOString. rewrite H. reflexivity. Qed.

(** For a valid clock and a Latin-1 secret, [login] fails with
    [msg_login_required] on an empty email or secret, with
    [msg_not_registered] when no record has the email, with
    [msg_wrong_password] when the verifier does not match; on a match it sets
    [lastLogin], saves the record, publishes the redacted session and returns
    the redacted record; and the verifier check itself never throws. *)
Theorem login_outcomes : forall now email secret st,
  valid_time now = true -> forallb latin1 secret = true ->
  login_cases now email secret st.
Proof.
  intros now email secret st Hnow Hs. unfold login_cases.
  assert (Hv : forall v, verifyPassword (VStr secret) v
                         = Ret (strict_eq (VStr (base64 (secret ++ salt))) v)).
  { intros v. unfold verifyPassword. rewrite hash_latin1 by exact Hs. reflexivity. }
  split; [|split; [|split; [|split]]].
  - intros [-> | ->]; unfold login; [reflexivity|destruct email; reflexivity].
  - intros He Hp Hf. unfold login.
    destruct email as [|c e]; [congruence|]. destruct secret as [|d s]; [congruence|].
    cbv beta iota delta [bind getUsers ret]. rewrite Hf. reflexivity.
  - intros u He Hp Hf Hb. unfold login.
    destruct email as [|c e]; [congruence|]. destruct secret as [|d s]; [congruence|].
    cbv beta iota delta [bind getUsers ret]. rewrite Hf.
    cbv beta iota delta [bind lift ret]. rewrite Hb. reflexivity.
  - intros u He Hp Hf Hb. unfold login.
    destruct email as [|c e]; [congruence|]. destruct secret as [|d s]; [congruence|].
    cbv beta iota delta [bind getUsers ret]. rewrite Hf.
    cbv beta iota delta [bind lift ret]. rewrite Hb, toISOString_valid by exact Hnow.
    cbv beta iota delta [bind lift ret negb setCurrentUser].
    set (u' := set_fld u (K "lastLogin") (VStr (iso_string now))).
    destruct (saveUser u' st) as [[[]|e0] s1] eqn:Es.
    + reflexivity.
    + exfalso. revert Es. unfold saveUser, bind, getUsers, store_users.
      destruct findIndex; discriminate.
  - intros v. eexists. apply Hv.
Qed.

Lemma login_outcomes_witness :
  valid_time 1700000000000 = true /\ forallb latin1 (K "demo1234") = true /\
  login_cases 1700000000000 (K "demo@saju2026.com") (K "demo1234")
    (snd (initializeUsers 1700000000000 (K "abc123xyz") empty_state)).
Proof.
  split; [reflexivity|split; [reflexivity|]].
  apply login_outcomes; reflexivity.
Defined.

(** C5 (code bug). When the email and the secret are non-empty, a stored
    account has that email and the secret has a code unit above U+00FF,
    [login] neither fails with a message nor succeeds: [verifyPassword]
    throws an [InvalidCharacterError] from [btoa], whatever the stored
    verifier, and the state is left as it was. *)
Theorem login_non_latin1_throws : forall now email secret st user,
  email <> [] -> secret <> [] ->
  find (by_email (VStr email)) (users st) = Some user ->
  forallb latin1 secret = false ->
  login now email secret st = (Exc InvalidCharacterError, st).
Proof.
  intros now email secret st user He Hp Hf Hs. unfold login.
  destruct email as [|c e]; [congruence|]. destruct secret as [|d r]; [congruence|].
  cbv beta iota delta [bind getUsers ret]. rewrite Hf.
  cbv beta iota delta [bind lift ret].
  rewrite (proj2 (codec_non_latin1_hash _ Hs)). reflexivity.
Qed.

Lemma login_non_latin1_throws_witness :
  login 1700000000000 (K "demo@saju2026.com") (K "비밀번호1234") demo_state
    = (Exc InvalidCharacterError, demo_state).
Proof.
  apply (login_non_latin1_throws _ _ _ _
           (match find (by_email (VStr (K "demo@saju2026.com"))) (users demo_state) with
            | Some u => u | None => VUndef end));
    [discriminate|discriminate|vm_compute; reflexivity|reflexivity].
Defined.

(** ** C9: the id across an update *)

Lemma strict_eq_true : forall a b, strict_eq a b = true -> a = b.
Proof.
  intros [| | b1 | n1 | s1 | l1 | o1] [| | b2 | n2 | s2 | l2 | o2] H; simpl in H;
    try discriminate; try reflexivity.
  - apply Bool.eqb_prop in H. subst. reflexivity.
  - apply Z.eqb_eq in H. subst. reflexivity.
  - apply jseqb_eq in H. subst. reflexivity.
Qed.

Lemma find_findIndex : forall p l u, find p l = Some u ->
  exists i, findIndex p l = Some i /\ nth_error l i = Some u.
Proof.
  intros p l u. induction l as [|x l IH]; simpl; [discriminate|].
  destruct (p x) eqn:E.
  - intros H. injection H as <-. exists 0%nat. split; reflexivity.
  - intros H. destruct (IH H) as [i [H1 H2]]. exists (S i). rewrite H1. split; [reflexivity|exact H2].
Qed.

Lemma findIndex_some : forall p l i, findIndex p l = Some i ->
  exists u, nth_error l i = Some u /\ p u = true.
Proof.
  intros p l. induction l as [|x l IH]; intros i; simpl; [discriminate|].
  destruct (p x) eqn:E.
  - intros H. injection H as <-. exists x. split; [reflexivity|exact E].
  - destruct (findIndex p l) as [j|] eqn:Ej; simpl; [|discriminate].
    intros H. injection H as <-. exact (IH j eq_refl).
Qed.

Lemma findIndex_none : forall p l, findIndex p l = None -> find p l = None.
Proof.
  intros p l. induction l as [|x l IH]; simpl; [reflexivity|].
  destruct (p x); [discriminate|]. destruct (findIndex p l); [discriminate|].
  intros _. apply IH. reflexivity.
Qed.

Lemma nth_error_replace_nth : forall l i x u, nth_error l i = Some u ->
  nth_error (replace_nth i x l) i = Some x.
Proof.
  induction l as [|y l IH]; intros [|i] x u H; simpl in *; try discriminate.
  - reflexivity.
  - exact (IH i x u H).
Qed.

Lemma jnorm_arr : forall l, jnorm (VArr l) = VArr (map jnorm_elem l).
Proof.
  induction l as [|x l IH]; [reflexivity|].
  simpl in IH. injection IH as IH.
  destruct x; simpl; rewrite IH; reflexivity.
Qed.

Lemma nth_error_jnorm_list : forall l i u, nth_error l i = Some u ->
  nth_error (jnorm_list l) i = Some (jnorm_elem u).
Proof.
  intros l i u H. unfold jnorm_list. rewrite jnorm_arr, nth_error_map, H. reflexivity.
Qed.

Lemma oget_jnorm : forall o k v, oget o k = v -> v <> VUndef ->
  fld (jnorm (VObj o)) k = jnorm v.
Proof.
  induction o as [|[k' x] o IH]; intros k v H Hv; simpl in H.
  - subst. congruence.
  - specialize (IH k). simpl in IH |- *.
    destruct (jseqb k' k) eqn:E.
    + subst v. destruct x; try congruence; simpl; rewrite E; reflexivity.
    + destruct x; simpl; rewrite ?E; apply IH; assumption.
Qed.

Lemma oget_oset_other : forall o k k' v, jseqb k k' = false ->
  oget (oset o k v) k' = oget o k'.
Proof.
  induction o as [|[k0 x] o IH]; intros k k' v H; simpl.
  - rewrite H. reflexivity.
  - destruct (jseqb k0 k) eqn:E.
    + apply jseqb_eq in E. subst k0. simpl. rewrite H. reflexivity.
    + simpl. destruct (jseqb k0 k'); [reflexivity|]. apply IH. exact H.
Qed.

Lemma oget_oassign_other : forall p o k, ohas p k = false ->
  oget (oassign o p) k = oget o k.
Proof.
  unfold oassign. induction p as [|[k0 x] p IH]; intros o k H; simpl in *; [reflexivity|].
  apply orb_false_iff in H as [H1 H2]. rewrite IH by exact H2.
  apply oget_oset_other. exact H1.
Qed.

Lemma ohas_oset_other : forall p k k' v, jseqb k k' = false ->
  ohas (oset p k v) k' = ohas p k'.
Proof.
  induction p as [|[k0 x] p IH]; intros k k' v H; simpl.
  - rewrite H. reflexivity.
  - destruct (jseqb k0 k) eqn:E.
    + apply jseqb_eq in E. subst k0. simpl. rewrite H. reflexivity.
    + simpl. rewrite IH by exact H. reflexivity.
Qed.

Lemma oget_filter : forall (f : jsstr * val -> bool) o k,
  (forall x, f (k, x) = true) -> oget (filter f o) k = oget o k.
Proof.
  intros f o k Hf. induction o as [|[k0 x] o IH]; simpl; [reflexivity|].
  destruct (jseqb k0 k) eqn:E.
  - apply jseqb_eq in E. subst k0. rewrite Hf. simpl. rewrite jseqb_refl. reflexivity.
  - destruct (f (k0, x)); simpl; rewrite ?E; exact IH.
Qed.

Lemma fld_sanitize : forall o k, jseqb k (K "password") = false ->
  fld (sanitizeUser (VObj o)) k = oget o k.
Proof.
  intros o k H. simpl. apply oget_filter. intros x. simpl. rewrite H. reflexivity.
Qed.

Lemma find_sat : forall p l x, find p l = Some x -> p x = true.
Proof.
  intros p l x. induction l as [|y l IH]; simpl; [discriminate|].
  destruct (p y) eqn:E; [intros H; injection H as <-; exact E | exact IH].
Qed.

Lemma fld_by_id : forall uid v, by_id (VStr uid) v = true -> fld v (K "id") = VStr uid.
Proof. intros uid v H. apply strict_eq_true. exact H. Qed.

Section UpdateSlot.
Variables (uid : jsstr) (v : val) (p' : obj) (l : list val).
Hypothesis Hp : ohas p' (K "id") = false.
Hypothesis Hf : find (by_id (VStr uid)) l = Some v.

(** The record [updateUser] stores: [{ ...user, ...updates }]. *)
Local Notation user' := (match v with VObj o => VObj (oassign o p') | _ => v end).

Lemma updated_record_id : fld user' (K "id") = VStr uid.
Proof.
  pose proof (fld_by_id _ _ (find_sat _ _ _ Hf)) as Hv.
  destruct v; try discriminate Hv.
  simpl in *. rewrite oget_oassign_other by exact Hp. exact Hv.
Qed.

Lemma update_slot_none : findIndex (by_id (fld user' (K "id"))) l = None -> False.
Proof.
  rewrite updated_record_id. intros H. apply findIndex_none in H. congruence.
Qed.

Lemma update_slot : forall n,
  findIndex (by_id (fld user' (K "id"))) l = Some n ->
  exists i u u',
    findIndex (by_id (VStr uid)) l = Some i /\
    nth_error l i = Some u /\ fld u (K "id") = VStr uid /\
    nth_error (jnorm_list (replace_nth n user' l)) i = Some u' /\
    fld u' (K "id") = VStr uid /\
    fld (fld (ok_with msg_updated (K "user") (sanitizeUser user')) (K "user")) (K "id")
      = VStr uid.
Proof.
  intros n Hn. rewrite updated_record_id in Hn.
  destruct (find_findIndex _ _ _ Hf) as [i [Hi Hv]].
  rewrite Hn in Hi. injection Hi as <-.
  pose proof updated_record_id as Hu.
  destruct v as [| | | | | | o] eqn:Ev;
    try (simpl in Hu; discriminate Hu).
  exists n, (VObj o), (jnorm (VObj (oassign o p'))).
  split; [exact Hn|]. split; [exact Hv|].
  split; [exact (fld_by_id _ _ (find_sat _ _ _ Hf))|].
  split; [apply (nth_error_jnorm_list _ _ (VObj (oassign o p'))), (nth_error_replace_nth _ _ _ _ Hv)|].
  split; [rewrite (oget_jnorm _ _ (VStr uid)); [reflexivity|exact Hu|discriminate]|].
  rewrite fld_ok_with_user, fld_sanitize by reflexivity. exact Hu.
Qed.
End UpdateSlot.

(** When the patch has no [id] key, a successful
    [updateUser(userId, updates)] keeps the id: the record at the slot of
    [userId] has id [userId] before and after, and the returned user has id
    [userId]. *)
Theorem update_keeps_id : forall uid p st r st',
  ohas p (K "id") = false ->
  updateUser (VStr uid) p st = (Ret r, st') ->
  fld r (K "success") = VBool true ->
  exists i u u',
    findIndex (by_id (VStr uid)) (users st) = Some i /\
    nth_error (users st) i = Some u /\ fld u (K "id") = VStr uid /\
    nth_error (users st') i = Some u' /\ fld u' (K "id") = VStr uid /\
    fld (fld r (K "user")) (K "id") = VStr uid.
Proof.
  intros uid p st r st' Hp H Hs.
  refine (wp_run _ _ (fun res s => forall r, res = Ret r -> fld r (K "success") = VBool true ->
    exists i u u',
    findIndex (by_id (VStr uid)) (users st) = Some i /\
    nth_error (users st) i = Some u /\ fld u (K "id") = VStr uid /\
    nth_error (users s) i = Some u' /\ fld u' (K "id") = VStr uid /\
    fld (fld r (K "user")) (K "id") = VStr uid) st (Ret r) st' H _ r eq_refl Hs).
  clear H Hs r st'.
  unfold updateUser. wp_all.
  all: intros r0 Hr Hsucc; try discriminate Hr; injection Hr as <-; try discriminate Hsucc.
  all: cbn [users current].
  all: first [ exfalso; eapply update_slot_none; [| eassumption | eassumption ]
             | eapply update_slot; [| eassumption | eassumption ] ].
  all: first [ exact Hp | rewrite ohas_oset_other; [exact Hp | reflexivity] ].
Qed.

Lemma update_keeps_id_witness :
  match updateUser (VStr (K "u1")) [(K "name", VStr (K "박영희"))]
          (mkState [VObj [(K "id", VStr (K "u1")); (K "email", VStr (K "a@b.co"))]] None) with
  | (Ret r, st') =>
      fld r (K "success") = VBool true /\
      exists i u u',
        findIndex (by_id (VStr (K "u1")))
          [VObj [(K "id", VStr (K "u1")); (K "email", VStr (K "a@b.co"))]] = Some i /\
        nth_error [VObj [(K "id", VStr (K "u1")); (K "email", VStr (K "a@b.co"))]] i = Some u /\
        fld u (K "id") = VStr (K "u1") /\
        nth_error (users st') i = Some u' /\ fld u' (K "id") = VStr (K "u1") /\
        fld (fld r (K "user")) (K "id") = VStr (K "u1")
  | _ => False
  end.
Proof.
  destruct (updateUser (VStr (K "u1")) [(K "name", VStr (K "박영희"))]
          (mkState [VObj [(K "id", VStr (K "u1")); (K "email", VStr (K "a@b.co"))]] None))
    as [[r|e] st'] eqn:E.
  - assert (Hs : fld r (K "success") = VBool true)
      by (vm_compute in E; injection E as <- _; reflexivity).
    split; [exact Hs|].
    exact (update_keeps_id _ [(K "name", VStr (K "박영희"))] _ _ _ eq_refl E Hs).
  - vm_compute in E. discriminate.
Defined.

Lemma reg_state_reachable : forall hst, reachable hst reg_state.
Proof.
  intros hst. unfold reg_state.
  eapply reach_step; [apply reach_empty|].
  eapply (step_register hst 1700000000000 (K "x7k2") sample_input empty_state).
  apply surjective_pairing.
Qed.

Lemma id_patch_reachable : forall hst, reachable hst (snd id_patch_run).
Proof.
  intros hst. eapply reach_step; [apply reg_state_reachable|].
  eapply (step_update hst reg_uid [(K "id", VStr (K "hacked"))] reg_state).
  apply surjective_pairing.
Qed.

(** C9 (code bug): on the account registered from [sample_input] (a
    reachable state), [updateUser(id, { id: "hacked" })] merges the [id]
    like any other field: the update succeeds and returns a user whose id
    is ["hacked"], not the old id.  [saveUser] then finds no record with
    that id and appends the merged record, so here the store holds the old
    record and a copy under the new id. *)
Lemma update_id_overwritten :
  reachable seoul reg_state /\ reachable seoul (snd id_patch_run) /\
  reg_uid <> VStr (K "hacked") /\
  match fst id_patch_run with Ret r => fld r (K "success") | Exc _ => VUndef end
    = VBool true /\
  match fst id_patch_run with Ret r => fld (fld r (K "user")) (K "id") | Exc _ => VUndef end
    = VStr (K "hacked") /\
  List.length (users (snd id_patch_run)) = 2%nat /\
  fld (nth 0 (users (snd id_patch_run)) VUndef) (K "id") = reg_uid /\
  fld (nth 1 (users (snd id_patch_run)) VUndef) (K "id") = VStr (K "hacked").
Proof.
  split; [apply reg_state_reachable|]. split; [apply id_patch_reachable|].
  vm_compute. split; [discriminate|repeat split].
Qed.

(** ** Calendar arithmetic: day numbers, ISO strings and local days *)

Lemma check_range_spec : forall f n z, check_range f z n = true ->
  forall x, z <= x < z + Z.of_nat n -> f x = true.
Proof.
  intros f n. induction n as [|n IH]; simpl; intros z H x Hx; [lia|].
  apply andb_prop in H as [H1 H2].
  destruct (Z.eq_dec x z) as [->|Hne]; [exact H1|].
  apply (IH (z + 1)); [exact H2|lia].
Qed.

Lemma yoe_bounds : forall doe, 0 <= doe < 146097 ->
  let yoe := (doe - doe / 1460 + doe / 36524 - doe / 146096) / 365 in
  0 <= yoe < 400 /\ 0 <= doe - (365 * yoe + yoe / 4 - yoe / 100) < 366.
Proof.
  intros doe Hd yoe. subst yoe.
  Z.div_mod_to_equations. lia.
Qed.

Lemma month_bounds : forall doy, 0 <= doy < 366 ->
  let mp := (5 * doy + 2) / 153 in
  let d := doy - (153 * mp + 2) / 5 + 1 in
  0 <= mp < 12 /\ 1 <= d <= 31.
Proof. intros doy Hd mp d. subst mp d. Z.div_mod_to_equations. lia. Qed.

Lemma civil_days_roundtrip : forall z,
  let '(y, m, d) := civil_from_days z in days_from_civil y m d = z.
Proof.
  intros z. unfold civil_from_days.
  set (z1 := z + 719468). set (era := z1 / 146097).
  set (doe := z1 - era * 146097).
  assert (Hdoe : 0 <= doe < 146097) by (subst doe era; Z.div_mod_to_equations; lia).
  destruct (yoe_bounds doe Hdoe) as [Hy Hdoy].
  set (yoe := (doe - doe / 1460 + doe / 36524 - doe / 146096) / 365) in *.
  set (doy := doe - (365 * yoe + yoe / 4 - yoe / 100)) in *.
  destruct (month_bounds doy Hdoy) as [Hmp Hd].
  set (mp := (5 * doy + 2) / 153) in *.
  set (d := doy - (153 * mp + 2) / 5 + 1) in *.
  assert (Hera : (yoe + era * 400) / 400 = era) by (Z.div_mod_to_equations; lia).
  unfold days_from_civil.
  destruct (mp <? 10) eqn:Em; [apply Z.ltb_lt in Em|apply Z.ltb_ge in Em]; cbv beta iota zeta.
  - rewrite (proj2 (Z.leb_gt (mp + 3) 2)) by lia. rewrite Hera.
    replace ((mp + 3 + 9) mod 12) with mp by (Z.div_mod_to_equations; lia).
    replace (yoe + era * 400 - era * 400) with yoe by lia.
    subst d doy doe z1. lia.
  - rewrite (proj2 (Z.leb_le (mp - 9) 2)) by lia.
    replace (yoe + era * 400 + 1 - 1) with (yoe + era * 400) by lia.
    rewrite Hera.
    replace ((mp - 9 + 9) mod 12) with mp by (Z.div_mod_to_equations; lia).
    replace (yoe + era * 400 - era * 400) with yoe by lia.
    subst d doy doe z1. lia.
Qed.

Lemma civil_ranges : forall z,
  let '(y, m, d) := civil_from_days z in
  1 <= m <= 12 /\ 1 <= d <= 31 /\
  (-100000000 <= z <= 100000000 -> -300000 <= y <= 300000).
Proof.
  intros z. unfold civil_from_days.
  set (z1 := z + 719468). set (era := z1 / 146097).
  set (doe := z1 - era * 146097).
  assert (Hdoe : 0 <= doe < 146097) by (subst doe era; Z.div_mod_to_equations; lia).
  destruct (yoe_bounds doe Hdoe) as [Hy Hdoy].
  set (yoe := (doe - doe / 1460 + doe / 36524 - doe / 146096) / 365) in *.
  set (doy := doe - (365 * yoe + yoe / 4 - yoe / 100)) in *.
  destruct (month_bounds doy Hdoy) as [Hmp Hd].
  set (mp := (5 * doy + 2) / 153) in *.
  set (d := doy - (153 * mp + 2) / 5 + 1) in *.
  assert (Hera : -100000000 <= z <= 100000000 -> -700 <= era <= 700)
    by (intros Hz; subst era z1; Z.div_mod_to_equations; lia).
  destruct (mp <? 10) eqn:Em; [apply Z.ltb_lt in Em|apply Z.ltb_ge in Em]; cbv beta iota zeta.
  - rewrite (proj2 (Z.leb_gt (mp + 3) 2)) by lia. split; [lia|split; [lia|]].
    intros Hz. specialize (Hera Hz). lia.
  - rewrite (proj2 (Z.leb_le (mp - 9) 2)) by lia. split; [lia|split; [lia|]].
    intros Hz. specialize (Hera Hz). lia.
Qed.

Lemma days_from_civil_day : forall y m d,
  days_from_civil y m d = days_from_civil y m 1 + d - 1.
Proof. intros y m d. unfold days_from_civil. lia. Qed.

Lemma month_length : forall y m, 1 <= m <= 12 ->
  28 <= days_from_civil (y + m / 12) (m mod 12 + 1) 1 - days_from_civil y m 1 <= 31.
Proof.
  intros y m Hm. unfold days_from_civil.
  assert (m = 1 \/ m = 2 \/ m = 3 \/ m = 4 \/ m = 5 \/ m = 6 \/ m = 7 \/ m = 8 \/
          m = 9 \/ m = 10 \/ m = 11 \/ m = 12) as Hc by lia.
  repeat destruct Hc as [-> | Hc]; try subst m; cbv beta iota zeta; simpl;
    Z.div_mod_to_equations; lia.
Qed.

Lemma digits_length : forall k n, List.length (digits k n) = k.
Proof.
  induction k as [|k IH]; intros n; simpl; [reflexivity|].
  rewrite length_app, IH. simpl. lia.
Qed.

Lemma digits_are_digits : forall k n, forallb is_digit (digits k n) = true.
Proof.
  induction k as [|k IH]; intros n; [reflexivity|]. cbn [digits].
  rewrite forallb_app, IH. cbn [forallb andb]. rewrite andb_true_r. unfold is_digit.
  pose proof (Z.mod_pos_bound n 10 ltac:(lia)).
  apply andb_true_intro; split; apply Z.leb_le; lia.
Qed.

Lemma digits_val_app : forall a b,
  digits_val (a ++ b) = fold_left (fun acc c => acc * 10 + (c - 48)) b (digits_val a).
Proof. intros a b. unfold digits_val. rewrite fold_left_app. reflexivity. Qed.

Lemma mod_mul_10 : forall n P, 0 < P ->
  n mod (10 * P) = (n / 10) mod P * 10 + n mod 10.
Proof.
  intros n P HP.
  rewrite (Z.mod_eq n (10 * P)) by lia. rewrite (Z.mod_eq (n / 10) P) by lia.
  rewrite (Z.mod_eq n 10) by lia. rewrite <- (Z.div_div n 10 P) by lia. ring.
Qed.

Lemma digits_val_digits : forall k n, digits_val (digits k n) = n mod 10 ^ Z.of_nat k.
Proof.
  induction k as [|k IH]; intros n.
  - simpl. rewrite Z.mod_1_r. reflexivity.
  - cbn [digits]. rewrite digits_val_app, IH. cbn [fold_left].
    rewrite Nat2Z.inj_succ, Z.pow_succ_r by lia.
    rewrite mod_mul_10 by (apply Z.pow_pos_nonneg; lia). lia.
Qed.

Lemma take_num_digits : forall k n r,
  take_num k (digits k n ++ r) = Some (n mod 10 ^ Z.of_nat k, r).
Proof.
  intros k n r. unfold take_num.
  rewrite firstn_app, digits_length, Nat.sub_diag, firstn_O, app_nil_r.
  rewrite firstn_all2 by (rewrite digits_length; lia).
  rewrite digits_length, Nat.eqb_refl, digits_are_digits. simpl.
  rewrite digits_val_digits, skipn_app, digits_length, Nat.sub_diag, skipn_O.
  rewrite skipn_all2 by (rewrite digits_length; lia). reflexivity.
Qed.

Lemma digits_head : forall k n rest, (0 < k)%nat ->
  exists c r, digits k n ++ rest = c :: r /\ is_digit c = true.
Proof.
  intros k n rest Hk. pose proof (digits_are_digits k n) as Hd.
  pose proof (digits_length k n) as Hl.
  destruct (digits k n) as [|c l]; [simpl in Hl; lia|].
  exists c, (l ++ rest). split; [reflexivity|].
  simpl in Hd. apply andb_prop in Hd. apply Hd.
Qed.

Lemma parse_year_iso : forall y rest, Z.abs y < 1000000 ->
  parse_year (iso_year y ++ rest) = Some (y, rest).
Proof.
  intros y rest Hy. unfold iso_year.
  destruct ((0 <=? y) && (y <=? 9999)) eqn:E.
  - apply andb_prop in E as [E1 E2]. apply Z.leb_le in E1, E2.
    destruct (digits_head 4 y rest ltac:(lia)) as [c [r [Hc Hd]]].
    unfold parse_year. rewrite Hc.
    unfold is_digit in Hd. apply andb_prop in Hd as [D1 D2]. apply Z.leb_le in D1, D2.
    rewrite (proj2 (Z.eqb_neq c 43)) by lia. rewrite (proj2 (Z.eqb_neq c 45)) by lia.
    rewrite <- Hc, take_num_digits. rewrite Z.mod_small by (simpl; lia). reflexivity.
  - destruct (y <? 0) eqn:En.
    + apply Z.ltb_lt in En. unfold parse_year. cbn [app].
      cbn [Z.eqb Pos.eqb]. rewrite take_num_digits. cbv beta iota.
      rewrite Z.mod_small by (simpl; lia). cbn [fst snd].
      rewrite (proj2 (Z.eqb_neq (Z.abs y) 0)) by lia.
      f_equal. f_equal. lia.
    + apply Z.ltb_ge in En. unfold parse_year. cbn [app].
      cbn [Z.eqb Pos.eqb]. rewrite take_num_digits.
      rewrite Z.mod_small by (simpl; lia). f_equal. f_equal. lia.
Qed.

Lemma expect_hit : forall c r, expect c (c :: r) = Some r.
Proof. intros c r. unfold expect. rewrite Z.eqb_refl. reflexivity. Qed.

Lemma parse_iso_roundtrip : forall t, valid_time t = true ->
  parse_iso (iso_string t) = Some t.
Proof.
  intros t Ht. pose proof Ht as Hv. unfold valid_time in Hv. apply Z.leb_le in Hv.
  unfold iso_string.
  pose proof (civil_days_roundtrip (t / msPerDay)) as Hrt.
  pose proof (civil_ranges (t / msPerDay)) as Hrg.
  destruct (civil_from_days (t / msPerDay)) as [[y m] d] eqn:Ec.
  destruct Hrg as [Hm [Hd Hy]].
  assert (Hy' : -300000 <= y <= 300000)
    by (apply Hy; unfold msPerDay; Z.div_mod_to_equations; lia).
  unfold parse_iso. rewrite parse_year_iso by lia. cbv beta iota zeta.
  cbn [app].
  repeat progress (rewrite ?expect_hit, ?take_num_digits; cbv beta iota zeta).
  change (10 ^ Z.of_nat 2) with 100. change (10 ^ Z.of_nat 3) with 1000.
  unfold msPerDay in *.
  repeat match goal with
         | |- context [?x mod 100] =>
             rewrite (Z.mod_small x 100) by (Z.div_mod_to_equations; lia)
         | |- context [?x mod 1000] =>
             rewrite (Z.mod_small x 1000) by (Z.div_mod_to_equations; lia)
         end.
  repeat match goal with
         | |- context [?a <=? ?b] =>
             rewrite (proj2 (Z.leb_le a b)) by (Z.div_mod_to_equations; lia)
         end.
  cbn [andb]. unfold make_day.
  rewrite (Z.div_small (m - 1) 12) by lia. rewrite (Z.mod_small (m - 1) 12) by lia.
  replace (y + 0) with y by lia. replace (m - 1 + 1) with m by lia.
  rewrite days_from_civil_day in Hrt. rewrite Hrt.
  unfold time_clip.
  match goal with |- (if valid_time ?e then Some ?e else None) = Some t =>
    replace e with t by (Z.div_mod_to_equations; lia) end.
  rewrite Ht. reflexivity.
Qed.

(** A string written by [toISOString] is read back by [Date.parse] on every
    host. *)
Lemma parse_date_iso : forall hst t, valid_time t = true ->
  parse_date hst (iso_string t) = Some t.
Proof.
  intros hst t H. unfold parse_date. rewrite (parse_iso_roundtrip t H), jseqb_refl.
  reflexivity.
Qed.

Lemma pos_size_bound : forall p, Z.pos p < 2 ^ Z.of_nat (Pos.size_nat p).
Proof.
  induction p as [p IH|p IH|]; cbn [Pos.size_nat]; rewrite ?Nat2Z.inj_succ, ?Z.pow_succ_r by lia;
    try (rewrite Pos2Z.inj_xI || rewrite Pos2Z.inj_xO); lia.
Qed.

Lemma ndig_aux_bound : forall f n, 0 <= n < 2 ^ Z.of_nat f ->
  n < 10 ^ Z.of_nat (ndig_aux f n).
Proof.
  induction f as [|f IH]; intros n Hn; cbn [ndig_aux].
  - simpl in Hn. simpl. lia.
  - destruct (n <? 10) eqn:E; [apply Z.ltb_lt in E; simpl; lia|].
    apply Z.ltb_ge in E.
    rewrite Nat2Z.inj_succ, Z.pow_succ_r in Hn by lia.
    assert (H : n / 10 < 10 ^ Z.of_nat (ndig_aux f (n / 10)))
      by (apply IH; Z.div_mod_to_equations; lia).
    rewrite Nat2Z.inj_succ, Z.pow_succ_r by lia.
    Z.div_mod_to_equations. lia.
Qed.

Lemma to_dec_val : forall n, 0 <= n -> digits_val (to_dec n) = n.
Proof.
  intros n Hn. unfold to_dec. rewrite digits_val_digits.
  apply Z.mod_small. split; [exact Hn|]. unfold ndig.
  apply ndig_aux_bound. split; [exact Hn|].
  destruct n as [|p|p]; [simpl; lia| |lia]. apply pos_size_bound.
Qed.

Lemma digits_val_zeros : forall j s, digits_val (repeat 48 j ++ s) = digits_val s.
Proof.
  intros j s. rewrite digits_val_app. unfold digits_val.
  replace (fold_left (fun acc c => acc * 10 + (c - 48)) (repeat 48 j) 0) with 0; [reflexivity|].
  induction j as [|j IH]; [reflexivity|]. cbn [repeat fold_left].
  replace (0 * 10 + (48 - 48)) with 0 by lia. exact IH.
Qed.

Lemma zpad_val : forall k n, 0 <= n -> digits_val (zpad k n) = n.
Proof. intros k n Hn. unfold zpad. rewrite digits_val_zeros. apply to_dec_val, Hn. Qed.

Lemma zpad_digits : forall k n, forallb is_digit (zpad k n) = true.
Proof.
  intros k n. unfold zpad, to_dec. rewrite forallb_app, digits_are_digits, andb_true_r.
  induction (k - List.length (digits (ndig n) n))%nat as [|j IH]; [reflexivity|].
  exact IH.
Qed.

Lemma ndig_aux_small : forall f n, n < 100 -> (ndig_aux f n <= 2)%nat.
Proof.
  intros [|[|f]] n Hn; cbn [ndig_aux]; [lia| |];
    destruct (n <? 10) eqn:E; try lia;
    apply Z.ltb_ge in E.
  rewrite (proj2 (Z.ltb_lt (n / 10) 10)) by (Z.div_mod_to_equations; lia). lia.
Qed.

Lemma zpad2_length : forall n, n < 100 -> List.length (zpad 2 n) = 2%nat.
Proof.
  intros n Hn. unfold zpad, to_dec. rewrite length_app, repeat_length, digits_length.
  pose proof (ndig_aux_small (Pos.size_nat (Z.to_pos n)) n Hn). unfold ndig. lia.
Qed.

Lemma weekday_name_shape : forall w,
  exists c r, weekday_name w = c :: r /\ c <> 73 /\ List.length r = 2%nat.
Proof.
  intros w. unfold weekday_name.
  repeat match goal with |- context [match ?x with _ => _ end] => destruct x end;
    do 2 eexists; (split; [reflexivity|split; [discriminate|reflexivity]]).
Qed.

Lemma month_name_length : forall m, List.length (month_name m) = 3%nat.
Proof.
  intros m. unfold month_name.
  repeat match goal with |- context [match ?x with _ => _ end] => destruct x end;
    reflexivity.
Qed.

Lemma month_names_distinct_ok : month_names_distinct = true.
Proof. vm_compute. reflexivity. Qed.

Lemma month_name_inj : forall i j, 1 <= i <= 12 -> 1 <= j <= 12 ->
  month_name i = month_name j -> i = j.
Proof.
  intros i j Hi Hj H.
  pose proof (check_range_spec _ _ _ month_names_distinct_ok i ltac:(simpl; lia)) as Hr.
  pose proof (check_range_spec _ _ _ Hr j ltac:(simpl; lia)) as Hc.
  rewrite H, jseqb_refl in Hc. apply Z.eqb_eq. destruct (i =? j); [reflexivity|discriminate].
Qed.

Lemma app_same_length : forall (a1 a2 b1 b2 : list Z),
  List.length a1 = List.length a2 -> a1 ++ b1 = a2 ++ b2 -> a1 = a2 /\ b1 = b2.
Proof.
  induction a1 as [|x a1 IH]; intros [|y a2] b1 b2 Hl H; simpl in *; try discriminate.
  - split; [reflexivity|exact H].
  - injection H as -> H. injection Hl as Hl. destruct (IH a2 b1 b2 Hl H) as [-> ->].
    split; reflexivity.
Qed.

Lemma toDateString_same_day : forall hst t1 t2,
  toDateString hst (Some t1) = toDateString hst (Some t2) <->
  local_day hst t1 = local_day hst t2.
Proof.
  intros hst t1 t2.
  split; [|intros H; unfold toDateString; rewrite H; reflexivity].
  unfold toDateString.
  pose proof (civil_days_roundtrip (local_day hst t1)) as R1.
  pose proof (civil_days_roundtrip (local_day hst t2)) as R2.
  pose proof (civil_ranges (local_day hst t1)) as G1.
  pose proof (civil_ranges (local_day hst t2)) as G2.
  destruct (civil_from_days (local_day hst t1)) as [[y1 m1] d1].
  destruct (civil_from_days (local_day hst t2)) as [[y2 m2] d2].
  destruct G1 as [Hm1 [Hd1 _]]. destruct G2 as [Hm2 [Hd2 _]].
  destruct (weekday_name_shape ((local_day hst t1 + 4) mod 7)) as [c1 [r1 [W1 [_ L1]]]].
  destruct (weekday_name_shape ((local_day hst t2 + 4) mod 7)) as [c2 [r2 [W2 [_ L2]]]].
  rewrite W1, W2. intros H.
  apply app_same_length in H as [_ H]; [|simpl; lia].
  cbn [app] in H. injection H as H.
  apply app_same_length in H as [Hm H]; [|rewrite !month_name_length; reflexivity].
  apply month_name_inj in Hm; [|lia|lia]. subst m2.
  cbn [app] in H. injection H as H.
  apply app_same_length in H as [Hd H]; [|rewrite !zpad2_length by lia; reflexivity].
  apply (f_equal digits_val) in Hd. rewrite !zpad_val in Hd by lia. subst d2.
  cbn [app] in H. injection H as H.
  assert (Hy : y1 = y2).
  { destruct (y1 <? 0) eqn:Y1, (y2 <? 0) eqn:Y2; cbn [app] in H.
    - injection H as H. apply (f_equal digits_val) in H. rewrite !zpad_val in H by lia.
      apply Z.ltb_lt in Y1, Y2. lia.
    - pose proof (zpad_digits 4 (Z.abs y2)) as D. rewrite <- H in D. discriminate D.
    - pose proof (zpad_digits 4 (Z.abs y1)) as D. rewrite H in D. discriminate D.
    - apply (f_equal digits_val) in H. rewrite !zpad_val in H by lia.
      apply Z.ltb_ge in Y1, Y2. lia. }
  subst y2. rewrite <- R1, <- R2. reflexivity.
Qed.

Lemma invalid_date_differs : forall hst t, toDateString hst None <> toDateString hst (Some t).
Proof.
  intros hst t. unfold toDateString.
  destruct (civil_from_days (local_day hst t)) as [[y m] d].
  destruct (weekday_name_shape ((local_day hst t + 4) mod 7)) as [c [r [W [Hc _]]]].
  rewrite W. change (u "Invalid Date") with (73 :: u "nvalid Date").
  cbn [app]. intros H. injection H as H1 _. congruence.
Qed.

Lemma count_today_spec : forall hst now l,
  Forall (fun c => c <> VUndef /\ c <> VNull) l ->
  count_today hst (toDateString hst (Some now)) l
    = Ret (Z.of_nat (List.length (filter (same_day hst now) l))).
Proof.
  intros hst now l Hl. induction Hl as [|c l [Hu Hn] _ IH]; [reflexivity|].
  cbn [count_today filter]. rewrite IH.
  replace (get_date c) with (Ret (A := val) (fld c (K "date")))
    by (destruct c; try contradiction; reflexivity).
  unfold same_day. destruct (date_of_val hst (fld c (K "date"))) as [t|].
  - destruct (Z.eqb_spec (local_day hst t) (local_day hst now)) as [E|E].
    + rewrite (proj2 (toDateString_same_day hst t now) E), jseqb_refl.
      cbn [List.length]. rewrite Nat2Z.inj_succ. f_equal; lia.
    + rewrite (proj2 (jseqb_neq _ _)); [reflexivity|].
      intros H. apply E. apply toDateString_same_day. exact H.
  - rewrite (proj2 (jseqb_neq _ _)); [reflexivity|]. apply invalid_date_differs.
Qed.

Lemma count_today_null : forall hst today l,
  In VNull l \/ In VUndef l -> count_today hst today l = Exc TypeError.
Proof.
  intros hst today l H. induction l as [|c l IH]; [destruct H as [[]|[]]|].
  cbn [count_today].
  destruct (get_date c) as [d|e] eqn:Ec.
  - assert (Hl : In VNull l \/ In VUndef l).
    { destruct H as [[->|H]|[->|H]]; try discriminate Ec; [left|right]; exact H. }
    rewrite (IH Hl). reflexivity.
  - destruct c; try discriminate Ec; injection Ec as <-; reflexivity.
Qed.

(** ** C8: today's consultations *)

(** C8 (amended). For a valid [now] (as [Date.now()] always is),
    [getTodayConsultationCount] leaves the state unchanged and returns 0
    when no stored account has [userId] or when its [consultationHistory]
    is falsy.  For an array history without [null] or [undefined] entries
    it returns the number of records whose [new Date(c.date)] falls on the
    local calendar day (host time zone) of [now].  An array history with a
    [null] or [undefined] entry, or a truthy history that is not an array,
    makes it throw a [TypeError] instead. *)
Theorem today_count : forall hst now userId st, valid_time now = true ->
  (find (by_id userId) (users st) = None ->
     getTodayConsultationCount hst now userId st = (Ret 0, st)) /\
  (forall user, find (by_id userId) (users st) = Some user ->
     truthy (fld user (K "consultationHistory")) = false ->
     getTodayConsultationCount hst now userId st = (Ret 0, st)) /\
  (forall user l, find (by_id userId) (users st) = Some user ->
     fld user (K "consultationHistory") = VArr l ->
     Forall (fun c => c <> VUndef /\ c <> VNull) l ->
     getTodayConsultationCount hst now userId st
       = (Ret (Z.of_nat (List.length (filter (same_day hst now) l))), st)) /\
  (forall user l, find (by_id userId) (users st) = Some user ->
     fld user (K "consultationHistory") = VArr l ->
     In VNull l \/ In VUndef l ->
     getTodayConsultationCount hst now userId st = (Exc TypeError, st)) /\
  (forall user, find (by_id userId) (users st) = Some user ->
     truthy (fld user (K "consultationHistory")) = true ->
     (forall l, fld user (K "consultationHistory") <> VArr l) ->
     getTodayConsultationCount hst now userId st = (Exc TypeError, st)).
Proof.
  intros hst now userId st Hnow.
  unfold getTodayConsultationCount. cbv beta iota delta [bind getUsers ret].
  split; [|split; [|split; [|split]]].
  - intros Hf. rewrite Hf. reflexivity.
  - intros user Hf Ht. rewrite Hf. cbv zeta. rewrite Ht. reflexivity.
  - intros user l Hf Hh Hl. rewrite Hf. cbv beta iota zeta. rewrite Hh. cbn [truthy negb].
    unfold time_clip. rewrite Hnow. rewrite count_today_spec by exact Hl. reflexivity.
  - intros user l Hf Hh Hn. rewrite Hf. cbv beta iota zeta. rewrite Hh. cbn [truthy negb].
    unfold lift. rewrite count_today_null by exact Hn. reflexivity.
  - intros user Hf Ht Hna. rewrite Hf. cbv beta iota zeta. rewrite Ht. cbn [negb].
    destruct (fld user (K "consultationHistory")) eqn:Eh; try reflexivity.
    exfalso. exact (Hna l eq_refl).
Qed.

Lemma today_count_witness :
  valid_time 1700000000000 = true /\
  getTodayConsultationCount seoul 1700000000000 (VStr (K "u1")) (mkState [today_user] None)
    = (Ret 3, mkState [today_user] None).
Proof.
  split; [reflexivity|].
  destruct (today_count seoul 1700000000000 (VStr (K "u1")) (mkState [today_user] None)
              eq_refl) as [_ [_ [H _]]].
  rewrite (H today_user today_history).
  - vm_compute. reflexivity.
  - reflexivity.
  - vm_compute. reflexivity.
  - repeat constructor; discriminate.
Defined.

(** C8 (counterexample): after [updateUser] stores a consultation history
    [[null]] on the demo account, [getTodayConsultationCount] throws a
    [TypeError] rather than returning a count. *)
Lemma count_null_entry_throws :
  match fst (updateUser (VStr demo_uid) [(K "consultationHistory", VArr [VNull])] demo_state)
  with Ret r => fld r (K "success") = VBool true | Exc _ => False end /\
  getTodayConsultationCount seoul 1700000000000 (VStr demo_uid) demo_null_history
    = (Exc TypeError, demo_null_history).
Proof. split; vm_compute; reflexivity. Qed.

(** ** C7: the premium status *)

Lemma find_in : forall p l x, In x l -> p x = true -> find p l <> None.
Proof.
  intros p l x Hin Hp. induction l as [|y l IH]; [contradiction|].
  simpl. destruct (p y) eqn:E; [discriminate|].
  destruct Hin as [->|Hin]; [congruence|exact (IH Hin)].
Qed.

Lemma update_publishes : forall uid p st r st' c,
  truthy (oget p (K "password")) = false -> truthy (oget p (K "email")) = false ->
  current st = Some c -> fld c (K "id") = VStr uid ->
  find (by_id (VStr uid)) (users st) <> None ->
  updateUser (VStr uid) p st = (r, st') ->
  exists o, current st' = Some (jnorm (sanitizeUser (VObj (oassign o p)))).
Proof.
  intros uid p st r st' c Hpw Hem Hc Hid Hf H.
  refine (wp_run _ _ (fun res s => exists o,
    current s = Some (jnorm (sanitizeUser (VObj (oassign o p))))) st r st' H _).
  clear H. unfold updateUser. wp_all.
  all: cbn [current users] in *.
  all: try congruence.
  all: try (rewrite Hem in *; discriminate).
  all: match goal with Hf : find _ _ = Some ?v |- _ =>
         pose proof (fld_by_id _ _ (find_sat _ _ _ Hf)) as Hv end.
  all: try (exfalso; rewrite Hc in *;
            match goal with H : Some _ = Some _ |- _ => injection H as <- end;
            rewrite Hid in *; cbn [strict_eq] in *; rewrite jseqb_refl in *; discriminate).
  all: destruct v as [| | | | | | o]; try discriminate Hv; exists o; reflexivity.
Qed.

Lemma add_months_arith : forall t o Y X d,
  28 <= X - Y <= 31 -> Y + d - 1 = (t + o) / msPerDay ->
  t + o + 28 * msPerDay <= (X + d - 1) * msPerDay + (t + o) mod msPerDay
    <= t + o + 31 * msPerDay.
Proof.
  intros t o Y X d Hl Hrt.
  pose proof (Z.div_mod (t + o) msPerDay ltac:(discriminate)) as Hdm.
  rewrite <- Hrt in Hdm. clear Hrt.
  assert (HM : 0 < msPerDay) by reflexivity.
  generalize dependent ((t + o) mod msPerDay). intros R Hdm.
  revert HM Hdm. generalize msPerDay. intros M HM Hdm.
  assert (E : (X + d - 1) * M + R = t + o + (X - Y) * M) by (clear - Hdm; lia).
  rewrite E. clear - Hl HM.
  split; apply Z.add_le_mono_l; apply Z.mul_le_mono_nonneg_r; lia.
Qed.

Lemma month_step_bound : forall (o t y m d : Z),
  days_from_civil y m d = (t + o) / msPerDay -> 1 <= m <= 12 ->
  t + o + 28 * msPerDay <= make_day y (m - 1 + 1) d * msPerDay + (t + o) mod msPerDay
    <= t + o + 31 * msPerDay.
Proof.
  intros o t y m d Hrt Hm.
  unfold make_day. replace (m - 1 + 1) with m by lia.
  rewrite days_from_civil_day in Hrt.
  exact (add_months_arith t o _ _ d (month_length y m Hm) Hrt).
Qed.

Lemma add_months_spec : forall hst t k e, add_months hst t k = Some e ->
  exists y m d, civil_from_days ((t + tz_utc hst t) / msPerDay) = (y, m, d) /\
    exists nl, nl = make_day y (m - 1 + k) d * msPerDay + (t + tz_utc hst t) mod msPerDay /\
      e = nl - tz_local hst nl.
Proof.
  intros hst t k e. unfold add_months.
  generalize (eq_refl (civil_from_days ((t + tz_utc hst t) / msPerDay))).
  generalize (civil_from_days ((t + tz_utc hst t) / msPerDay)) at 1 3.
  intros [[y m] d] E. unfold time_clip.
  destruct (valid_time _); [|discriminate].
  intros H. injection H as <-.
  exists y, m, d. split; [symmetry; exact E|]. eexists. split; reflexivity.
Qed.

(** One month on: the new local time is 28 to 31 days after the local time
    of [t]. *)
Lemma add_months_one : forall hst t e, add_months hst t 1 = Some e ->
  exists nl, t + tz_utc hst t + 28 * msPerDay <= nl <= t + tz_utc hst t + 31 * msPerDay /\
    e = nl - tz_local hst nl.
Proof.
  intros hst t e H.
  destruct (add_months_spec hst t 1 e H) as (y & m & d & E & nl & -> & ->).
  pose proof (civil_days_roundtrip ((t + tz_utc hst t) / msPerDay)) as Hrt.
  pose proof (civil_ranges ((t + tz_utc hst t) / msPerDay)) as Hrg.
  rewrite E in Hrt, Hrg.
  eexists. split; [exact (month_step_bound (tz_utc hst t) t y m d Hrt (proj1 Hrg))|].
  reflexivity.
Qed.

(** With offsets within [[lo, hi]], one month on is 28 to 31 days later, up
    to the spread [hi - lo] of the offsets. *)
Lemma add_months_one_bound : forall hst lo hi t e, offsets_within hst lo hi ->
  add_months hst t 1 = Some e ->
  t + 28 * msPerDay - (hi - lo) <= e <= t + 31 * msPerDay + (hi - lo).
Proof.
  intros hst lo hi t e Ho H.
  destruct (add_months_one hst t e H) as [nl [Hnl ->]].
  destruct (Ho t) as [H1 _]. destruct (Ho nl) as [_ H2]. lia.
Qed.

Lemma oget_oset_same : forall o k v, oget (oset o k v) k = v.
Proof.
  induction o as [|[k0 x] o IH]; intros k v; simpl.
  - rewrite jseqb_refl. reflexivity.
  - destruct (jseqb k0 k) eqn:E; simpl; rewrite E; [reflexivity|apply IH].
Qed.

Lemma find_stored : forall uid l x, In x l -> fld x (K "id") = VStr uid ->
  find (by_id (VStr uid)) (jnorm_list l) <> None.
Proof.
  intros uid l x Hin Hx.
  destruct x as [| | | | | | o]; try discriminate Hx.
  apply (find_in _ _ (jnorm (VObj o))).
  - unfold jnorm_list. rewrite jnorm_arr. apply in_map_iff. exists (VObj o). split; [reflexivity|exact Hin].
  - unfold by_id. rewrite (oget_jnorm o (K "id") (VStr uid)) by (try exact Hx; discriminate).
    simpl. apply jseqb_refl.
Qed.

Lemma replace_nth_In : forall l i x u, nth_error l i = Some u -> In x (replace_nth i x l).
Proof.
  intros l i x u H. eapply nth_error_In. exact (nth_error_replace_nth l i x u H).
Qed.


Lemma fld_set_fld_other : forall v k k' x, jseqb k k' = false ->
  fld (set_fld v k x) k' = fld v k'.
Proof. intros [| | | | | | o] k k' x H; try reflexivity. apply oget_oset_other. exact H. Qed.

Lemma fld_ensure_array_other : forall v k k', jseqb k k' = false ->
  fld (ensure_array v k) k' = fld v k'.
Proof. intros v k k' H. unfold ensure_array. destruct (truthy (fld v k)); [reflexivity|]. apply fld_set_fld_other. exact H. Qed.

Lemma iso_string_truthy : forall t, truthy (VStr (iso_string t)) = true.
Proof.
  intros t. unfold iso_string, iso_year.
  destruct (civil_from_days (t / msPerDay)) as [[y m] d].
  destruct ((0 <=? y) && (y <=? 9999)); reflexivity.
Qed.

Lemma premium_view : forall hst o z now s, valid_time z = true -> valid_time now = true ->
  current s = Some (jnorm (sanitizeUser (VObj (oassign o
    [(K "membershipType", VStr (K "premium")); (K "premiumExpiry", VStr (iso_string z))])))) ->
  isPremiumUser hst now s = (Ret (now <? z), s).
Proof.
  intros hst o z now s Hz Hn Hs.
  unfold isPremiumUser, bind, getCurrentUser. rewrite Hs. cbv beta iota.
  unfold oassign. cbn [fold_left fst snd]. cbn [sanitizeUser].
  rewrite (oget_jnorm _ (K "membershipType") (VStr (K "premium"))); cycle 1.
  { rewrite oget_filter by reflexivity. rewrite oget_oset_other by reflexivity.
    apply oget_oset_same. }
  { discriminate. }
  rewrite (oget_jnorm _ (K "premiumExpiry") (VStr (iso_string z))); cycle 1.
  { rewrite oget_filter by reflexivity. apply oget_oset_same. }
  { discriminate. }
  cbn [jnorm]. replace (strict_eq (VStr (K "premium")) (VStr (K "premium"))) with true
    by reflexivity.
  rewrite iso_string_truthy. cbn [negb date_of_val].
  rewrite parse_date_iso by exact Hz. unfold time_clip. rewrite Hn. reflexivity.
Qed.

Lemma premium_after_monthly : forall hst lo hi t0 uid c st r st',
  offsets_within hst lo hi ->
  current st = Some c -> fld c (K "id") = VStr uid ->
  addPurchaseHistory hst t0 (VStr uid) [(K "type", VStr (K "premium_monthly"))] st
    = (Ret r, st') ->
  fld r (K "success") = VBool true ->
  exists e, t0 + 28 * msPerDay - (hi - lo) <= e <= t0 + 31 * msPerDay + (hi - lo) /\
    forall now, valid_time now = true -> isPremiumUser hst now st' = (Ret (now <? e), st').
Proof.
  intros hst lo hi t0 uid c st r st' Ho Hc Hid H Hs.
  refine (wp_run _ _ (fun res s => forall r, res = Ret r -> fld r (K "success") = VBool true ->
    exists e, t0 + 28 * msPerDay - (hi - lo) <= e <= t0 + 31 * msPerDay + (hi - lo) /\
    forall now, valid_time now = true -> isPremiumUser hst now s = (Ret (now <? e), s))
    st (Ret r) st' H _ r eq_refl Hs).
  clear H Hs r st'. unfold addPurchaseHistory, unshift_fld. wp_all.
  all: intros.
  all: try discriminate.
  all: try (match goal with H : Ret (fail _) = Ret ?r, H0 : fld ?r _ = _ |- _ =>
              injection H as <-; discriminate H0 end).
  all: try (exfalso; match goal with Hb : is_premium_type _ = false |- _ =>
              vm_compute in Hb; discriminate Hb end).
  all: match goal with
       | Hm : add_months _ _ _ = Some ?z, Hz : toISOString ?z = Ret _,
         Hfd : find _ _ = Some _ |- _ =>
           change (if strict_eq (oget [(K "type", VStr (K "premium_monthly"))] (K "type"))
                     (VStr (K "premium_yearly")) then 12 else 1) with 1 in Hm;
           exists z; split; [exact (add_months_one_bound _ lo hi _ _ Ho Hm)|];
           unfold toISOString in Hz; destruct (valid_time z) eqn:Vz; [|discriminate];
           injection Hz as <-;
           pose proof (fld_by_id _ _ (find_sat _ _ _ Hfd)) as Hv
       end.
  all: match goal with E : updateUser _ _ {| users := jnorm_list ?l; current := _ |} = _ |- _ =>
         match l with context [set_fld ?w ?k ?x] =>
           assert (Hu : fld (set_fld w k x) (K "id") = VStr uid)
             by (rewrite fld_set_fld_other, fld_ensure_array_other by reflexivity; exact Hv);
           assert (Hf : find (by_id (VStr uid)) (jnorm_list l) <> None)
         end end.
  1: { match goal with Hi : findIndex _ _ = Some _ |- _ =>
         destruct (findIndex_some _ _ _ Hi) as [u [Hn _]] end.
       exact (find_stored _ _ _ (replace_nth_In _ _ _ _ Hn) Hu). }
  2: { refine (find_stored _ _ _ _ Hu). apply in_or_app. right. left. reflexivity. }
  all: match goal with E : updateUser _ _ _ = _ |- _ =>
         apply (update_publishes uid _ _ _ _ c) in E;
         [destruct E as [o Ho'] | reflexivity | reflexivity | exact Hc | exact Hid | exact Hf]
       end.
  all: intros now Hn; exact (premium_view hst o _ now _ Vz Hn Ho').
Qed.

Lemma premium_cases : forall hst now st u, valid_time now = true ->
  (current st = None -> isPremiumUser hst now st = (Ret false, st)) /\
  (current st = Some u -> strict_eq (fld u (K "membershipType")) (VStr (K "premium")) = false ->
     isPremiumUser hst now st = (Ret false, st)) /\
  (current st = Some u -> fld u (K "membershipType") = VStr (K "premium") ->
     truthy (fld u (K "premiumExpiry")) = false -> isPremiumUser hst now st = (Ret true, st)) /\
  (forall x, current st = Some u -> fld u (K "membershipType") = VStr (K "premium") ->
     truthy (fld u (K "premiumExpiry")) = true ->
     date_of_val hst (fld u (K "premiumExpiry")) = Some x ->
     isPremiumUser hst now st = (Ret (now <? x), st)) /\
  (current st = Some u -> fld u (K "membershipType") = VStr (K "premium") ->
     truthy (fld u (K "premiumExpiry")) = true ->
     date_of_val hst (fld u (K "premiumExpiry")) = None ->
     isPremiumUser hst now st = (Ret false, st)).
Proof.
  intros hst now st u Hn.
  unfold isPremiumUser, bind, getCurrentUser, ret.
  split; [|split; [|split; [|split]]].
  - intros ->. reflexivity.
  - intros -> Hm. rewrite Hm. reflexivity.
  - intros -> Hm He. rewrite Hm, He. reflexivity.
  - intros x -> Hm He Hx. rewrite Hm, He, Hx. unfold time_clip. rewrite Hn. reflexivity.
  - intros -> Hm He Hx. rewrite Hm, He, Hx. reflexivity.
Qed.

(** C7 (amended). [isPremiumUser] reads the session: it is false without
    a session or when [membershipType] is not ["premium"]; for a premium
    session it is true when [premiumExpiry] is falsy (null, absent, [""],
    [0]), and otherwise true exactly when [new Date(premiumExpiry)] is a
    valid time strictly after [now] (the host reads strings other than those
    of [toISOString]).  After a successful [addPurchaseHistory] of type
    ["premium_monthly"] at [t0] for the logged-in account, on a host whose
    UTC offsets stay within [[lo, hi]], the expiry lies between [t0] + 28
    days - (hi - lo) and [t0] + 31 days + (hi - lo): [isPremiumUser] is true
    before the first bound and false from the second on.  When hi - lo is
    at most 26 hours (every time zone in use), it is true at [t0] + 15 days
    and false from [t0] + 59 days (two months) on. *)
Theorem premium_status : forall hst now st u, valid_time now = true ->
  ((current st = None -> isPremiumUser hst now st = (Ret false, st)) /\
   (current st = Some u -> strict_eq (fld u (K "membershipType")) (VStr (K "premium")) = false ->
      isPremiumUser hst now st = (Ret false, st)) /\
   (current st = Some u -> fld u (K "membershipType") = VStr (K "premium") ->
      truthy (fld u (K "premiumExpiry")) = false -> isPremiumUser hst now st = (Ret true, st)) /\
   (forall x, current st = Some u -> fld u (K "membershipType") = VStr (K "premium") ->
      truthy (fld u (K "premiumExpiry")) = true ->
      date_of_val hst (fld u (K "premiumExpiry")) = Some x ->
      isPremiumUser hst now st = (Ret (now <? x), st)) /\
   (current st = Some u -> fld u (K "membershipType") = VStr (K "premium") ->
      truthy (fld u (K "premiumExpiry")) = true ->
      date_of_val hst (fld u (K "premiumExpiry")) = None ->
      isPremiumUser hst now st = (Ret false, st))) /\
  (forall lo hi t0 uid c r st',
   offsets_within hst lo hi ->
   current st = Some c -> fld c (K "id") = VStr uid ->
   addPurchaseHistory hst t0 (VStr uid) [(K "type", VStr (K "premium_monthly"))] st
     = (Ret r, st') ->
   fld r (K "success") = VBool true ->
   (exists e, t0 + 28 * msPerDay - (hi - lo) <= e <= t0 + 31 * msPerDay + (hi - lo) /\
      forall now, valid_time now = true -> isPremiumUser hst now st' = (Ret (now <? e), st')) /\
   (forall now, valid_time now = true -> now < t0 + 28 * msPerDay - (hi - lo) ->
      isPremiumUser hst now st' = (Ret true, st')) /\
   (forall now, valid_time now = true -> t0 + 31 * msPerDay + (hi - lo) <= now ->
      isPremiumUser hst now st' = (Ret false, st')) /\
   (hi - lo <= 26 * 3600000 -> valid_time (t0 + 15 * msPerDay) = true ->
      isPremiumUser hst (t0 + 15 * msPerDay) st' = (Ret true, st')) /\
   (hi - lo <= 26 * 3600000 -> forall now, valid_time now = true ->
      t0 + 59 * msPerDay <= now -> isPremiumUser hst now st' = (Ret false, st'))).
Proof.
  intros hst now st u Hn. split; [exact (premium_cases hst now st u Hn)|].
  intros lo hi t0 uid c r st' Ho Hc Hid H Hs.
  destruct (premium_after_monthly hst lo hi t0 uid c st r st' Ho Hc Hid H Hs) as [e [He Hp]].
  assert (T : forall now, valid_time now = true -> now < e ->
            isPremiumUser hst now st' = (Ret true, st'))
    by (intros n Hv Hlt; rewrite (Hp n Hv); do 2 f_equal; apply Z.ltb_lt; exact Hlt).
  assert (F : forall now, valid_time now = true -> e <= now ->
            isPremiumUser hst now st' = (Ret false, st'))
    by (intros n Hv Hle; rewrite (Hp n Hv); do 2 f_equal; apply Z.ltb_ge; exact Hle).
  split; [exists e; split; [exact He|exact Hp]|].
  split; [intros n Hv Hlt; apply T; [exact Hv|lia]|].
  split; [intros n Hv Hle; apply F; [exact Hv|lia]|].
  split.
  - intros Hw Hv. apply T; [exact Hv|]. unfold msPerDay in *. lia.
  - intros Hw n Hv Hle. apply F; [exact Hv|]. unfold msPerDay in *. lia.
Qed.

Lemma seoul_offsets : offsets_within seoul 32400000 32400000.
Proof. intros x. cbn. lia. Qed.

Lemma premium_status_witness :
  valid_time 1700000000000 = true /\
  isPremiumUser seoul 1700000000000 demo_session = (Ret false, demo_session) /\
  match monthly_run with
  | (Ret r, st') =>
      fld r (K "success") = VBool true /\
      isPremiumUser seoul (1700000000000 + 15 * msPerDay) st' = (Ret true, st') /\
      isPremiumUser seoul (1700000000000 + 61 * msPerDay) st' = (Ret false, st')
  | _ => False
  end.
Proof.
  assert (Hv : valid_time 1700000000000 = true) by reflexivity.
  split; [exact Hv|].
  destruct (premium_status seoul 1700000000000 demo_session
              (match current demo_session with Some c => c | None => VUndef end) Hv)
    as [[_ [HA _]] HB].
  split; [apply HA; vm_compute; reflexivity|].
  unfold monthly_run.
  destruct (addPurchaseHistory seoul 1700000000000 (VStr demo_uid)
              [(K "type", VStr (K "premium_monthly"))] demo_session) as [[r|e] st'] eqn:E.
  - assert (Hs : fld r (K "success") = VBool true)
      by (vm_compute in E; injection E as <- _; reflexivity).
    destruct (HB 32400000 32400000 1700000000000 demo_uid
                (match current demo_session with Some c => c | None => VUndef end) r st'
                seoul_offsets ltac:(vm_compute; reflexivity) ltac:(vm_compute; reflexivity) E Hs)
      as [_ [_ [_ [B1 B2]]]].
    split; [exact Hs|split].
    + apply B1; [lia|reflexivity].
    + apply B2; [lia|reflexivity|unfold msPerDay; lia].
  - vm_compute in E. discriminate.
Defined.

(** C7 (counterexample): with [membershipType] ["premium"] and a falsy
    [premiumExpiry] that is not null, an empty string or [0] (the epoch,
    before [now]), [isPremiumUser] returns true. *)
Lemma premium_falsy_expiry :
  current (expiry_patch_state (VStr [])) <> None /\
  fld (match current (expiry_patch_state (VStr [])) with Some c => c | None => VUndef end)
      (K "premiumExpiry") = VStr [] /\
  fst (isPremiumUser seoul 1700000000000 (expiry_patch_state (VStr []))) = Ret true /\
  fld (match current (expiry_patch_state (VNum 0)) with Some c => c | None => VUndef end)
      (K "premiumExpiry") = VNum 0 /\
  date_of_val seoul (VNum 0) = Some 0 /\ 0 < 1700000000000 /\
  fst (isPremiumUser seoul 1700000000000 (expiry_patch_state (VNum 0))) = Ret true.
Proof. vm_compute. split; [discriminate|repeat split]. Qed.

(** ** C2: e-mail uniqueness *)

(** [register] fails, leaving the state unchanged, when an
    account already holds the e-mail; [updateUser] fails with
    ["이미 사용중인 이메일입니다."], leaving the state unchanged, when the
    patch sets a truthy e-mail different from the account's that an account
    with another id holds, provided the patch's [password] is falsy or can
    be hashed (otherwise [hashPassword] throws first). *)
Theorem email_guards :
  (forall now rnd input st e,
     in_email input = Some e -> find (by_email (VStr e)) (users st) <> None ->
     exists r, register now rnd input st = (Ret r, st) /\ fld r (K "success") = VBool false) /\
  (forall uid p st u w h,
     find (by_id uid) (users st) = Some u ->
     (truthy (oget p (K "password")) = false \/
      hashPassword (oget p (K "password")) = Ret h) ->
     truthy (oget p (K "email")) = true ->
     strict_eq (oget p (K "email")) (fld u (K "email")) = false ->
     In w (users st) -> by_email (oget p (K "email")) w = true -> by_id uid w = false ->
     updateUser uid p st = (Ret (fail msg_email_in_use), st)).
Proof.
  split.
  - intros now rnd input st e He Hf. unfold register. rewrite He.
    destruct (given (Some e)) as [email|] eqn:Eg; [|eexists; split; reflexivity].
    assert (email = e) as -> by (destruct e as [|c e]; simpl in Eg; congruence).
    destruct (given (in_password input)) as [pw|]; [|eexists; split; reflexivity].
    destruct (given (in_name input)) as [nm|]; [|eexists; split; reflexivity].
    destruct (negb (isValidEmail e)); [eexists; split; reflexivity|].
    destruct (negb (isValidPassword pw)); [eexists; split; reflexivity|].
    destruct (match given (in_phone input) with
              | Some phone => negb (isValidPhone phone) | None => false end);
      [eexists; split; reflexivity|].
    unfold bind, getUsers. destruct (find (by_email (VStr e)) (users st)); [|congruence].
    eexists; split; reflexivity.
  - intros uid p st u w h Hu Hpw He Hne Hw Hwe Hwi.
    assert (Hfind : forall q, oget q (K "email") = oget p (K "email") ->
      find (fun x => by_email (oget q (K "email")) x && negb (by_id uid x)) (users st) <> None).
    { intros q Hq. rewrite Hq. apply (find_in _ _ w Hw). rewrite Hwe, Hwi. reflexivity. }
    assert (W : wp (updateUser uid p)
                  (fun r s => r = Ret (fail msg_email_in_use) /\ s = st) st).
    { unfold updateUser. wp_all.
      all: rewrite Hu in *.
      all: repeat match goal with H : Some _ = Some _ |- _ => injection H as <- end.
      all: try discriminate.
      all: try (split; reflexivity).
      all: exfalso.
      all: try (destruct Hpw as [Hpw|Hpw]; discriminate).
      all: match goal with Hb : _ && _ && _ = false |- _ => revert Hb end.
      all: rewrite ?oget_oset_other by reflexivity.
      all: rewrite He, Hne; cbn [negb andb].
      all: match goal with |- match ?x with _ => _ end = false -> False =>
             destruct x eqn:Ef; [discriminate|intros _] end.
      all: revert Ef; apply Hfind; rewrite ?oget_oset_other by reflexivity; reflexivity. }
    unfold wp in W. destruct (updateUser uid p st) as [r s].
    destruct W as [-> ->]. reflexivity.
Qed.

Lemma email_guards_witness :
  (exists r, register 1700000100000 (K "q9w8") sample_input reg_state = (Ret r, reg_state) /\
     fld r (K "success") = VBool false) /\
  updateUser (VStr (K "u1")) [(K "email", VStr (K "c@d.co"))] two_accounts
    = (Ret (fail msg_email_in_use), two_accounts).
Proof.
  destruct email_guards as [G1 G2]. split.
  - apply (G1 1700000100000 (K "q9w8") sample_input reg_state
             (match in_email sample_input with Some e => e | None => [] end));
      vm_compute; [reflexivity|discriminate].
  - apply (G2 (VStr (K "u1")) [(K "email", VStr (K "c@d.co"))] two_accounts
             (VObj [(K "id", VStr (K "u1")); (K "email", VStr (K "a@b.co"))])
             (VObj [(K "id", VStr (K "u2")); (K "email", VStr (K "c@d.co"))]) []).
    + reflexivity.
    + left. reflexivity.
    + reflexivity.
    + reflexivity.
    + right. left. reflexivity.
    + reflexivity.
    + reflexivity.
Defined.

(** C2 (code bug): after registering the account kim@example.com, the
    update [updateUser(id, { id: "hacked" })] stores a copy of the account
    under the new id (see C9), so the reachable state it leaves holds two
    accounts with the same e-mail. *)
Lemma update_duplicates_email :
  reachable seoul (snd id_patch_run) /\
  List.length (users (snd id_patch_run)) = 2%nat /\
  fld (nth 0 (users (snd id_patch_run)) VUndef) (K "email") = VStr (K "kim@example.com") /\
  fld (nth 1 (users (snd id_patch_run)) VUndef) (K "email") = VStr (K "kim@example.com").
Proof. split; [apply id_patch_reachable|]. vm_compute. repeat split. Qed.

(** ** C3: the records of the histories *)

(** C3. The record [addPurchaseHistory] and [addConsultationHistory] put
    first in the history is [{ id: ..., ...input, date: ... }]: the date is
    the ledger's, but an [id] in the caller's input replaces the generated
    one.  Here both calls succeed and the stored records carry the caller's
    id ["caller_id"]; the consultation record's date is the time of the
    call, not the caller's. *)
Lemma caller_id_reaches_history :
  match fst purchase_run with Ret r => fld r (K "success") | Exc _ => VUndef end
    = VBool true /\
  fld (first_entry (snd purchase_run) (K "purchaseHistory")) (K "id") = VStr (K "caller_id") /\
  match fst consultation_run with Ret r => fld r (K "success") | Exc _ => VUndef end
    = VBool true /\
  fld (first_entry (snd consultation_run) (K "consultationHistory")) (K "id")
    = VStr (K "caller_id") /\
  fld (first_entry (snd consultation_run) (K "consultationHistory")) (K "date")
    = VStr (iso_string 1700000100000).
Proof. vm_compute. repeat split. Qed.

(** ** The records of the histories and e-mail uniqueness under id-free updates *)

Lemma jnorm_obj : forall o, jnorm (VObj o) = VObj (jprops o).
Proof. reflexivity. Qed.

Lemma val_eq_undef : forall v, {v = VUndef} + {v <> VUndef}.
Proof. intros [| | | | | |]; (left; reflexivity) || (right; discriminate). Qed.

Lemma jnorm_undef : forall v, jnorm v = VUndef -> v = VUndef.
Proof. intros [| | | | | |]; simpl; congruence. Qed.

Lemma jnorm_elem_def : forall x, x <> VUndef -> jnorm_elem x = jnorm x.
Proof. intros [| | | | | |] H; try reflexivity; congruence. Qed.

Lemma jprops_cons : forall k x r, x <> VUndef -> jprops ((k, x) :: r) = (k, jnorm x) :: jprops r.
Proof. intros k [| | | | | |] r H; try reflexivity; congruence. Qed.

Lemma jnorm_not_undef : forall x, x <> VUndef -> jnorm x <> VUndef.
Proof. intros x H E. apply jnorm_undef in E. contradiction. Qed.

Lemma jnorm_idem : forall v, jnorm (jnorm v) = jnorm v.
Proof.
  apply val_ind_nested; try reflexivity.
  - intros l Hl. rewrite !jnorm_arr. f_equal. rewrite map_map. apply map_ext_in.
    intros x Hx. rewrite Forall_forall in Hl. specialize (Hl x Hx).
    destruct (val_eq_undef x) as [->|Hu]; [reflexivity|].
    rewrite (jnorm_elem_def x Hu), (jnorm_elem_def _ (jnorm_not_undef x Hu)). exact Hl.
  - intros o Ho. rewrite !jnorm_obj. f_equal.
    induction o as [|[k x] o IH]; [reflexivity|].
    inversion Ho as [|? ? Hx Hr]; subst. simpl in Hx.
    destruct (val_eq_undef x) as [->|Hu]; [apply IH; exact Hr|].
    rewrite (jprops_cons _ _ _ Hu), (jprops_cons _ _ _ (jnorm_not_undef x Hu)), Hx, (IH Hr).
    reflexivity.
Qed.

Lemma ohas_in : forall o k, ohas o k = true <-> In k (map fst o).
Proof.
  induction o as [|[k0 x] o IH]; intros k; simpl; [split; [discriminate|tauto]|].
  rewrite orb_true_iff, IH, jseqb_eq. split; intros [H|H]; auto.
Qed.

Lemma oget_notin : forall o k, ~ In k (map fst o) -> oget o k = VUndef.
Proof.
  induction o as [|[k0 x] o IH]; intros k H; simpl in *; [reflexivity|].
  destruct (jseqb k0 k) eqn:E; [apply jseqb_eq in E; tauto|]. apply IH. tauto.
Qed.

Lemma keys_oset : forall o k v,
  map fst (oset o k v) = if ohas o k then map fst o else map fst o ++ [k].
Proof.
  induction o as [|[k0 x] o IH]; intros k v; simpl; [reflexivity|].
  destruct (jseqb k0 k) eqn:E; simpl; [reflexivity|].
  rewrite IH. destruct (ohas o k); reflexivity.
Qed.

Lemma nodup_oset : forall o k v, NoDup (map fst o) -> NoDup (map fst (oset o k v)).
Proof.
  intros o k v H. rewrite keys_oset. destruct (ohas o k) eqn:E; [exact H|].
  apply (Permutation_NoDup (Permutation_cons_append _ _)).
  constructor; [|exact H]. rewrite <- ohas_in, E. discriminate.
Qed.

Lemma nodup_oassign : forall p o, NoDup (map fst o) -> NoDup (map fst (oassign o p)).
Proof.
  unfold oassign. induction p as [|[k x] p IH]; intros o H; simpl; [exact H|].
  apply IH, nodup_oset, H.
Qed.

Lemma oget_oassign_in : forall p o k, NoDup (map fst p) -> ohas p k = true ->
  oget (oassign o p) k = oget p k.
Proof.
  induction p as [|[k0 x] p IH]; intros o k Hd Hk; [discriminate|].
  change (oassign o ((k0, x) :: p)) with (oassign (oset o k0 x) p).
  simpl in Hk, Hd |- *.
  apply NoDup_cons_iff in Hd as [Hn Hd].
  destruct (jseqb k0 k) eqn:E.
  - apply jseqb_eq in E. subst k0.
    rewrite (oget_oassign_other p); [apply oget_oset_same|].
    destruct (ohas p k) eqn:E'; [apply ohas_in in E'; contradiction|reflexivity].
  - simpl in Hk. apply IH; assumption.
Qed.

Lemma jprops_notin : forall o k, ~ In k (map fst o) -> oget (jprops o) k = VUndef.
Proof.
  induction o as [|[k0 x] o IH]; intros k H; [reflexivity|]. simpl in H.
  destruct (val_eq_undef x) as [->|Hu]; [apply IH; tauto|].
  rewrite jprops_cons by exact Hu. simpl oget.
  destruct (jseqb k0 k) eqn:E; [apply jseqb_eq in E; tauto|]. apply IH. tauto.
Qed.

Lemma jnorm_fld_nodup : forall o k, NoDup (map fst o) ->
  fld (jnorm (VObj o)) k = jnorm (oget o k).
Proof.
  intros o k. rewrite jnorm_obj. simpl fld.
  induction o as [|[k0 x] o IH]; intros Hd; [reflexivity|].
  apply NoDup_cons_iff in Hd as [Hn Hd]. simpl in Hn.
  destruct (val_eq_undef x) as [->|Hu].
  - simpl. destruct (jseqb k0 k) eqn:E; [|apply IH, Hd].
    apply jseqb_eq in E. subst k0. apply jprops_notin. exact Hn.
  - rewrite jprops_cons by exact Hu. simpl oget.
    destruct (jseqb k0 k); [reflexivity|apply IH, Hd].
Qed.

Lemma ledger_record_jnorm : forall l now input, NoDup (map fst input) ->
  ledger_record l now input
    (jnorm (history_record (ledger_prefix l ++ num_to_str now) input (iso_string now))).
Proof.
  intros l now input Hd. unfold history_record.
  set (L := ledger_prefix l ++ num_to_str now).
  set (o := oassign [(K "id", VStr L)] input).
  assert (Ho : NoDup (map fst (oset o (K "date") (VStr (iso_string now))))).
  { apply nodup_oset, nodup_oassign. repeat constructor. simpl. tauto. }
  assert (Hid : forall k, k <> K "id" -> oget o k = oget input k).
  { intros k Hk. unfold o. destruct (ohas input k) eqn:E.
    - apply oget_oassign_in; assumption.
    - rewrite oget_oassign_other by exact E. cbn [oget].
      assert (E' : jseqb (K "id") k = false) by (apply jseqb_neq; congruence).
      rewrite E'. symmetry. apply oget_notin. rewrite <- ohas_in, E. discriminate. }
  unfold ledger_record. rewrite !jnorm_fld_nodup by exact Ho.
  split; [rewrite oget_oset_same; reflexivity|].
  split.
  - rewrite oget_oset_other by reflexivity. unfold o.
    destruct (ohas input (K "id")) eqn:E.
    + rewrite oget_oassign_in by assumption. reflexivity.
    + rewrite oget_oassign_other by exact E. cbn [oget]. rewrite jseqb_refl. reflexivity.
  - intros k Hk1 Hk2. rewrite jnorm_fld_nodup by exact Ho.
    rewrite oget_oset_other by (apply jseqb_neq; congruence).
    rewrite Hid by exact Hk1. reflexivity.
Qed.

Lemma heads_jnorm : forall f R x, heads_with f R x -> R <> VUndef ->
  heads_with f (jnorm R) (jnorm_elem x).
Proof.
  intros f R x [rest Hx] HRu.
  destruct x as [| | | | | |o]; try discriminate Hx.
  change (jnorm_elem (VObj o)) with (jnorm (VObj o)). unfold heads_with.
  simpl fld in Hx. rewrite (oget_jnorm o f _ Hx) by discriminate.
  rewrite jnorm_arr. simpl map. rewrite jnorm_elem_def by exact HRu.
  eexists. reflexivity.
Qed.

Lemma heads_jnorm_elem : forall f R x, heads_with f R x -> jnorm R = R -> R <> VUndef ->
  heads_with f R (jnorm_elem x).
Proof.
  intros f R x Hh HR HRu. rewrite <- HR at 1. apply heads_jnorm; assumption.
Qed.

Lemma nth_error_replace_nth_other : forall l n i w, n <> i ->
  nth_error (replace_nth n w l) i = nth_error l i.
Proof.
  induction l as [|y l IH]; intros [|n] [|i] w H; simpl; try reflexivity; try congruence.
  apply IH. congruence.
Qed.

Lemma head_app : forall l w i x f R,
  nth_error l i = Some x -> heads_with f R x -> jnorm R = R -> R <> VUndef ->
  exists x', nth_error (jnorm_list (l ++ [w])) i = Some x' /\ heads_with f R x'.
Proof.
  intros l w i x f R Hx Hh HR HRu. exists (jnorm_elem x). split.
  - apply nth_error_jnorm_list. rewrite nth_error_app1; [exact Hx|].
    apply nth_error_Some. congruence.
  - apply heads_jnorm_elem; assumption.
Qed.

Lemma head_update_slot : forall uid v p' l n i x f R,
  ohas p' (K "id") = false -> ohas p' f = false -> find (by_id (VStr uid)) l = Some v ->
  findIndex (by_id (fld (match v with VObj o => VObj (oassign o p') | _ => v end) (K "id"))) l
    = Some n ->
  nth_error l i = Some x -> heads_with f R x -> jnorm R = R -> R <> VUndef ->
  exists x', nth_error (jnorm_list (replace_nth n
                 (match v with VObj o => VObj (oassign o p') | _ => v end) l)) i = Some x'
             /\ heads_with f R x'.
Proof.
  intros uid v p' l n i x f R Hp Hpf Hv Hn Hx Hh HR HRu.
  destruct (Nat.eq_dec n i) as [<-|Hne].
  - rewrite (updated_record_id uid v p' l Hp Hv) in Hn.
    destruct (find_findIndex _ _ _ Hv) as [i0 [Hi0 Hv0]].
    rewrite Hn in Hi0. injection Hi0 as <-. rewrite Hx in Hv0. injection Hv0 as <-.
    eexists. split; [apply nth_error_jnorm_list, (nth_error_replace_nth _ _ _ _ Hx)|].
    apply heads_jnorm_elem; try assumption.
    destruct Hh as [rest Hr]. destruct x as [| | | | | |o]; try discriminate Hr.
    exists rest. simpl fld in *. rewrite oget_oassign_other by exact Hpf. exact Hr.
  - exists (jnorm_elem x). split.
    + apply nth_error_jnorm_list. rewrite nth_error_replace_nth_other by exact Hne. exact Hx.
    + apply heads_jnorm_elem; assumption.
Qed.

Lemma update_keeps_head : forall uid p st r s i x f R,
  ohas p (K "id") = false -> ohas p f = false -> f <> K "password" ->
  nth_error (users st) i = Some x -> heads_with f R x -> jnorm R = R -> R <> VUndef ->
  updateUser (VStr uid) p st = (r, s) ->
  exists x', nth_error (users s) i = Some x' /\ heads_with f R x'.
Proof.
  intros uid p st r s i x f R Hid Hf Hpw Hx Hh HR HRu H.
  refine (wp_run _ _ (fun _ s => exists x', nth_error (users s) i = Some x' /\ heads_with f R x')
    st r s H _). clear H.
  assert (Hpw' : jseqb (K "password") f = false) by (apply jseqb_neq; congruence).
  unfold updateUser. wp_all.
  all: cbn [users current].
  all: try (exists x; split; [exact Hx|exact Hh]).
  all: first [ eapply head_app; eassumption
             | eapply head_update_slot; [ | | eassumption | eassumption | eassumption.. ] ].
  all: rewrite ?ohas_oset_other by first [exact Hpw' | reflexivity]; assumption.
Qed.

Lemma set_fld_other : forall u k k' x, jseqb k k' = false ->
  fld (set_fld u k x) k' = fld u k'.
Proof. intros [| | | | | |o] k k' x H; simpl; auto. apply oget_oset_other, H. Qed.

Lemma ensure_array_other : forall u k k', jseqb k k' = false ->
  fld (ensure_array u k) k' = fld u k'.
Proof.
  intros u k k' H. unfold ensure_array. destruct (truthy (fld u k)); [reflexivity|].
  apply set_fld_other, H.
Qed.

(** [saveUser] of the record with a new history head, at the slot of [uid]. *)
Lemma save_head : forall uid L v f l0 rec n,
  jseqb f (K "id") = false -> rec <> VUndef ->
  find (by_id (VStr uid)) L = Some v ->
  fld (ensure_array v f) f = VArr l0 ->
  findIndex (by_id (fld (set_fld (ensure_array v f) f (VArr (rec :: l0))) (K "id"))) L = Some n ->
  findIndex (by_id (VStr uid)) L = Some n /\
  exists x, nth_error (jnorm_list (replace_nth n (set_fld (ensure_array v f) f (VArr (rec :: l0))) L)) n
              = Some x /\ heads_with f (jnorm rec) x.
Proof.
  intros uid L v f l0 rec n Hf Hr Hv Ha Hn.
  rewrite set_fld_other, ensure_array_other, (fld_by_id _ _ (find_sat _ _ _ Hv)) in Hn by exact Hf.
  split; [exact Hn|].
  destruct (findIndex_some _ _ _ Hn) as [y [Hy _]].
  eexists. split; [apply nth_error_jnorm_list, (nth_error_replace_nth _ _ _ _ Hy)|].
  apply heads_jnorm; [|exact Hr].
  destruct (ensure_array v f) as [| | | | | |o]; try discriminate Ha.
  exists l0. simpl. apply oget_oset_same.
Qed.

Lemma save_head_none : forall uid L v f l0 rec,
  findIndex (by_id (fld (set_fld (ensure_array v f) f (VArr (rec :: l0))) (K "id"))) L = None ->
  find (by_id (VStr uid)) L = Some v ->
  jseqb f (K "id") = false ->
  False.
Proof.
  intros uid L v f l0 rec Hn Hv Hf.
  rewrite set_fld_other, ensure_array_other, (fld_by_id _ _ (find_sat _ _ _ Hv)) in Hn by exact Hf.
  apply findIndex_none in Hn. congruence.
Qed.

Lemma toISO_ret : forall t a, toISOString t = Ret a -> a = iso_string t.
Proof.
  intros t a H. unfold toISOString in H. destruct (valid_time t); [|discriminate].
  injection H as <-. reflexivity.
Qed.

Lemma save_goal : forall uid L v f l0 rec n,
  jseqb f (K "id") = false -> rec <> VUndef ->
  find (by_id (VStr uid)) L = Some v ->
  fld (ensure_array v f) f = VArr l0 ->
  findIndex (by_id (fld (set_fld (ensure_array v f) f (VArr (rec :: l0))) (K "id"))) L = Some n ->
  exists i x, findIndex (by_id (VStr uid)) L = Some i /\
    nth_error (jnorm_list (replace_nth n (set_fld (ensure_array v f) f (VArr (rec :: l0))) L)) i
      = Some x /\ heads_with f (jnorm rec) x.
Proof.
  intros uid L v f l0 rec n Hf Hr Hv Ha Hn.
  destruct (save_head uid L v f l0 rec n Hf Hr Hv Ha Hn) as [Hi [x [Hx Hh]]].
  exists n, x. auto.
Qed.

Lemma premium_goal : forall uid L v f l0 rec n p r1 s cur,
  updateUser (VStr uid) p
    (mkState (jnorm_list (replace_nth n (set_fld (ensure_array v f) f (VArr (rec :: l0))) L)) cur)
    = (r1, s) ->
  jseqb f (K "id") = false -> rec <> VUndef ->
  ohas p (K "id") = false -> ohas p f = false -> f <> K "password" ->
  find (by_id (VStr uid)) L = Some v ->
  fld (ensure_array v f) f = VArr l0 ->
  findIndex (by_id (fld (set_fld (ensure_array v f) f (VArr (rec :: l0))) (K "id"))) L = Some n ->
  exists i x, findIndex (by_id (VStr uid)) L = Some i /\
    nth_error (users s) i = Some x /\ heads_with f (jnorm rec) x.
Proof.
  intros uid L v f l0 rec n p r1 s cur E Hf Hr Hp1 Hp2 Hpw Hv Ha Hn.
  destruct (save_head uid L v f l0 rec n Hf Hr Hv Ha Hn) as [Hi [x [Hx Hh]]].
  destruct (update_keeps_head uid p
              (mkState (jnorm_list (replace_nth n (set_fld (ensure_array v f) f (VArr (rec :: l0))) L)) cur)
              r1 s n x f (jnorm rec) Hp1 Hp2 Hpw Hx Hh
              (jnorm_idem rec) (jnorm_not_undef rec Hr) E) as [x' [Hx' Hh']].
  exists n, x'. auto.
Qed.

Lemma append_head : forall l hst now uid input st r st',
  append_record l hst now (VStr uid) input st = (Ret r, st') ->
  fld r (K "success") = VBool true ->
  exists i x, findIndex (by_id (VStr uid)) (users st) = Some i /\
    nth_error (users st') i = Some x /\
    heads_with (ledger_field l)
      (jnorm (history_record (ledger_prefix l ++ num_to_str now) input (iso_string now))) x.
Proof.
  intros l hst now uid input st r st' H Hs.
  refine (wp_run _ _ (fun res s => forall r, res = Ret r -> fld r (K "success") = VBool true ->
    exists i x, findIndex (by_id (VStr uid)) (users st) = Some i /\
    nth_error (users s) i = Some x /\
    heads_with (ledger_field l)
      (jnorm (history_record (ledger_prefix l ++ num_to_str now) input (iso_string now))) x)
    st (Ret r) st' H _ r eq_refl Hs). clear H Hs r st'.
  destruct l; unfold append_record, addPurchaseHistory, addConsultationHistory, unshift_fld;
    wp_all.
  all: intros r0 Hr Hsucc; try discriminate Hr; injection Hr as <-.
  all: try (rewrite fail_success in Hsucc; discriminate Hsucc).
  all: repeat match goal with H : toISOString _ = Ret _ |- _ => apply toISO_ret in H; subst end.
  all: cbn [users ledger_field ledger_prefix].
  all: first [ exfalso; eapply save_head_none; [eassumption | eassumption | reflexivity]
             | eapply save_goal; [reflexivity | discriminate | eassumption..]
             | eapply premium_goal;
                 [eassumption | reflexivity | discriminate | reflexivity | reflexivity
                 | apply jseqb_neq; reflexivity | eassumption.. ] ].
Qed.

(** X1. For every caller input with distinct keys, a successful
    [addPurchaseHistory] or [addConsultationHistory] for the account [uid]
    leaves, at that account's position in the stored array, a history whose
    first record has the ledger's [date] (the time of the call), the caller's
    [id] when the input has one and the generated ["purchase_" + now] or
    ["consult_" + now] otherwise, and every other field equal to the caller's
    value after the JSON round trip of the store. *)
Theorem appended_record_fields : forall l hst now uid input st r st',
  NoDup (map fst input) ->
  append_record l hst now (VStr uid) input st = (Ret r, st') ->
  fld r (K "success") = VBool true ->
  exists i x rec,
    findIndex (by_id (VStr uid)) (users st) = Some i /\
    nth_error (users st') i = Some x /\
    heads_with (ledger_field l) rec x /\
    ledger_record l now input rec.
Proof.
  intros l hst now uid input st r st' Hd H Hs.
  destruct (append_head l hst now uid input st r st' H Hs) as [i [x [Hi [Hx Hh]]]].
  exists i, x. eexists. split; [exact Hi|]. split; [exact Hx|]. split; [exact Hh|].
  apply ledger_record_jnorm. exact Hd.
Qed.

Lemma appended_record_fields_witness :
  match append_record Purchases utc 1700000100000 (VStr (K "u1")) forged_input ledger_state with
  | (Ret r, st') =>
      NoDup (map fst forged_input) /\ fld r (K "success") = VBool true /\
      exists i x rec,
        findIndex (by_id (VStr (K "u1"))) (users ledger_state) = Some i /\
        nth_error (users st') i = Some x /\
        heads_with (ledger_field Purchases) rec x /\
        ledger_record Purchases 1700000100000 forged_input rec
  | _ => False
  end.
Proof.
  destruct (append_record Purchases utc 1700000100000 (VStr (K "u1")) forged_input ledger_state)
    as [[r|e] st'] eqn:E.
  - assert (Hd : NoDup (map fst forged_input)).
    { repeat constructor; cbv; intros H; repeat destruct H as [H|H]; discriminate H || exact H. }
    assert (Hs : fld r (K "success") = VBool true)
      by (vm_compute in E; injection E as <- _; reflexivity).
    split; [exact Hd|]. split; [exact Hs|].
    exact (appended_record_fields Purchases utc 1700000100000 (K "u1") forged_input _ _ _ Hd E Hs).
  - vm_compute in E. discriminate.
Defined.

Lemma guarded_step_step : forall hst st st', guarded_step hst st st' -> step hst st st'.
Proof.
  intros hst st st' H; destruct H;
    [ eapply step_init | eapply step_register | eapply step_login | eapply step_logout
    | eapply step_setCurrentUser | eapply step_update | eapply step_saveSajuData
    | eapply step_purchase | eapply step_consultation | eapply step_reset ]; eassumption.
Qed.

Lemma guarded_reachable_reachable : forall hst st, guarded_reachable hst st -> reachable hst st.
Proof.
  intros hst st H. induction H; [constructor|].
  eapply reach_step; [eassumption|]. apply guarded_step_step. assumption.
Qed.

Lemma keys_nodupb_sound : forall l, keys_nodupb l = true -> NoDup l.
Proof.
  induction l as [|k l IH]; simpl; intros H; [constructor|].
  apply andb_prop in H as [H1 H2]. constructor; [|apply IH, H2].
  intros Hin. apply negb_true_iff in H1.
  assert (existsb (jseqb k) l = true) by (apply existsb_exists; exists k; split; [exact Hin|apply jseqb_refl]).
  congruence.
Qed.

Lemma strict_eq_sym : forall a b, strict_eq a b = strict_eq b a.
Proof.
  intros [| | b1 | n1 | s1 | l1 | o1] [| | b2 | n2 | s2 | l2 | o2]; simpl; try reflexivity.
  - destruct b1, b2; reflexivity.
  - apply Z.eqb_sym.
  - destruct (jseqb s1 s2) eqn:E; symmetry.
    + apply jseqb_eq in E. subst. apply jseqb_refl.
    + apply jseqb_neq in E. apply jseqb_neq. congruence.
Qed.

Lemma strict_eq_jnorm : forall a b, strict_eq (jnorm a) (jnorm b) = strict_eq a b.
Proof. intros [| | | | | |] [| | | | | |]; reflexivity. Qed.

Lemma truthy_jnorm : forall a, truthy (jnorm a) = truthy a.
Proof. intros [| | | | | |]; reflexivity. Qed.

Lemma strict_eq_vstr_refl : forall s, strict_eq (VStr s) (VStr s) = true.
Proof. intros s. simpl. apply jseqb_refl. Qed.

Lemma keys_jprops_incl : forall o k, In k (map fst (jprops o)) -> In k (map fst o).
Proof.
  induction o as [|[k0 x] o IH]; intros k H; [exact H|].
  destruct (val_eq_undef x) as [->|Hu].
  - right. apply IH. exact H.
  - rewrite jprops_cons in H by exact Hu. destruct H as [H|H]; [left; exact H|right; apply IH, H].
Qed.

Lemma nodup_jprops : forall o, NoDup (map fst o) -> NoDup (map fst (jprops o)).
Proof.
  induction o as [|[k0 x] o IH]; intros H; [constructor|].
  apply NoDup_cons_iff in H as [Hn H].
  destruct (val_eq_undef x) as [->|Hu]; [apply IH, H|].
  rewrite jprops_cons by exact Hu. constructor; [|apply IH, H].
  intros Hin. apply Hn, keys_jprops_incl, Hin.
Qed.

Lemma record_fld_jnorm : forall x k, record_ok x -> fld (jnorm x) k = jnorm (fld x k).
Proof.
  intros [| | | | | |o] k H; try contradiction. destruct H as [H _].
  apply jnorm_fld_nodup, H.
Qed.

Lemma record_ok_jnorm : forall x, record_ok x -> record_ok (jnorm x).
Proof.
  intros [| | | | | |o] H; try contradiction. destruct H as [Hd [s Hs]].
  rewrite jnorm_obj. split; [apply nodup_jprops, Hd|].
  exists s. change (oget (jprops o) (K "id")) with (fld (jnorm (VObj o)) (K "id")).
  rewrite jnorm_fld_nodup, Hs by exact Hd. reflexivity.
Qed.

Lemma record_jnorm_elem : forall x, record_ok x -> jnorm_elem x = jnorm x.
Proof. intros [| | | | | |o] H; try contradiction. reflexivity. Qed.

Lemma jnorm_list_map : forall l, jnorm_list l = map jnorm_elem l.
Proof. intros l. unfold jnorm_list. rewrite jnorm_arr. reflexivity. Qed.

Lemma same_id_jnorm : forall x y, record_ok x -> record_ok y ->
  same_id (jnorm x) (jnorm y) = same_id x y.
Proof.
  intros x y Hx Hy. unfold same_id. rewrite !record_fld_jnorm by assumption.
  apply strict_eq_jnorm.
Qed.

Lemma same_email_jnorm : forall x y, record_ok x -> record_ok y ->
  same_email (jnorm x) (jnorm y) = same_email x y.
Proof.
  intros x y Hx Hy. unfold same_email. rewrite !record_fld_jnorm by assumption.
  rewrite truthy_jnorm, strict_eq_jnorm. reflexivity.
Qed.

Lemma nth_error_jnorm_list_inv : forall l i y, Forall record_ok l ->
  nth_error (jnorm_list l) i = Some y ->
  exists x, nth_error l i = Some x /\ y = jnorm x /\ record_ok x.
Proof.
  intros l i y Hl H. rewrite jnorm_list_map, nth_error_map in H.
  destruct (nth_error l i) as [x|] eqn:E; [|discriminate]. injection H as <-.
  assert (Hx : record_ok x) by (rewrite Forall_forall in Hl; apply Hl; eapply nth_error_In; eassumption).
  exists x. split; [reflexivity|]. split; [apply record_jnorm_elem, Hx|exact Hx].
Qed.

Lemma store_ok_jnorm_list : forall l, store_ok l -> store_ok (jnorm_list l).
Proof.
  intros l [Hr [Hid Hem]]. split; [|split].
  - rewrite jnorm_list_map. apply Forall_map. eapply Forall_impl; [|exact Hr].
    intros x Hx. rewrite record_jnorm_elem by exact Hx. apply record_ok_jnorm, Hx.
  - intros i j yi yj Hi Hj Hs.
    destruct (nth_error_jnorm_list_inv l i yi Hr Hi) as [xi [Hxi [-> Hri]]].
    destruct (nth_error_jnorm_list_inv l j yj Hr Hj) as [xj [Hxj [-> Hrj]]].
    rewrite same_id_jnorm in Hs by assumption. eauto.
  - intros i j yi yj Hi Hj Hs.
    destruct (nth_error_jnorm_list_inv l i yi Hr Hi) as [xi [Hxi [-> Hri]]].
    destruct (nth_error_jnorm_list_inv l j yj Hr Hj) as [xj [Hxj [-> Hrj]]].
    rewrite same_email_jnorm in Hs by assumption. eauto.
Qed.

Lemma same_id_sym : forall a b, same_id a b = same_id b a.
Proof. intros a b. unfold same_id. apply strict_eq_sym. Qed.

Lemma same_id_trans : forall a b c, same_id a b = true -> same_id b c = true -> same_id a c = true.
Proof.
  unfold same_id. intros a b c H1 H2. apply strict_eq_true in H1. rewrite H1. exact H2.
Qed.

Lemma same_email_sym : forall a b, same_email a b = true -> same_email b a = true.
Proof.
  unfold same_email. intros a b H. apply andb_prop in H as [H1 H2].
  assert (H3 : fld a (K "email") = fld b (K "email")) by (apply strict_eq_true; exact H2).
  rewrite <- H3 in H2 |- *. rewrite H1. exact H2.
Qed.

Lemma find_none_in : forall p l x, find p l = None -> In x l -> p x = false.
Proof.
  intros p l x. induction l as [|y l IH]; simpl; [tauto|].
  destruct (p y) eqn:E; [discriminate|]. intros H [<-|Hin]; [exact E|apply IH; assumption].
Qed.

Lemma nth_error_replace_nth_cases : forall L n w k y,
  nth_error (replace_nth n w L) k = Some y ->
  (k = n /\ y = w) \/ (k <> n /\ nth_error L k = Some y).
Proof.
  induction L as [|z L IH]; intros [|n] w [|k] y H; simpl in H; try discriminate.
  - left. injection H as <-. auto.
  - right. split; [congruence|exact H].
  - right. split; [congruence|exact H].
  - destruct (IH n w k y H) as [[-> ->]|[Hne Hk]]; [left; auto|right; split; [congruence|exact Hk]].
Qed.

Lemma nth_error_app_one_cases : forall (L : list val) w k y,
  nth_error (L ++ [w]) k = Some y ->
  nth_error L k = Some y \/ (k = List.length L /\ y = w).
Proof.
  intros L w k y H. destruct (Nat.lt_ge_cases k (List.length L)) as [Hl|Hl].
  - left. rewrite nth_error_app1 in H by exact Hl. exact H.
  - right. rewrite nth_error_app2 in H by exact Hl.
    destruct (k - List.length L)%nat as [|m] eqn:E; simpl in H.
    + injection H as <-. split; [lia|reflexivity].
    + destruct m; discriminate.
Qed.

Lemma save_replace_ok : forall L w n, store_ok L -> record_ok w -> save_cond L w ->
  findIndex (by_id (fld w (K "id"))) L = Some n ->
  store_ok (jnorm_list (replace_nth n w L)).
Proof.
  intros L w n [Hr [Hid Hem]] Hw Hc Hn. apply store_ok_jnorm_list.
  destruct (findIndex_some _ _ _ Hn) as [u [Hu Huw]]. change (same_id u w = true) in Huw.
  split; [|split].
  - rewrite Forall_forall in Hr |- *. intros y Hy.
    apply In_nth_error in Hy as [k Hk].
    destruct (nth_error_replace_nth_cases _ _ _ _ _ Hk) as [[_ ->]|[_ Hk']]; [exact Hw|].
    apply Hr. eapply nth_error_In. exact Hk'.
  - intros i j xi xj Hi Hj Hs.
    destruct (nth_error_replace_nth_cases _ _ _ _ _ Hi) as [[-> ->]|[Hni Hi']];
    destruct (nth_error_replace_nth_cases _ _ _ _ _ Hj) as [[-> ->]|[Hnj Hj']];
      [reflexivity| | |eapply Hid; eassumption].
    + exfalso. apply Hnj. symmetry. apply (Hid n j u xj Hu Hj').
      eapply same_id_trans; eassumption.
    + exfalso. apply Hni. apply (Hid i n xi u Hi' Hu).
      eapply same_id_trans; [exact Hs|]. rewrite same_id_sym. exact Huw.
  - intros i j xi xj Hi Hj Hs.
    destruct (nth_error_replace_nth_cases _ _ _ _ _ Hi) as [[-> ->]|[Hni Hi']];
    destruct (nth_error_replace_nth_cases _ _ _ _ _ Hj) as [[-> ->]|[Hnj Hj']];
      [reflexivity| | |eapply Hem; eassumption].
    + exfalso. apply Hnj. symmetry. apply (Hid n j u xj Hu Hj').
      eapply same_id_trans; [exact Huw|]. rewrite same_id_sym. exact (Hc j xj Hj' Hs).
    + exfalso. apply Hni. apply (Hid i n xi u Hi' Hu).
      eapply same_id_trans; [exact (Hc i xi Hi' (same_email_sym _ _ Hs))|].
      rewrite same_id_sym. exact Huw.
Qed.

Lemma save_append_ok : forall L w, store_ok L -> record_ok w -> save_cond L w ->
  findIndex (by_id (fld w (K "id"))) L = None ->
  store_ok (jnorm_list (L ++ [w])).
Proof.
  intros L w [Hr [Hid Hem]] Hw Hc Hn. apply store_ok_jnorm_list.
  apply findIndex_none in Hn.
  assert (Hno : forall j xj, nth_error L j = Some xj -> same_id xj w = false).
  { intros j xj Hj. apply (find_none_in _ _ _ Hn). eapply nth_error_In. exact Hj. }
  split; [|split].
  - apply Forall_app. split; [exact Hr|repeat constructor; exact Hw].
  - intros i j xi xj Hi Hj Hs.
    destruct (nth_error_app_one_cases _ _ _ _ Hi) as [Hi'|[-> ->]];
    destruct (nth_error_app_one_cases _ _ _ _ Hj) as [Hj'|[-> ->]];
      [eapply Hid; eassumption| | |reflexivity].
    + rewrite (Hno i xi Hi') in Hs. discriminate.
    + rewrite same_id_sym, (Hno j xj Hj') in Hs. discriminate.
  - intros i j xi xj Hi Hj Hs.
    destruct (nth_error_app_one_cases _ _ _ _ Hi) as [Hi'|[-> ->]];
    destruct (nth_error_app_one_cases _ _ _ _ Hj) as [Hj'|[-> ->]];
      [eapply Hem; eassumption| | |reflexivity].
    + pose proof (Hc i xi Hi' (same_email_sym _ _ Hs)) as Hc'.
      rewrite (Hno i xi Hi') in Hc'. discriminate Hc'.
    + pose proof (Hc j xj Hj' Hs) as Hc'. rewrite (Hno j xj Hj') in Hc'. discriminate Hc'.
Qed.

Lemma find_some_in : forall p l x, find p l = Some x -> In x l.
Proof.
  intros p l x. induction l as [|y l IH]; simpl; [discriminate|].
  destruct (p y); [intros H; injection H as <-; left; reflexivity|intros H; right; apply IH, H].
Qed.

Lemma record_ok_in : forall L x, store_ok L -> In x L -> record_ok x.
Proof. intros L x [Hr _] H. rewrite Forall_forall in Hr. apply Hr, H. Qed.

Lemma record_id : forall x, record_ok x -> exists s, fld x (K "id") = VStr s.
Proof. intros [| | | | | |o] H; try contradiction. destruct H as [_ H]. exact H. Qed.

(** A record saved with the id and email of the account it came from. *)
Lemma keep_cond : forall L u w, store_ok L -> In u L ->
  fld w (K "id") = fld u (K "id") -> fld w (K "email") = fld u (K "email") ->
  save_cond L w.
Proof.
  intros L u w HL Hu Hid Hem j xj Hj Hs.
  pose proof (record_ok_in L u HL Hu) as Hru.
  apply In_nth_error in Hu as [k Hk].
  unfold same_email in Hs. rewrite Hem in Hs. fold (same_email u xj) in Hs.
  destruct HL as [_ [_ HE]]. pose proof (HE k j u xj Hk Hj Hs) as <-.
  rewrite Hk in Hj. injection Hj as <-.
  unfold same_id. rewrite Hid. destruct (record_id u Hru) as [s ->]. apply strict_eq_vstr_refl.
Qed.

Lemma record_ok_set_fld : forall u k x, record_ok u -> k <> K "id" -> record_ok (set_fld u k x).
Proof.
  intros [| | | | | |o] k x H Hk; try contradiction. destruct H as [Hd [s Hs]].
  split; [apply nodup_oset, Hd|]. exists s.
  rewrite oget_oset_other; [exact Hs|apply jseqb_neq; exact Hk].
Qed.

Lemma record_ok_ensure_array : forall u k, record_ok u -> k <> K "id" ->
  record_ok (ensure_array u k).
Proof.
  intros u k H Hk. unfold ensure_array. destruct (truthy (fld u k)); [exact H|].
  apply record_ok_set_fld; assumption.
Qed.

Lemma by_id_self : forall userId x, by_id userId x = true -> fld x (K "id") = userId.
Proof. intros userId x H. apply strict_eq_true, H. Qed.

Lemma update_record_ok : forall L userId v p',
  store_ok L -> find (by_id userId) L = Some v ->
  ohas p' (K "id") = false -> NoDup (map fst p') ->
  (truthy (oget p' (K "email")) && negb (strict_eq (oget p' (K "email")) (fld v (K "email")))
   && match find (fun x => by_email (oget p' (K "email")) x && negb (by_id userId x)) L with
      | Some _ => true
      | None => false
      end) = false ->
  record_ok (match v with VObj o => VObj (oassign o p') | _ => v end) /\
  save_cond L (match v with VObj o => VObj (oassign o p') | _ => v end).
Proof.
  intros L userId v p' HL Hv Hp Hd Hb.
  set (w := match v with VObj o => VObj (oassign o p') | _ => v end).
  assert (Hin : In v L) by (eapply find_some_in; eassumption).
  pose proof (record_ok_in L v HL Hin) as Hrv.
  destruct v as [| | | | | |o]; try contradiction. destruct Hrv as [Ho [s Hs]].
  assert (Hwid : fld w (K "id") = fld (VObj o) (K "id"))
    by (simpl; apply oget_oassign_other, Hp).
  split.
  - split; [apply nodup_oassign, Ho|]. exists s. simpl in Hwid. rewrite Hwid. exact Hs.
  - destruct (ohas p' (K "email")) eqn:He.
    2: { apply (keep_cond L (VObj o) w HL Hin Hwid). simpl. apply oget_oassign_other, He. }
    assert (Hwe : fld w (K "email") = oget p' (K "email"))
      by (simpl; apply oget_oassign_in; assumption).
    destruct (strict_eq (oget p' (K "email")) (fld (VObj o) (K "email"))) eqn:Es.
    { apply (keep_cond L (VObj o) w HL Hin Hwid). rewrite Hwe. apply strict_eq_true, Es. }
    intros j xj Hj Hsm. unfold same_email in Hsm. rewrite Hwe in Hsm.
    apply andb_prop in Hsm as [Ht Hsm]. rewrite Ht in Hb. simpl in Hb.
    destruct (find (fun x => by_email (oget p' (K "email")) x && negb (by_id userId x)) L)
      eqn:Ef; [discriminate Hb|].
    pose proof (find_none_in _ _ xj Ef (nth_error_In _ _ Hj)) as Hx. simpl in Hx.
    unfold by_email in Hx. rewrite strict_eq_sym, Hsm in Hx. simpl in Hx.
    apply negb_false_iff, by_id_self in Hx.
    pose proof (by_id_self _ _ (find_sat _ _ _ Hv)) as Hvid.
    unfold same_id. rewrite Hx, Hwid, Hvid. rewrite <- Hvid. simpl. rewrite Hs. apply jseqb_refl.
Qed.

Lemma update_store_ok : forall userId p st r s,
  ohas p (K "id") = false -> NoDup (map fst p) -> store_ok (users st) ->
  updateUser userId p st = (r, s) -> store_ok (users s).
Proof.
  intros userId p st r s Hp Hd Hst H.
  refine (wp_run _ _ (fun _ s => store_ok (users s)) st r s H _). clear H.
  unfold updateUser. wp_all.
  all: cbn [users current]; try exact Hst.
  all: first [ eapply save_replace_ok | eapply save_append_ok ];
    [ exact Hst | eapply proj1 | eapply proj2 | eassumption ].
  all: eapply update_record_ok; [ exact Hst | eassumption | | | eassumption ].
  all: first [ exact Hp | exact Hd | apply nodup_oset, Hd
             | rewrite ohas_oset_other; [exact Hp | reflexivity] ].
Qed.

Lemma store_ok_nil : store_ok [].
Proof.
  split; [constructor|]. split; intros i j xi xj Hi; destruct i; discriminate Hi.
Qed.

Lemma save_cond_nil : forall w, save_cond [] w.
Proof. intros w j xj Hj. destruct j; discriminate Hj. Qed.

(** A new record whose e-mail no stored account holds. *)
Lemma fresh_email_cond : forall L w e,
  find (by_email (VStr e)) L = None -> fld w (K "email") = VStr e -> save_cond L w.
Proof.
  intros L w e Hf Hw j xj Hj Hs. exfalso.
  unfold same_email in Hs. rewrite Hw in Hs. apply andb_prop in Hs as [_ Hs].
  pose proof (find_none_in _ _ xj Hf (nth_error_In _ _ Hj)) as Hx.
  unfold by_email in Hx. rewrite strict_eq_sym, Hs in Hx. discriminate Hx.
Qed.

Ltac record_ok_tac Hst :=
  first
    [ apply record_ok_set_fld; [record_ok_tac Hst | apply jseqb_neq; reflexivity]
    | apply record_ok_ensure_array; [record_ok_tac Hst | apply jseqb_neq; reflexivity]
    | eapply record_ok_in; [exact Hst | eapply find_some_in; eassumption] ].

Ltac same_fld_tac :=
  repeat first [ rewrite set_fld_other by reflexivity | rewrite ensure_array_other by reflexivity ];
  reflexivity.

(** [saveUser] of a stored account with fields other than [id] and [email]
    changed. *)
Ltac keep_tac Hst :=
  first [ eapply save_replace_ok | eapply save_append_ok ];
  [ exact Hst | record_ok_tac Hst
  | eapply keep_cond; [exact Hst | eapply find_some_in; eassumption | same_fld_tac | same_fld_tac]
  | eassumption ].

Lemma init_store_ok : forall now rnd st r s,
  store_ok (users st) -> initializeUsers now rnd st = (r, s) -> store_ok (users s).
Proof.
  intros now rnd st r s Hst H.
  refine (wp_run _ _ (fun _ s => store_ok (users s)) st r s H _). clear H.
  unfold initializeUsers. wp_all.
  all: cbn [users current]; try exact Hst.
  all: try match goal with H : users _ = _ |- _ => rewrite H in * end.
  all: try discriminate; try exact Hst.
  all: eapply save_append_ok; [exact store_ok_nil | | apply save_cond_nil | eassumption].
  all: split; [apply keys_nodupb_sound; vm_compute; reflexivity | eexists; reflexivity].
Qed.

Lemma register_store_ok : forall now rnd input st r s,
  store_ok (users st) -> register now rnd input st = (r, s) -> store_ok (users s).
Proof.
  intros now rnd input st r s Hst H.
  refine (wp_run _ _ (fun _ s => store_ok (users s)) st r s H _). clear H.
  unfold register. wp_all.
  all: cbn [users current]; try exact Hst.
  all: first [ eapply save_replace_ok | eapply save_append_ok ];
    [ exact Hst
    | split; [apply keys_nodupb_sound; vm_compute; reflexivity | eexists; reflexivity]
    | eapply fresh_email_cond; [eassumption | reflexivity]
    | eassumption ].
Qed.

Lemma login_store_ok : forall now email password st r s,
  store_ok (users st) -> login now email password st = (r, s) -> store_ok (users s).
Proof.
  intros now email password st r s Hst H.
  refine (wp_run _ _ (fun _ s => store_ok (users s)) st r s H _). clear H.
  unfold login, setCurrentUser. wp_all.
  all: cbn [users current]; try exact Hst.
  all: keep_tac Hst.
Qed.

Lemma reset_store_ok : forall rnd email st r s,
  store_ok (users st) -> resetPassword rnd email st = (r, s) -> store_ok (users s).
Proof.
  intros rnd email st r s Hst H.
  refine (wp_run _ _ (fun _ s => store_ok (users s)) st r s H _). clear H.
  unfold resetPassword. wp_all.
  all: cbn [users current]; try exact Hst.
  all: keep_tac Hst.
Qed.

Lemma saveSajuData_store_ok : forall now userId data st r s,
  store_ok (users st) -> saveSajuData now userId data st = (r, s) -> store_ok (users s).
Proof.
  intros now userId data st r s Hst H.
  refine (wp_run _ _ (fun _ s => store_ok (users s)) st r s H _). clear H.
  unfold saveSajuData, setCurrentUser. wp_all.
  all: cbn [users current]; try exact Hst.
  all: keep_tac Hst.
Qed.

Lemma consultation_store_ok : forall now userId c st r s,
  store_ok (users st) -> addConsultationHistory now userId c st = (r, s) ->
  store_ok (users s).
Proof.
  intros now userId c st r s Hst H.
  refine (wp_run _ _ (fun _ s => store_ok (users s)) st r s H _). clear H.
  unfold addConsultationHistory, unshift_fld. wp_all.
  all: cbn [users current]; try exact Hst.
  all: keep_tac Hst.
Qed.

Lemma purchase_store_ok : forall hst now userId purchase st r s,
  store_ok (users st) -> addPurchaseHistory hst now userId purchase st = (r, s) ->
  store_ok (users s).
Proof.
  intros hst now userId purchase st r s Hst H.
  refine (wp_run _ _ (fun _ s => store_ok (users s)) st r s H _). clear H.
  unfold addPurchaseHistory, unshift_fld. wp_all.
  all: try match goal with E : updateUser _ _ _ = (_, _) |- _ =>
         refine (update_store_ok _ _ _ _ _ _ _ _ E);
         [ reflexivity | apply keys_nodupb_sound; vm_compute; reflexivity | ] end.
  all: cbn [users current]; try exact Hst.
  all: keep_tac Hst.
Qed.

Lemma logout_store_ok : forall st r s,
  store_ok (users st) -> logout st = (r, s) -> store_ok (users s).
Proof. intros st r s Hst H. injection H as _ <-. exact Hst. Qed.

Lemma setCurrentUser_store_ok : forall user st r s,
  store_ok (users st) -> setCurrentUser user st = (r, s) -> store_ok (users s).
Proof. intros user st r s Hst H. injection H as _ <-. exact Hst. Qed.

Lemma guarded_step_store_ok : forall hst st st',
  guarded_step hst st st' -> store_ok (users st) -> store_ok (users st').
Proof.
  intros hst st st' H Hst. destruct H as
    [now rnd st r st' H | now rnd input st r st' H | now email password st r st' H
    | st r st' H | user st r st' H | userId updates st r st' [Hp Hd] H
    | now userId data st r st' H | now userId purchase st r st' H
    | now userId c st r st' H | rnd email st r st' H].
  - exact (init_store_ok _ _ _ _ _ Hst H).
  - exact (register_store_ok _ _ _ _ _ _ Hst H).
  - exact (login_store_ok _ _ _ _ _ _ Hst H).
  - exact (logout_store_ok _ _ _ Hst H).
  - exact (setCurrentUser_store_ok _ _ _ _ Hst H).
  - exact (update_store_ok _ _ _ _ _ Hp Hd Hst H).
  - exact (saveSajuData_store_ok _ _ _ _ _ _ Hst H).
  - exact (purchase_store_ok _ _ _ _ _ _ _ Hst H).
  - exact (consultation_store_ok _ _ _ _ _ _ Hst H).
  - exact (reset_store_ok _ _ _ _ _ Hst H).
Qed.

Lemma guarded_reachable_store_ok : forall hst st,
  guarded_reachable hst st -> store_ok (users st).
Proof.
  intros hst st H. induction H as [|st st' _ IH Hs].
  - exact store_ok_nil.
  - exact (guarded_step_store_ok hst st st' Hs IH).
Qed.

(** X2. In every state reached by calls of the module in which no
    [updateUser] patch has an [id] property (and patches have distinct keys),
    no two stored accounts share a non-empty string e-mail. *)
Theorem guarded_emails_unique : forall hst st i j xi xj e,
  guarded_reachable hst st ->
  nth_error (users st) i = Some xi -> nth_error (users st) j = Some xj ->
  fld xi (K "email") = VStr e -> fld xj (K "email") = VStr e -> e <> [] ->
  i = j.
Proof.
  intros hst st i j xi xj e Hr Hi Hj Hei Hej He.
  destruct (guarded_reachable_store_ok hst st Hr) as [_ [_ HE]].
  apply (HE i j xi xj Hi Hj). unfold same_email. rewrite Hei, Hej.
  destruct e as [|c e]; [contradiction|]. apply strict_eq_vstr_refl.
Qed.

Lemma guarded_emails_unique_witness :
  List.length (users demo_reg_state) = 2%nat /\
  fld (nth 1 (users demo_reg_state) VUndef) (K "email") = VStr (K "kim@example.com") /\
  (1 = 1)%nat.
Proof.
  split; [vm_compute; reflexivity|]. split; [vm_compute; reflexivity|].
  assert (Hr : guarded_reachable seoul demo_reg_state).
  { eapply greach_step; [eapply greach_step; [apply greach_empty|]|].
    - eapply gstep_init. apply surjective_pairing.
    - eapply gstep_register. apply surjective_pairing. }
  apply (guarded_emails_unique seoul demo_reg_state 1 1
           (nth 1 (users demo_reg_state) VUndef) (nth 1 (users demo_reg_state) VUndef)
           (K "kim@example.com") Hr);
    [vm_compute; reflexivity | vm_compute; reflexivity | vm_compute; reflexivity
    | vm_compute; reflexivity | vm_compute; discriminate].
Defined.

(** ** Further properties of the module *)

(** After a successful [login], [isLoggedIn()] is true; [logout()] keeps the
    stored accounts and makes [isLoggedIn()] false. *)
Theorem login_logout_session :
  (forall now email password st r st',
     login now email password st = (Ret r, st') -> fld r (K "success") = VBool true ->
     isLoggedIn st' = (Ret true, st')) /\
  (forall st r st', logout st = (r, st') ->
     users st' = users st /\ isLoggedIn st' = (Ret false, st')).
Proof.
  split.
  - intros now email password st r st' H Hs.
    refine (wp_run _ _ (fun res s => forall r, res = Ret r ->
              fld r (K "success") = VBool true -> isLoggedIn s = (Ret true, s))
              st (Ret r) st' H _ r eq_refl Hs).
    clear H Hs r st'. unfold login. wp_all.
    all: intros r0 E0 Hs0; try discriminate E0; injection E0 as <-;
      try discriminate Hs0; try reflexivity.
  - intros st r st' H. injection H as _ <-. split; reflexivity.
Qed.

(** When no stored account has the id [userId], [updateUser],
    [saveSajuData], [addPurchaseHistory] and [addConsultationHistory] fail
    with the 'user not found' message and leave the state unchanged, and
    [getTodayConsultationCount] returns 0. *)
Theorem unknown_user_id : forall userId st,
  find (by_id userId) (users st) = None ->
  (forall updates, updateUser userId updates st = (Ret (fail msg_user_not_found), st)) /\
  (forall now data, saveSajuData now userId data st = (Ret (fail msg_user_not_found), st)) /\
  (forall hst now p, addPurchaseHistory hst now userId p st
                       = (Ret (fail msg_user_not_found), st)) /\
  (forall now c, addConsultationHistory now userId c st
                   = (Ret (fail msg_user_not_found), st)) /\
  (forall hst now, getTodayConsultationCount hst now userId st = (Ret 0, st)).
Proof.
  intros userId st H.
  unfold updateUser, saveSajuData, addPurchaseHistory, addConsultationHistory,
    getTodayConsultationCount, bind, getUsers.
  rewrite H. repeat split.
Qed.

(** A [null] entry in the consultation history of the account makes
    [getTodayConsultationCount] throw a [TypeError] (reading [c.date] of
    [null]), with the state unchanged. *)
Theorem null_consultation_throws : forall hst now userId st user l,
  find (by_id userId) (users st) = Some user ->
  fld user (K "consultationHistory") = VArr l ->
  In VNull l ->
  getTodayConsultationCount hst now userId st = (Exc TypeError, st).
Proof.
  intros hst now userId st user l Hf Hh Hn.
  unfold getTodayConsultationCount, bind, getUsers. rewrite Hf. cbv zeta. rewrite Hh.
  cbn [truthy negb]. rewrite count_today_null by (left; exact Hn). reflexivity.
Qed.

(** A time written by [toISOString()] is read back by [new Date(...)] as the
    same time. *)
Theorem iso_string_read_back : forall hst t s,
  toISOString t = Ret s -> date_of_val hst (VStr s) = Some t.
Proof.
  intros hst t s H. unfold toISOString in H. destruct (valid_time t) eqn:V; [|discriminate].
  injection H as <-. apply parse_date_iso. exact V.
Qed.

Lemma jnorm_str : forall v str, jnorm v = VStr str -> v = VStr str.
Proof. intros v str H; destruct v; simpl in H; congruence. Qed.

Lemma jnorm_elem_defined : forall x, defined_fields (jnorm_elem x).
Proof.
  intros x; destruct x as [| | | | | |o]; try exact I. simpl.
  induction o as [|[k v] o IH]; [constructor|].
  destruct v; try exact IH; constructor; try exact IH; simpl; discriminate.
Qed.

Lemma jnorm_list_defined : forall l, Forall defined_fields (jnorm_list l).
Proof.
  intros l. unfold jnorm_list. rewrite jnorm_arr. apply Forall_forall.
  intros x Hx. apply in_map_iff in Hx as [y [<- _]]. apply jnorm_elem_defined.
Qed.

Lemma fld_jnorm_elem_str : forall x k str, defined_fields x ->
  fld (jnorm_elem x) k = VStr str -> fld x k = VStr str.
Proof.
  intros x k str Hd H; destruct x as [| | | | | |o]; try discriminate H. simpl in Hd, H |- *.
  induction o as [|[k' v] o IH]; [discriminate H|].
  inversion Hd as [|? ? Hv Hr]; subst. simpl in Hv.
  assert (E : (fix go (o : obj) : obj :=
                 match o with
                 | [] => []
                 | (k, VUndef) :: r => go r
                 | (k, x) :: r => (k, jnorm x) :: go r
                 end) ((k', v) :: o)
              = (k', jnorm v) :: (fix go (o : obj) : obj :=
                 match o with
                 | [] => []
                 | (k, VUndef) :: r => go r
                 | (k, x) :: r => (k, jnorm x) :: go r
                 end) o) by (destruct v; [congruence|reflexivity..]).
  rewrite E in H. simpl in H |- *.
  destruct (jseqb k' k); [exact (jnorm_str _ _ H)|exact (IH Hr H)].
Qed.

Section StoreInvariant.

(** A property of the state that every write of the users array
    establishes and that the session writes keep. *)
Variable P : state -> Prop.
Hypothesis P_store : forall l c, P (mkState (jnorm_list l) c).
Hypothesis P_session : forall st c, P st -> P (mkState (users st) c).
Hypothesis P_empty : P empty_state.

Lemma inv_store : forall l, preserves P (store_users l).
Proof. intros l st r st' E _. injection E as _ <-. apply P_store. Qed.

Lemma inv_saveUser : forall v, preserves P (saveUser v).
Proof. intros v. unfold saveUser. pres ltac:(apply inv_store). Qed.

Lemma inv_setCurrentUser : forall v, preserves P (setCurrentUser v).
Proof. intros v st r st' E H. injection E as _ <-. apply P_session. exact H. Qed.

Lemma inv_clearCurrentUser : preserves P clearCurrentUser.
Proof. intros st r st' E H. injection E as _ <-. apply P_session. exact H. Qed.

Local Ltac inv_hint :=
  first [ apply inv_store | apply inv_saveUser | apply inv_setCurrentUser
        | apply inv_clearCurrentUser ].

Lemma inv_update : forall i p, preserves P (updateUser i p).
Proof. intros. unfold updateUser. pres inv_hint. Qed.

Lemma inv_step : forall hst st st', step hst st st' -> P st -> P st'.
Proof.
  intros hst st st' S.
  destruct S as [now rnd st r st' E|now rnd inp st r st' E|now e p st r st' E|st r st' E
    |v st r st' E|i p st r st' E|now i d st r st' E|now i p st r st' E|now i c st r st' E
    |rnd e st r st' E];
    match type of E with ?m ?s = (?r, ?s') => refine ((_ : preserves P m) s r s' E) end.
  - unfold initializeUsers. pres inv_hint.
  - unfold register. pres inv_hint.
  - unfold login. pres inv_hint.
  - unfold logout. pres inv_hint.
  - apply inv_setCurrentUser.
  - apply inv_update.
  - unfold saveSajuData. pres inv_hint.
  - unfold addPurchaseHistory, unshift_fld. pres ltac:(first [inv_hint | apply inv_update]).
  - unfold addConsultationHistory, unshift_fld. pres inv_hint.
  - unfold resetPassword. pres inv_hint.
Qed.

Lemma reachable_inv : forall hst st, reachable hst st -> P st.
Proof.
  intros hst st R. induction R as [|st st' R IH S]; [exact P_empty|].
  exact (inv_step hst st st' S IH).
Qed.

End StoreInvariant.

Lemma reachable_normal : forall hst st, reachable hst st -> store_normal st.
Proof.
  apply reachable_inv.
  - intros l c. apply jnorm_list_defined.
  - intros st c H. exact H.
  - constructor.
Qed.

Lemma given_some : forall x str, given x = Some str -> x = Some str /\ str <> [].
Proof.
  intros [[|c r]|] str H; simpl in H; try discriminate.
  injection H as <-. split; [reflexivity|discriminate].
Qed.

Lemma find_first : forall p l x,
  (forall y, In y l -> y = x \/ p y = false) -> In x l -> p x = true -> find p l = Some x.
Proof.
  intros p l x Hl Hin Hx. induction l as [|y l IH]; [contradiction|].
  simpl. destruct (p y) eqn:E.
  - destruct (Hl y (or_introl eq_refl)) as [->|E']; [reflexivity|congruence].
  - destruct Hin as [->|Hin]; [congruence|].
    apply IH; [intros z Hz; apply Hl; right; exact Hz|exact Hin].
Qed.

Lemma find_none_false : forall p l y, find p l = None -> In y l -> p y = false.
Proof.
  intros p l y. induction l as [|z l IH]; simpl; [contradiction|].
  destruct (p z) eqn:E; [discriminate|]. intros H [->|Hy]; [exact E|exact (IH H Hy)].
Qed.

Lemma replace_nth_incl : forall l i x y, In y (replace_nth i x l) -> y = x \/ In y l.
Proof.
  induction l as [|z l IH]; intros [|i] x y H; simpl in H; try contradiction.
  - destruct H as [->|H]; [left; reflexivity|right; right; exact H].
  - destruct H as [->|H]; [right; left; reflexivity|].
    destruct (IH i x y H) as [E|E]; [left; exact E|right; right; exact E].
Qed.

Lemma key_jnorm_elem : forall k e y, defined_fields y ->
  strict_eq (fld (jnorm_elem y) k) (VStr e) = true -> strict_eq (fld y k) (VStr e) = true.
Proof.
  intros k e y Hd H.
  apply strict_eq_true in H. rewrite (fld_jnorm_elem_str _ _ _ Hd H). apply jseqb_refl.
Qed.

Lemma by_email_jnorm_elem : forall e y, defined_fields y ->
  by_email (VStr e) (jnorm_elem y) = true -> by_email (VStr e) y = true.
Proof. intros e y. apply key_jnorm_elem. Qed.

(** A stored account found by its email, with a matching verifier: [login]
    succeeds. *)
Lemma login_success : forall now email pw st user h,
  email <> [] -> pw <> [] -> valid_time now = true ->
  find (by_email (VStr email)) (users st) = Some user ->
  hashPassword (VStr pw) = Ret h -> fld user (K "password") = VStr h ->
  exists r st', login now email pw st = (Ret r, st') /\ fld r (K "success") = VBool true.
Proof.
  intros now email pw st user h He Hp Hv Hf Hh Hu. unfold login.
  destruct email as [|c e]; [congruence|]. destruct pw as [|d p]; [congruence|].
  cbv beta iota delta [bind getUsers ret]. rewrite Hf.
  unfold verifyPassword. rewrite Hh, Hu. cbv beta iota delta [bind lift ret strict_eq].
  rewrite jseqb_refl, toISOString_valid by exact Hv.
  cbv beta iota delta [bind lift ret negb setCurrentUser].
  match goal with |- context [saveUser ?w st] =>
    destruct (saveUser w st) as [[[]|e0] s1] eqn:Es end.
  - eexists _, _. split; [reflexivity|apply ok_with_success].
  - exfalso. revert Es. unfold saveUser, bind, getUsers, store_users.
    destruct findIndex; discriminate.
Qed.

Lemma stored_new_found : forall email nu l L,
  Forall defined_fields l -> find (by_email (VStr email)) l = None ->
  (forall y, In y L -> y = nu \/ In y l) -> In nu L ->
  by_email (VStr email) (jnorm_elem nu) = true ->
  find (by_email (VStr email)) (jnorm_list L) = Some (jnorm_elem nu).
Proof.
  intros email nu l L Hn Hf HL Hin Hnu.
  apply find_first; [|unfold jnorm_list; rewrite jnorm_arr; apply in_map; exact Hin|exact Hnu].
  intros y Hy. unfold jnorm_list in Hy. rewrite jnorm_arr in Hy.
  apply in_map_iff in Hy as [z [<- Hz]].
  destruct (HL z Hz) as [->|Hz']; [left; reflexivity|right].
  destruct (by_email (VStr email) (jnorm_elem z)) eqn:E; [|reflexivity].
  rewrite Forall_forall in Hn.
  apply by_email_jnorm_elem in E; [|exact (Hn z Hz')].
  rewrite (find_none_false _ _ _ Hf Hz') in E. discriminate E.
Qed.

(** Register, then log in with the same email and secret: the login
    succeeds. *)
Theorem register_then_login : forall hst now rnd input st r st' e pw now',
  reachable hst st -> in_email input = Some e -> in_password input = Some pw ->
  register now rnd input st = (Ret r, st') -> fld r (K "success") = VBool true ->
  valid_time now' = true ->
  exists r' st'', login now' e pw st' = (Ret r', st'') /\ fld r' (K "success") = VBool true.
Proof.
  intros hst now rnd input st r st' e pw now' R He Hp H Hs Hv.
  pose proof (reachable_normal hst st R) as Hn. unfold store_normal in Hn.
  refine (wp_run _ _ (fun res s => forall r, res = Ret r -> fld r (K "success") = VBool true ->
    exists r' st'', login now' e pw s = (Ret r', st'') /\ fld r' (K "success") = VBool true)
    st (Ret r) st' H _ r eq_refl Hs).
  clear H Hs r st'. unfold register. wp_all.
  all: intros r0 E0 Hs0; try discriminate E0; injection E0 as <-; try discriminate Hs0.
  all: match goal with
       | G1 : given (in_email ?i) = Some ?em, G2 : given (in_password ?i) = Some ?p |- _ =>
           apply given_some in G1 as [G1 N1]; apply given_some in G2 as [G2 N2];
           rewrite He in G1; rewrite Hp in G2; injection G1 as G1; injection G2 as G2;
           subst em p
       end.
  all: match goal with Hh : hashPassword (VStr _) = Ret ?h, N1 : ?a <> [], N2 : ?b <> [],
         Hi : findIndex (by_id (fld ?nu _)) _ = _ |- _ =>
         eapply (login_success _ _ _ _ _ h N1 N2 Hv);
         [cbn [users]; eapply (stored_new_found _ nu); [exact Hn|eassumption| | |]
         |exact Hh|]
       end.
  all: try (unfold by_email, jnorm_elem;
            rewrite (oget_jnorm _ (K "email") (VStr _)) by (reflexivity || discriminate);
            apply jseqb_refl).
  all: try (unfold jnorm_elem;
            rewrite (oget_jnorm _ (K "password") (VStr _)) by (reflexivity || discriminate);
            reflexivity).
  - intros y Hy. apply replace_nth_incl in Hy. destruct Hy as [Hy|Hy]; [left|right]; exact Hy.
  - match goal with Hi : findIndex _ _ = Some _ |- _ =>
      destruct (findIndex_some _ _ _ Hi) as [u0 [Hn0 _]] end.
    exact (replace_nth_In _ _ _ _ Hn0).
  - intros y Hy. apply in_app_or in Hy. destruct Hy as [Hy|[Hy|[]]]; [right; exact Hy|left; symmetry; exact Hy].
  - apply in_or_app. right. left. reflexivity.
Qed.

Lemma register_then_login_witness :
  exists r' st'', login 1700000100000 (K "kim@example.com") (K "secret123")
    (snd (register 1700000000000 (K "k3j9x0a1b") sample_input demo_state)) = (Ret r', st'')
    /\ fld r' (K "success") = VBool true.
Proof.
  destruct (register 1700000000000 (K "k3j9x0a1b") sample_input demo_state)
    as [res st'] eqn:E.
  destruct res as [r|ex]; [|vm_compute in E; discriminate E].
  apply (register_then_login seoul 1700000000000 (K "k3j9x0a1b") sample_input demo_state
           r st' (K "kim@example.com") (K "secret123") 1700000100000).
  - apply (reach_step _ empty_state); [apply reach_empty|].
    apply (step_init _ 1700000000000 (K "abc123xyz") _
             (fst (initializeUsers 1700000000000 (K "abc123xyz") empty_state))).
    apply surjective_pairing.
  - reflexivity.
  - reflexivity.
  - exact E.
  - vm_compute in E. injection E as <- _. reflexivity.
  - reflexivity.
Defined.

Lemma find_In : forall p l x, find p l = Some x -> In x l.
Proof.
  intros p l x. induction l as [|y l IH]; simpl; [discriminate|].
  destruct (p y); [intros H; injection H as <-; left; reflexivity|intros H; right; exact (IH H)].
Qed.

Lemma find_replace_first : forall p q l u i u',
  find p l = Some u -> q u = true -> findIndex q l = Some i -> p u' = true ->
  find p (replace_nth i u' l) = Some u'.
Proof.
  intros p q l. induction l as [|y l IH]; intros u i u' Hf Hq Hi Hp; [discriminate Hf|].
  simpl in Hf, Hi. destruct (q y) eqn:Eq.
  - injection Hi as <-. simpl. rewrite Hp. reflexivity.
  - destruct (p y) eqn:Ep.
    + injection Hf as <-. congruence.
    + destruct (findIndex q l) as [j|] eqn:Ej; [|discriminate Hi].
      injection Hi as <-. simpl. rewrite Ep. exact (IH u j u' Hf Hq eq_refl Hp).
Qed.

Lemma find_key_jnorm_list : forall k e l x, Forall defined_fields l ->
  find (fun y => strict_eq (fld y k) (VStr e)) l = Some x ->
  find (fun y => strict_eq (fld y k) (VStr e)) (jnorm_list l) = Some (jnorm_elem x).
Proof.
  intros k e l x Hn Hf. unfold jnorm_list. rewrite jnorm_arr.
  induction l as [|y l IH]; [discriminate Hf|]. inversion Hn as [|? ? Hy Hl]; subst.
  simpl in Hf |- *. destruct (strict_eq (fld y k) (VStr e)) eqn:E.
  - injection Hf as <-.
    destruct y as [| | | | | |o]; try discriminate E.
    unfold jnorm_elem in *. apply strict_eq_true in E.
    rewrite (oget_jnorm o k (VStr e) E) by discriminate.
    cbn [jnorm strict_eq]. rewrite jseqb_refl. reflexivity.
  - destruct (strict_eq (fld (jnorm_elem y) k) (VStr e)) eqn:E'.
    + apply key_jnorm_elem in E'; [congruence|exact Hy].
    + exact (IH Hl Hf).
Qed.

Lemma find_jnorm_list : forall e l x, Forall defined_fields l ->
  find (by_email (VStr e)) l = Some x ->
  find (by_email (VStr e)) (jnorm_list l) = Some (jnorm_elem x).
Proof. intros e. apply find_key_jnorm_list. Qed.

Lemma find_id_jnorm_list : forall i l x, Forall defined_fields l ->
  find (by_id (VStr i)) l = Some x ->
  find (by_id (VStr i)) (jnorm_list l) = Some (jnorm_elem x).
Proof. intros i. apply find_key_jnorm_list. Qed.

Lemma defined_set_fld : forall u k x, defined_fields u -> x <> VUndef ->
  defined_fields (set_fld u k x).
Proof.
  intros [| | | | | |o] k x Hu Hx; try exact I. simpl in *.
  induction o as [|[k0 y] o IH]; simpl; [constructor; [exact Hx|constructor]|].
  inversion Hu as [|? ? Hy Ho]; subst.
  destruct (jseqb k0 k); constructor; try assumption. apply IH. exact Ho.
Qed.

Lemma defined_replace_nth : forall l i x, Forall defined_fields l -> defined_fields x ->
  Forall defined_fields (replace_nth i x l).
Proof.
  induction l as [|y l IH]; intros [|i] x Hl Hx; simpl; try constructor;
    inversion Hl; subst; auto.
Qed.

(** In a reachable state, [resetPassword(email)] with a non-empty email, on
    an account whose id is a string, returns [tempPassword] = ["temp"] + the
    random part; then [login(email, tempPassword)] at a valid time
    succeeds. *)
Theorem reset_then_login : forall hst rnd e st r st' now' u id,
  reachable hst st -> e <> [] -> valid_time now' = true ->
  find (by_email (VStr e)) (users st) = Some u -> fld u (K "id") = VStr id ->
  resetPassword rnd (VStr e) st = (Ret r, st') ->
  fld r (K "success") = VBool true /\ fld r (K "tempPassword") = VStr (K "temp" ++ rnd) /\
  exists r' st'', login now' e (K "temp" ++ rnd) st' = (Ret r', st'')
    /\ fld r' (K "success") = VBool true.
Proof.
  intros hst rnd e st r st' now' u id R He Hv Hf Hid H.
  pose proof (reachable_normal hst st R) as Hn. unfold store_normal in Hn.
  assert (Hu : by_email (VStr e) u = true) by exact (find_sat _ _ _ Hf).
  unfold resetPassword, bind, getUsers in H. rewrite Hf in H. cbv beta iota zeta in H.
  unfold lift, bind in H.
  destruct (hashPassword (VStr (K "temp" ++ rnd))) as [h|ex] eqn:Hh; [|discriminate H].
  cbv beta iota in H. unfold saveUser, bind, getUsers, ret in H. cbv beta iota in H.
  rewrite fld_set_fld_other in H by reflexivity. rewrite Hid in H.
  assert (Hq : by_id (VStr id) u = true) by (unfold by_id; rewrite Hid; apply jseqb_refl).
  destruct (findIndex (by_id (VStr id)) (users st)) as [i|] eqn:Hi; cycle 1.
  { apply findIndex_none in Hi. pose proof (find_in _ _ _ (find_In _ _ _ Hf) Hq).
    congruence. }
  cbv [store_users ret] in H. injection H as <- <-.
  split; [reflexivity|split; [reflexivity|]].
  assert (Hdu : defined_fields u).
  { rewrite Forall_forall in Hn. apply Hn. exact (find_In _ _ _ Hf). }
  assert (Hu' : by_email (VStr e) (set_fld u (K "password") (VStr h)) = true).
  { unfold by_email in *. rewrite fld_set_fld_other by reflexivity. exact Hu. }
  apply (login_success now' e _ _ (jnorm_elem (set_fld u (K "password") (VStr h))) h He).
  - destruct (K "temp" ++ rnd) eqn:Ek; [discriminate Ek|discriminate].
  - exact Hv.
  - cbn [users]. apply find_jnorm_list.
    + apply defined_replace_nth; [exact Hn|apply defined_set_fld; [exact Hdu|discriminate]].
    + exact (find_replace_first _ _ _ _ _ _ Hf Hq Hi Hu').
  - exact Hh.
  - destruct u as [| | | | | |o]; try discriminate Hid.
    unfold jnorm_elem. cbn [set_fld].
    rewrite (oget_jnorm _ (K "password") (VStr h)) by (try apply oget_oset_same; discriminate).
    reflexivity.
Qed.

Lemma demo_state_reachable : reachable seoul demo_state.
Proof.
  apply (reach_step _ empty_state); [apply reach_empty|].
  apply (step_init _ 1700000000000 (K "abc123xyz") _
           (fst (initializeUsers 1700000000000 (K "abc123xyz") empty_state))).
  apply surjective_pairing.
Qed.

Lemma reset_then_login_witness :
  exists r st', resetPassword (K "x7k2m9q1") (VStr (K "demo@saju2026.com")) demo_state
    = (Ret r, st') /\
  fld r (K "success") = VBool true /\ fld r (K "tempPassword") = VStr (K "tempx7k2m9q1") /\
  exists r' st'', login 1700000100000 (K "demo@saju2026.com") (K "tempx7k2m9q1") st'
    = (Ret r', st'') /\ fld r' (K "success") = VBool true.
Proof.
  destruct (resetPassword (K "x7k2m9q1") (VStr (K "demo@saju2026.com")) demo_state)
    as [res st'] eqn:E.
  destruct res as [r|ex]; [|vm_compute in E; discriminate E].
  exists r, st'. split; [reflexivity|].
  destruct (find (by_email (VStr (K "demo@saju2026.com"))) (users demo_state)) as [u|] eqn:Hf;
    [|vm_compute in Hf; discriminate Hf].
  apply (reset_then_login seoul (K "x7k2m9q1") (K "demo@saju2026.com") demo_state r st'
           1700000100000 u (K "user_1700000000000_abc123xyz") demo_state_reachable).
  - discriminate.
  - reflexivity.
  - exact Hf.
  - vm_compute in Hf. injection Hf as <-. reflexivity.
  - exact E.
Defined.

(** [initializeUsers()] never touches a non-empty store; on an empty store it
    creates one account, leaves the session as it is, and the demo
    credentials then log in. *)
Theorem init_demo_account : forall now rnd st now',
  valid_time now = true -> valid_time now' = true ->
  (users st <> [] -> initializeUsers now rnd st = (Ret tt, st)) /\
  (users st = [] -> exists st1, initializeUsers now rnd st = (Ret tt, st1) /\
     List.length (users st1) = 1%nat /\ current st1 = current st /\
     exists r st2, login now' (K "demo@saju2026.com") (K "demo1234") st1 = (Ret r, st2)
       /\ fld r (K "success") = VBool true).
Proof.
  intros now rnd st now' Hv Hv'. split.
  - intros Hne. unfold initializeUsers, bind, getUsers.
    destruct (users st); [congruence|reflexivity].
  - intros He. unfold initializeUsers, bind, getUsers. rewrite He.
    cbv beta iota delta [lift ret bind].
    replace (hashPassword (VStr (K "demo1234"))) with (Ret (base64 (K "demo1234" ++ salt)))
      by reflexivity.
    rewrite toISOString_valid by exact Hv. cbv beta iota.
    unfold saveUser, bind, getUsers, ret. rewrite He. cbn [users findIndex app].
    unfold store_users.
    eexists. split; [reflexivity|]. split; [reflexivity|]. split; [reflexivity|].
    eapply (login_success now' _ _ _ _ (base64 (K "demo1234" ++ salt))).
    + discriminate.
    + discriminate.
    + exact Hv'.
    + cbn [users jnorm_list]. unfold jnorm_list. rewrite jnorm_arr. cbn [map find].
      match goal with |- (if ?b then _ else _) = _ => replace b with true end;
        [reflexivity|].
      symmetry. unfold by_email, jnorm_elem.
      rewrite (oget_jnorm _ (K "email") (VStr (K "demo@saju2026.com"))) by
        (reflexivity || discriminate).
      reflexivity.
    + reflexivity.
    + unfold jnorm_elem.
      rewrite (oget_jnorm _ (K "password") (VStr _)) by (reflexivity || discriminate).
      reflexivity.
Qed.

Lemma init_demo_account_witness :
  valid_time 1700000000000 = true /\ valid_time 1700000100000 = true /\
  (users demo_state <> [] ->
     initializeUsers 1700000050000 (K "q8w7e6r5t") demo_state = (Ret tt, demo_state)) /\
  (users demo_state = [] -> exists st1,
     initializeUsers 1700000050000 (K "q8w7e6r5t") demo_state = (Ret tt, st1) /\
     List.length (users st1) = 1%nat /\ current st1 = current demo_state /\
     exists r st2, login 1700000100000 (K "demo@saju2026.com") (K "demo1234") st1
       = (Ret r, st2) /\ fld r (K "success") = VBool true) /\
  (exists st1,
     initializeUsers 1700000000000 (K "abc123xyz") empty_state = (Ret tt, st1) /\
     List.length (users st1) = 1%nat /\ current st1 = None /\
     exists r st2, login 1700000100000 (K "demo@saju2026.com") (K "demo1234") st1
       = (Ret r, st2) /\ fld r (K "success") = VBool true).
Proof.
  split; [reflexivity|split; [reflexivity|split; [|split]]].
  - refine (proj1 (init_demo_account 1700000050000 (K "q8w7e6r5t") demo_state
             1700000100000 _ _)); reflexivity.
  - refine (proj2 (init_demo_account 1700000050000 (K "q8w7e6r5t") demo_state
             1700000100000 _ _)); reflexivity.
  - refine (proj2 (init_demo_account 1700000000000 (K "abc123xyz") empty_state
             1700000100000 _ _) eq_refl); reflexivity.
Defined.


Lemma jnorm_elem_eq : forall x, x <> VUndef -> jnorm_elem x = jnorm x.
Proof. intros x H. destruct x; [congruence|reflexivity..]. Qed.

Lemma jnorm_elem_idem_of : forall x, jnorm (jnorm x) = jnorm x ->
  jnorm_elem (jnorm_elem x) = jnorm_elem x.
Proof.
  intros x Hx. destruct x; [reflexivity|..];
    (match goal with |- jnorm_elem (jnorm_elem ?y) = _ =>
       assert (Hy : y <> VUndef) by discriminate;
       rewrite (jnorm_elem_eq y Hy), (jnorm_elem_eq (jnorm y) (jnorm_not_undef y Hy))
     end; exact Hx).
Qed.

Lemma jnorm_obj_cons : forall k x o, x <> VUndef ->
  jnorm (VObj ((k, x) :: o)) =
  match jnorm (VObj o) with VObj o' => VObj ((k, jnorm x) :: o') | _ => VUndef end.
Proof. intros k x o H. destruct x; [congruence|reflexivity..]. Qed.

Lemma jnorm_obj_shape : forall o, exists o', jnorm (VObj o) = VObj o'.
Proof. intros o. eexists. reflexivity. Qed.

Lemma reachable_fixed : forall hst st, reachable hst st -> store_fixed st.
Proof.
  apply reachable_inv.
  - intros l c. unfold store_fixed, jnorm_list. cbn [users]. rewrite jnorm_arr.
    apply Forall_forall. intros x Hx. apply in_map_iff in Hx as [y [<- _]].
    apply jnorm_elem_idem_of, jnorm_idem.
  - intros st c H. exact H.
  - constructor.
Qed.

Lemma fixed_field : forall x k v, jnorm_elem x = x -> fld x k = v -> v <> VUndef ->
  jnorm v = v.
Proof.
  intros x k v Hx Hv Hu. destruct x as [| | | | | |o]; try (subst v; cbn in Hu; congruence).
  pose proof (oget_jnorm o k v Hv Hu) as E. cbn [jnorm_elem] in Hx. rewrite Hx in E.
  cbn [fld] in E, Hv. congruence.
Qed.

Lemma fld_set_fld_same : forall o k x, fld (set_fld (VObj o) k x) k = x.
Proof. intros. apply oget_oset_same. Qed.

Lemma fld_ensure_set : forall u k x,
  match fld u (K "id") with VStr _ => True | _ => False end ->
  fld (set_fld (ensure_array u k) k x) k = x.
Proof.
  intros u k x H. destruct u as [| | | | | |o]; try contradiction.
  unfold ensure_array. destruct (truthy _); apply fld_set_fld_same.
Qed.

Lemma count_history_before : forall hst today u n s s',
  match fld u (K "id") with VStr _ => True | _ => False end ->
  jnorm_elem u = u ->
  (let h := fld u (K "consultationHistory") in
   if negb (truthy h) then ret 0
   else match h with VArr l => lift (count_today hst today l) | _ => throw TypeError end)
  s = (Ret n, s') ->
  exists l, fld (ensure_array u (K "consultationHistory")) (K "consultationHistory") = VArr l
    /\ Forall (fun y => jnorm_elem y = y) l /\ count_today hst today l = Ret n.
Proof.
  intros hst today u n s s' Hid Hfx H. cbv zeta in H.
  destruct u as [| | | | | |o]; try contradiction. unfold ensure_array.
  destruct (truthy (fld (VObj o) (K "consultationHistory"))) eqn:T; cbn [negb] in H.
  - destruct (fld (VObj o) (K "consultationHistory")) as [| | | | |l|] eqn:Eh;
      try discriminate H.
    exists l. split; [reflexivity|split].
    + pose proof (fixed_field _ _ _ Hfx Eh ltac:(discriminate)) as E.
      rewrite jnorm_arr in E. injection E as E.
      apply Forall_forall. intros y Hy. rewrite <- E in Hy.
      apply in_map_iff in Hy as [z [<- Hz]].
      apply jnorm_elem_idem_of, jnorm_idem.
    + unfold lift in H. destruct (count_today hst today l); [|discriminate H].
      injection H as -> _. reflexivity.
  - injection H as <- _. exists []. split; [apply fld_set_fld_same|split; constructor].
Qed.

(** A successful [addConsultationHistory(userId, c)] at time [now] raises the
    count [getTodayConsultationCount(userId)] at [now] by one. *)
Theorem consultation_counts_today : forall hst now uid c st r st' n,
  reachable hst st ->
  getTodayConsultationCount hst now (VStr uid) st = (Ret n, st) ->
  addConsultationHistory now (VStr uid) c st = (Ret r, st') ->
  fld r (K "success") = VBool true ->
  getTodayConsultationCount hst now (VStr uid) st' = (Ret (n + 1), st').
Proof.
  intros hst now uid c st r st' n R Hc H Hs.
  pose proof (reachable_normal hst st R) as Hn. pose proof (reachable_fixed hst st R) as Hx.
  unfold store_normal, store_fixed in *.
  unfold addConsultationHistory, bind, getUsers in H.
  destruct (find (by_id (VStr uid)) (users st)) as [u|] eqn:Hf; cycle 1.
  { cbv [ret] in H. injection H as <- _. discriminate Hs. }
  pose proof (fld_by_id _ _ (find_sat _ _ _ Hf)) as Hid.
  assert (Hux : jnorm_elem u = u).
  { rewrite Forall_forall in Hx. exact (Hx u (find_In _ _ _ Hf)). }
  assert (Hud : defined_fields u).
  { rewrite Forall_forall in Hn. exact (Hn u (find_In _ _ _ Hf)). }
  unfold getTodayConsultationCount, bind, getUsers in Hc. rewrite Hf in Hc.
  destruct (count_history_before hst (toDateString hst (time_clip now)) u n st st)
    as [l [El [Fl Cl]]].
  { rewrite Hid. exact I. }
  { exact Hux. }
  { exact Hc. }
  clear Hc. cbv zeta in H. unfold lift at 1 in H.
  destruct (toISOString now) as [date|ex] eqn:Ht; [|discriminate H].
  unfold toISOString in Ht. destruct (valid_time now) eqn:Hv; [|discriminate Ht].
  injection Ht as <-. cbv [ret] in H. unfold unshift_fld in H. rewrite El in H.
  cbv [ret] in H.
  set (rec := history_record (K "consult_" ++ num_to_str now) c (iso_string now)) in H.
  set (u' := set_fld (ensure_array u (K "consultationHistory")) (K "consultationHistory")
               (VArr (rec :: l))) in H.
  assert (Hid' : fld u' (K "id") = VStr uid).
  { unfold u'. rewrite fld_set_fld_other, fld_ensure_array_other by reflexivity. exact Hid. }
  assert (Hu'o : exists o', u' = VObj o').
  { destruct u as [| | | | | |o]; try discriminate Hid. unfold u', ensure_array.
    destruct (truthy _); eexists; reflexivity. }
  unfold saveUser, bind, getUsers in H. rewrite Hid' in H.
  assert (Hq : by_id (VStr uid) u = true) by exact (find_sat _ _ _ Hf).
  destruct (findIndex (by_id (VStr uid)) (users st)) as [i|] eqn:Hi; cycle 1.
  { apply findIndex_none in Hi. congruence. }
  cbv [store_users ret] in H. injection H as _ <-.
  assert (Hdu' : defined_fields u').
  { unfold u'. apply defined_set_fld; [|discriminate].
    unfold ensure_array. destruct (truthy _); [exact Hud|apply defined_set_fld; [exact Hud|discriminate]]. }
  assert (Hf' : find (by_id (VStr uid)) (jnorm_list (replace_nth i u' (users st)))
                = Some (jnorm_elem u')).
  { apply find_id_jnorm_list.
    - exact (defined_replace_nth _ _ _ Hn Hdu').
    - apply (find_replace_first _ _ _ _ _ _ Hf Hq Hi).
      unfold by_id. rewrite Hid'. apply jseqb_refl. }
  unfold getTodayConsultationCount, bind, getUsers. cbn [users]. rewrite Hf'.
  destruct Hu'o as [o' Eo].
  assert (Eh : fld (jnorm_elem u') (K "consultationHistory") = VArr (jnorm_elem rec :: l)).
  { rewrite Eo. cbn [jnorm_elem].
    rewrite (oget_jnorm o' (K "consultationHistory") (VArr (rec :: l))).
    - rewrite jnorm_arr. cbn [map]. f_equal. f_equal.
      rewrite <- (map_id l) at 2. apply map_ext_Forall. exact Fl.
    - change (fld (VObj o') (K "consultationHistory") = VArr (rec :: l)).
      rewrite <- Eo. unfold u'. apply fld_ensure_set. rewrite Hid. exact I.
    - discriminate. }
  cbv zeta. rewrite Eh. cbn [truthy negb].
  unfold lift. cbn [count_today]. rewrite Cl.
  assert (Er : get_date (jnorm_elem rec) = Ret (VStr (iso_string now))).
  { unfold rec, history_record.
    set (o := oset (oassign [(K "id", VStr (K "consult_" ++ num_to_str now))] c) (K "date")
                (VStr (iso_string now))).
    change (jnorm_elem (VObj o)) with (jnorm (VObj o)).
    pose proof (oget_jnorm o (K "date") (VStr (iso_string now)) (oget_oset_same _ _ _)
                  ltac:(discriminate)) as Ed.
    destruct (jnorm_obj_shape o) as [o2 E2]. rewrite E2 in Ed |- *.
    cbn [get_date]. rewrite Ed. reflexivity. }
  rewrite Er. cbn [date_of_val]. rewrite parse_date_iso by exact Hv.
  unfold time_clip. rewrite Hv, jseqb_refl. reflexivity.
Qed.

Lemma consultation_counts_today_witness :
  exists r st', addConsultationHistory 1700000100000 (VStr demo_uid)
    [(K "question", VStr (K "올해 운세"))] demo_state = (Ret r, st') /\
  getTodayConsultationCount seoul 1700000100000 (VStr demo_uid) st' = (Ret 1, st').
Proof.
  destruct (addConsultationHistory 1700000100000 (VStr demo_uid)
              [(K "question", VStr (K "올해 운세"))] demo_state) as [res st'] eqn:E.
  destruct res as [r|ex]; [|vm_compute in E; discriminate E].
  exists r, st'. split; [reflexivity|].
  apply (consultation_counts_today seoul 1700000100000 demo_uid
           [(K "question", VStr (K "올해 운세"))] demo_state r st' 0
           demo_state_reachable).
  - vm_compute. reflexivity.
  - exact E.
  - vm_compute in E. injection E as <- _. reflexivity.
Defined.

Lemma login_after_rehash : forall now' e pw h u uid l i c,
  Forall defined_fields l -> e <> [] -> pw <> [] -> valid_time now' = true ->
  find (by_email (VStr e)) l = Some u -> fld u (K "id") = VStr uid ->
  findIndex (by_id (VStr uid)) l = Some i -> hashPassword (VStr pw) = Ret h ->
  exists r' st'', login now' e pw
    (mkState (jnorm_list (replace_nth i (set_fld u (K "password") (VStr h)) l)) c)
    = (Ret r', st'') /\ fld r' (K "success") = VBool true.
Proof.
  intros now' e pw h u uid l i c Hn He Hp Hv Hf Hid Hi Hh.
  assert (Hu : by_email (VStr e) u = true) by exact (find_sat _ _ _ Hf).
  assert (Hq : by_id (VStr uid) u = true) by (unfold by_id; rewrite Hid; apply jseqb_refl).
  assert (Hdu : defined_fields u).
  { rewrite Forall_forall in Hn. exact (Hn u (find_In _ _ _ Hf)). }
  assert (Hu' : by_email (VStr e) (set_fld u (K "password") (VStr h)) = true).
  { unfold by_email in *. rewrite fld_set_fld_other by reflexivity. exact Hu. }
  apply (login_success now' e _ _ (jnorm_elem (set_fld u (K "password") (VStr h))) h He Hp Hv).
  - cbn [users]. apply find_jnorm_list.
    + apply defined_replace_nth; [exact Hn|apply defined_set_fld; [exact Hdu|discriminate]].
    + exact (find_replace_first _ _ _ _ _ _ Hf Hq Hi Hu').
  - exact Hh.
  - destruct u as [| | | | | |o]; try discriminate Hid.
    unfold jnorm_elem. cbn [set_fld].
    rewrite (oget_jnorm _ (K "password") (VStr h)) by (try apply oget_oset_same; discriminate).
    reflexivity.
Qed.

(** In a reachable state, a successful [updateUser(id, { password })] with
    a non-empty new password, on the account that is the first one both for
    its id and for its non-empty email, then [login(email, password)] at a
    valid time: the login succeeds. *)
Theorem update_password_then_login : forall hst uid e pw st r st' u now',
  reachable hst st -> e <> [] -> pw <> [] -> valid_time now' = true ->
  find (by_id (VStr uid)) (users st) = Some u ->
  find (by_email (VStr e)) (users st) = Some u ->
  updateUser (VStr uid) [(K "password", VStr pw)] st = (Ret r, st') ->
  fld r (K "success") = VBool true ->
  exists r' st'', login now' e pw st' = (Ret r', st'') /\ fld r' (K "success") = VBool true.
Proof.
  intros hst uid e pw st r st' u now' R He Hp Hv Hfi Hfe H Hs.
  pose proof (reachable_normal hst st R) as Hn. unfold store_normal in Hn.
  pose proof (fld_by_id _ _ (find_sat _ _ _ Hfi)) as Hid.
  unfold updateUser, bind, getUsers in H. rewrite Hfi in H.
  destruct pw as [|c0 p0]; [congruence|].
  cbv beta iota zeta delta [lift ret bind] in H.
  replace (truthy (oget [(K "password", VStr (c0 :: p0))] (K "password"))) with true
    in H by reflexivity.
  destruct (hashPassword (oget [(K "password", VStr (c0 :: p0))] (K "password")))
    as [h|ex] eqn:Hh; [|discriminate H].
  change (oget [(K "password", VStr (c0 :: p0))] (K "password")) with (VStr (c0 :: p0)) in Hh.
  replace (oset [(K "password", VStr (c0 :: p0))] (K "password") (VStr h))
    with [(K "password", VStr h)] in H by (cbn; rewrite jseqb_refl; reflexivity).
  replace (truthy (oget [(K "password", VStr h)] (K "email"))) with false in H
    by reflexivity.
  cbn [andb] in H.
  destruct u as [| | | | | |o]; try discriminate Hid.
  change (VObj (oassign o [(K "password", VStr h)]))
    with (set_fld (VObj o) (K "password") (VStr h)) in H.
  unfold saveUser, bind, getUsers in H.
  rewrite fld_set_fld_other, Hid in H by reflexivity.
  destruct (findIndex (by_id (VStr uid)) (users st)) as [i|] eqn:Hi; cycle 1.
  { apply findIndex_none in Hi. congruence. }
  cbv [store_users] in H.
  set (l' := jnorm_list (replace_nth i (set_fld (VObj o) (K "password") (VStr h)) (users st)))
    in H.
  assert (Hst : users st' = l').
  { revert H. cbv [getCurrentUser ret setCurrentUser]. cbn [current users].
    destruct (current st) as [cu|]; [destruct (strict_eq _ _)|]; intros H;
      injection H as _ <-; reflexivity. }
  destruct st' as [us' cur']. cbn [users] in Hst. subst us'.
  exact (login_after_rehash now' e (c0 :: p0) h (VObj o) uid (users st) i cur'
           Hn He Hp Hv Hfe Hid Hi Hh).
Qed.

Lemma update_password_then_login_witness :
  exists r st', updateUser (VStr demo_uid) [(K "password", VStr (K "newpass99"))] demo_state
    = (Ret r, st') /\ fld r (K "success") = VBool true /\
  exists r' st'', login 1700000100000 (K "demo@saju2026.com") (K "newpass99") st'
    = (Ret r', st'') /\ fld r' (K "success") = VBool true.
Proof.
  destruct (updateUser (VStr demo_uid) [(K "password", VStr (K "newpass99"))] demo_state)
    as [res st'] eqn:E.
  destruct res as [r|ex]; [|vm_compute in E; discriminate E].
  assert (Hs : fld r (K "success") = VBool true) by (vm_compute in E; injection E as <- _; reflexivity).
  exists r, st'. split; [reflexivity|split; [exact Hs|]].
  destruct (find (by_id (VStr demo_uid)) (users demo_state)) as [u|] eqn:Hfi;
    [|vm_compute in Hfi; discriminate Hfi].
  apply (update_password_then_login seoul demo_uid (K "demo@saju2026.com") (K "newpass99")
           demo_state r st' u 1700000100000 demo_state_reachable).
  - discriminate.
  - discriminate.
  - reflexivity.
  - exact Hfi.
  - vm_compute in Hfi |- *. exact Hfi.
  - exact E.
  - exact Hs.
Defined.

Lemma session_store : forall c l, preserves (fun s => current s = c) (store_users l).
Proof. intros c l st r st' E H. injection E as _ <-. exact H. Qed.

Lemma session_saveUser : forall c v, preserves (fun s => current s = c) (saveUser v).
Proof. intros c v. unfold saveUser. pres ltac:(apply session_store). Qed.

Ltac session_hint := first [apply session_store | apply session_saveUser].

(** [initializeUsers], [register], [resetPassword],
    [addConsultationHistory] and [addPurchaseHistory] for a type other than
    the two premium plans never change the published session: in
    particular [register] does not log the new account in. *)
Theorem session_untouched : forall c,
  (forall now rnd, preserves (fun s => current s = c) (initializeUsers now rnd)) /\
  (forall now rnd input, preserves (fun s => current s = c) (register now rnd input)) /\
  (forall rnd e, preserves (fun s => current s = c) (resetPassword rnd e)) /\
  (forall now i h, preserves (fun s => current s = c) (addConsultationHistory now i h)) /\
  (forall hst now i p, is_premium_type (oget p (K "type")) = false ->
     preserves (fun s => current s = c) (addPurchaseHistory hst now i p)).
Proof.
  intros c. split; [|split; [|split; [|split]]].
  - intros. unfold initializeUsers. pres session_hint.
  - intros. unfold register. pres session_hint.
  - intros. unfold resetPassword. pres session_hint.
  - intros. unfold addConsultationHistory, unshift_fld. pres session_hint.
  - intros hst now i p Hp. unfold addPurchaseHistory, unshift_fld. cbv zeta.
    rewrite Hp. pres session_hint.
Qed.

Lemma session_untouched_witness :
  is_premium_type (oget [(K "type", VStr (K "reading"))] (K "type")) = false /\
  current (snd (addPurchaseHistory seoul 1700000100000 (VStr demo_uid)
                  [(K "type", VStr (K "reading"))] demo_session)) = current demo_session /\
  current (snd (register 1700000100000 (K "k3j9x0a1b") sample_input demo_session))
    = current demo_session.
Proof.
  destruct (session_untouched (current demo_session)) as (_ & Hreg & _ & _ & Hpur).
  split; [reflexivity|split].
  - apply (Hpur seoul 1700000100000 (VStr demo_uid) [(K "type", VStr (K "reading"))]
             eq_refl demo_session
             (fst (addPurchaseHistory seoul 1700000100000 (VStr demo_uid)
                     [(K "type", VStr (K "reading"))] demo_session)));
      [apply surjective_pairing|reflexivity].
  - apply (Hreg 1700000100000 (K "k3j9x0a1b") sample_input demo_session
             (fst (register 1700000100000 (K "k3j9x0a1b") sample_input demo_session)));
      [apply surjective_pairing|reflexivity].
Defined.

Lemma year_length : forall y m, 1 <= m <= 12 ->
  365 <= days_from_civil (y + (m - 1 + 12) / 12) ((m - 1 + 12) mod 12 + 1) 1
         - days_from_civil y m 1 <= 366.
Proof.
  intros y m Hm.
  assert (m = 1 \/ m = 2 \/ m = 3 \/ m = 4 \/ m = 5 \/ m = 6 \/ m = 7 \/ m = 8 \/
          m = 9 \/ m = 10 \/ m = 11 \/ m = 12) as Hc by lia.
  unfold days_from_civil.
  repeat destruct Hc as [-> | Hc]; try subst m; cbv beta iota zeta; simpl;
    Z.div_mod_to_equations; lia.
Qed.

Lemma add_months_arith_year : forall t o Y X d,
  365 <= X - Y <= 366 -> Y + d - 1 = (t + o) / msPerDay ->
  t + o + 365 * msPerDay <= (X + d - 1) * msPerDay + (t + o) mod msPerDay
    <= t + o + 366 * msPerDay.
Proof.
  intros t o Y X d Hl Hrt.
  pose proof (Z.div_mod (t + o) msPerDay ltac:(discriminate)) as Hdm.
  rewrite <- Hrt in Hdm. clear Hrt.
  assert (HM : 0 < msPerDay) by reflexivity.
  generalize dependent ((t + o) mod msPerDay). intros R Hdm.
  revert HM Hdm. generalize msPerDay. intros M HM Hdm.
  assert (E : (X + d - 1) * M + R = t + o + (X - Y) * M) by (clear - Hdm; lia).
  rewrite E. clear - Hl HM.
  split; apply Z.add_le_mono_l; apply Z.mul_le_mono_nonneg_r; lia.
Qed.

(** Twelve months on: the new local time is 365 or 366 days after the
    local time of [t]. *)
Lemma add_months_twelve : forall hst t e, add_months hst t 12 = Some e ->
  exists nl, t + tz_utc hst t + 365 * msPerDay <= nl <= t + tz_utc hst t + 366 * msPerDay /\
    e = nl - tz_local hst nl.
Proof.
  intros hst t e H.
  destruct (add_months_spec hst t 12 e H) as (y & m & d & E & nl & -> & ->).
  pose proof (civil_days_roundtrip ((t + tz_utc hst t) / msPerDay)) as Hrt.
  pose proof (civil_ranges ((t + tz_utc hst t) / msPerDay)) as Hrg.
  rewrite E in Hrt, Hrg. destruct Hrg as [Hm _].
  unfold make_day. rewrite days_from_civil_day in Hrt.
  eexists. split; [exact (add_months_arith_year t _ _ _ d (year_length y m Hm) Hrt)|].
  reflexivity.
Qed.

Lemma add_months_twelve_bound : forall hst lo hi t e, offsets_within hst lo hi ->
  add_months hst t 12 = Some e ->
  t + 365 * msPerDay - (hi - lo) <= e <= t + 366 * msPerDay + (hi - lo).
Proof.
  intros hst lo hi t e Ho H.
  destruct (add_months_twelve hst t e H) as [nl [Hnl ->]].
  destruct (Ho t) as [H1 _]. destruct (Ho nl) as [_ H2]. lia.
Qed.

(** After a successful [addPurchaseHistory(userId, { type: 'premium_yearly' })]
    at [t0] for the logged-in account, on a host whose UTC offsets stay
    within [[lo, hi]], the session's expiry lies between [t0] + 365 days -
    (hi - lo) and [t0] + 366 days + (hi - lo), and [isPremiumUser()] is true
    exactly before it. *)
Theorem premium_yearly_window : forall hst lo hi t0 uid c st r st',
  offsets_within hst lo hi ->
  current st = Some c -> fld c (K "id") = VStr uid ->
  addPurchaseHistory hst t0 (VStr uid) [(K "type", VStr (K "premium_yearly"))] st
    = (Ret r, st') ->
  fld r (K "success") = VBool true ->
  exists e, t0 + 365 * msPerDay - (hi - lo) <= e <= t0 + 366 * msPerDay + (hi - lo) /\
    forall now, valid_time now = true -> isPremiumUser hst now st' = (Ret (now <? e), st').
Proof.
  intros hst lo hi t0 uid c st r st' Ho Hc Hid H Hs.
  refine (wp_run _ _ (fun res s => forall r, res = Ret r -> fld r (K "success") = VBool true ->
    exists e, t0 + 365 * msPerDay - (hi - lo) <= e <= t0 + 366 * msPerDay + (hi - lo) /\
    forall now, valid_time now = true -> isPremiumUser hst now s = (Ret (now <? e), s))
    st (Ret r) st' H _ r eq_refl Hs).
  clear H Hs r st'. unfold addPurchaseHistory, unshift_fld. wp_all.
  all: intros.
  all: try discriminate.
  all: try (match goal with H : Ret (fail _) = Ret ?r, H0 : fld ?r _ = _ |- _ =>
              injection H as <-; discriminate H0 end).
  all: try (exfalso; match goal with Hb : is_premium_type _ = false |- _ =>
              vm_compute in Hb; discriminate Hb end).
  all: match goal with
       | Hm : add_months _ _ _ = Some ?z, Hz : toISOString ?z = Ret _,
         Hfd : find _ _ = Some _ |- _ =>
           change (if strict_eq (oget [(K "type", VStr (K "premium_yearly"))] (K "type"))
                     (VStr (K "premium_yearly")) then 12 else 1) with 12 in Hm;
           exists z; split; [exact (add_months_twelve_bound _ lo hi _ _ Ho Hm)|];
           unfold toISOString in Hz; destruct (valid_time z) eqn:Vz; [|discriminate];
           injection Hz as <-;
           pose proof (fld_by_id _ _ (find_sat _ _ _ Hfd)) as Hv
       end.
  all: match goal with E : updateUser _ _ {| users := jnorm_list ?l; current := _ |} = _ |- _ =>
         match l with context [set_fld ?w ?k ?x] =>
           assert (Hu : fld (set_fld w k x) (K "id") = VStr uid)
             by (rewrite fld_set_fld_other, fld_ensure_array_other by reflexivity; exact Hv);
           assert (Hf : find (by_id (VStr uid)) (jnorm_list l) <> None)
         end end.
  1: { match goal with Hi : findIndex _ _ = Some _ |- _ =>
         destruct (findIndex_some _ _ _ Hi) as [u [Hn _]] end.
       exact (find_stored _ _ _ (replace_nth_In _ _ _ _ Hn) Hu). }
  2: { refine (find_stored _ _ _ _ Hu). apply in_or_app. right. left. reflexivity. }
  all: match goal with E : updateUser _ _ _ = _ |- _ =>
         apply (update_publishes uid _ _ _ _ c) in E;
         [destruct E as [o Ho'] | reflexivity | reflexivity | exact Hc | exact Hid | exact Hf]
       end.
  all: intros now Hn; exact (premium_view hst o _ now _ Vz Hn Ho').
Qed.

Lemma premium_yearly_window_witness :
  match addPurchaseHistory seoul 1700000000000 (VStr demo_uid)
          [(K "type", VStr (K "premium_yearly"))] demo_session with
  | (Ret r, st') =>
      fld r (K "success") = VBool true /\
      isPremiumUser seoul (1700000000000 + 364 * msPerDay) st' = (Ret true, st') /\
      isPremiumUser seoul (1700000000000 + 366 * msPerDay) st' = (Ret false, st')
  | _ => False
  end.
Proof.
  destruct (addPurchaseHistory seoul 1700000000000 (VStr demo_uid)
              [(K "type", VStr (K "premium_yearly"))] demo_session) as [[r|e] st'] eqn:E.
  - assert (Hs : fld r (K "success") = VBool true)
      by (vm_compute in E; injection E as <- _; reflexivity).
    destruct (premium_yearly_window seoul 32400000 32400000 1700000000000 demo_uid
                (match current demo_session with Some c => c | None => VUndef end) demo_session
                r st' seoul_offsets ltac:(vm_compute; reflexivity) ltac:(vm_compute; reflexivity) E Hs)
      as [x [Hx Hp]].
    split; [exact Hs|split].
    + rewrite (Hp (1700000000000 + 364 * msPerDay) eq_refl). do 2 f_equal. apply Z.ltb_lt. unfold msPerDay in *. lia.
    + rewrite (Hp (1700000000000 + 366 * msPerDay) eq_refl). do 2 f_equal. apply Z.ltb_ge. unfold msPerDay in *. lia.
  - vm_compute in E. discriminate.
Defined.

Lemma splits_on_spec : forall ch s a b, In (a, b) (splits_on ch s) -> s = a ++ ch :: b.
Proof.
  intros ch s. induction s as [|c r IH]; intros a b H; [contradiction|].
  cbn [splits_on] in H.
  assert (Hm : In (a, b) (map (fun ab => (c :: fst ab, snd ab)) (splits_on ch r)) ->
               c :: r = a ++ ch :: b).
  { intros Hin. apply in_map_iff in Hin as [[a' b'] [E Hin]]. injection E as <- <-.
    cbn. rewrite (IH a' b' Hin). reflexivity. }
  destruct (c =? ch) eqn:E.
  - destruct H as [H|H]; [|exact (Hm H)].
    injection H as <- <-. apply Z.eqb_eq in E. subst. reflexivity.
  - exact (Hm H).
Qed.

Lemma plus_nc_spec : forall s, plus_nc s = true ->
  s <> [] /\ forall c, In c s -> is_ws c = false /\ c <> 64.
Proof.
  intros [|x r] H; [discriminate H|]. split; [discriminate|].
  intros c Hc. unfold plus_nc in H. rewrite forallb_forall in H.
  specialize (H c Hc). apply andb_prop in H as [H1 H2].
  apply negb_true_iff in H1, H2. apply Z.eqb_neq in H2. split; assumption.
Qed.

(** An email [isValidEmail] accepts has exactly one [@], with a non-empty
    part before it; no whitespace; and after the [@] a [.] with non-empty
    text on both sides. *)
Theorem valid_email_shape : forall email, isValidEmail email = true ->
  exists local domain, email = local ++ 64 :: domain /\ local <> [] /\
    ~ In 64 local /\ ~ In 64 domain /\ (forall c, In c email -> is_ws c = false) /\
    exists host tld, domain = host ++ 46 :: tld /\ host <> [] /\ tld <> [].
Proof.
  intros email H. unfold isValidEmail in H. apply existsb_exists in H as [[a rest] [Ha Hp]].
  apply andb_prop in Hp as [Pa Hp]. apply existsb_exists in Hp as [[b c] [Hb Hq]].
  apply andb_prop in Hq as [Pb Pc]. cbn [fst snd] in *.
  apply splits_on_spec in Ha, Hb. subst email rest.
  apply plus_nc_spec in Pa as [Na Ca], Pb as [Nb Cb], Pc as [Nc Cc].
  exists a, (b ++ 46 :: c). split; [reflexivity|split; [exact Na|split; [|split; [|split]]]].
  - intros Hin. exact (proj2 (Ca 64 Hin) eq_refl).
  - intros Hin. apply in_app_or in Hin as [Hin|[E|Hin]];
      [exact (proj2 (Cb 64 Hin) eq_refl)|discriminate E|exact (proj2 (Cc 64 Hin) eq_refl)].
  - intros x Hin. apply in_app_or in Hin as [Hin|[<-|Hin]]; [exact (proj1 (Ca x Hin))|reflexivity|].
    apply in_app_or in Hin as [Hin|[<-|Hin]]; [exact (proj1 (Cb x Hin))|reflexivity|exact (proj1 (Cc x Hin))].
  - exists b, c. split; [reflexivity|split; assumption].
Qed.

Lemma valid_email_shape_witness :
  isValidEmail (K "kim@example.com") = true /\
  exists local domain, K "kim@example.com" = local ++ 64 :: domain /\ local <> [] /\
    ~ In 64 local /\ ~ In 64 domain /\
    (forall c, In c (K "kim@example.com") -> is_ws c = false) /\
    exists host tld, domain = host ++ 46 :: tld /\ host <> [] /\ tld <> [].
Proof.
  split; [reflexivity|]. apply valid_email_shape. reflexivity.
Defined.

Lemma opt_hyphen_spec : forall s r, In r (opt_hyphen s) -> s = r \/ s = 45 :: r.
Proof.
  intros [|c s] r H; cbn in H.
  - destruct H as [<-|[]]. left. reflexivity.
  - destruct (c =? 45) eqn:E; cbn in H.
    + apply Z.eqb_eq in E. subst c. destruct H as [<-|[<-|[]]]; [right|left]; reflexivity.
    + destruct H as [<-|[]]. left. reflexivity.
Qed.

Lemma four_digits_spec : forall s r, four_digits s = Some r ->
  exists a b c d, s = a :: b :: c :: d :: r /\ Forall (fun x => is_digit x = true) [a; b; c; d].
Proof.
  intros [|a [|b [|c [|d s]]]] r H; try discriminate H. cbn in H.
  destruct (is_digit a) eqn:Ea, (is_digit b) eqn:Eb, (is_digit c) eqn:Ec, (is_digit d) eqn:Ed;
    try discriminate H.
  injection H as <-. exists a, b, c, d. split; [reflexivity|repeat constructor; assumption].
Qed.

(** A phone number [isValidPhone] accepts starts with [01], has 11 to 13
    characters, and each of them is a digit or a hyphen. *)
Theorem valid_phone_shape : forall phone, isValidPhone phone = true ->
  firstn 2 phone = [48; 49] /\ (11 <= List.length phone <= 13)%nat /\
  forall c, In c phone -> is_digit c = true \/ c = 45.
Proof.
  intros phone H. destruct phone as [|z [|o [|d r]]]; try discriminate H.
  cbn [isValidPhone] in H. apply andb_prop in H as [H Hr]. apply andb_prop in H as [H Hd].
  apply andb_prop in H as [Hz Ho]. apply Z.eqb_eq in Hz, Ho. subst z o.
  apply existsb_exists in Hr as [r1 [H1 Hr1]].
  destruct (four_digits r1) as [r2|] eqn:F1; [|discriminate Hr1].
  apply existsb_exists in Hr1 as [r3 [H3 Hr3]].
  destruct (four_digits r3) as [[|x r4]|] eqn:F3; try discriminate Hr3.
  apply four_digits_spec in F1 as (a1 & b1 & c1 & d1 & E1 & D1).
  apply four_digits_spec in F3 as (a3 & b3 & c3 & d3 & E3 & D3).
  subst r1 r3. apply opt_hyphen_spec in H1, H3.
  split; [reflexivity|].
  assert (Hall : forall c, In c (48 :: 49 :: d :: r) -> is_digit c = true \/ c = 45).
  { intros c Hc. rewrite Forall_forall in D1, D3.
    destruct Hc as [<-|[<-|[<-|Hc]]]; [left; reflexivity|left; reflexivity|left; exact Hd|].
    destruct H1 as [ -> | -> ]; [|destruct Hc as [<-|Hc]; [right; reflexivity|]];
    (destruct Hc as [<-|[<-|[<-|[<-|Hc]]]];
      [left; apply D1; cbn; tauto..|];
     destruct H3 as [ -> | -> ]; [|destruct Hc as [<-|Hc]; [right; reflexivity|]];
     destruct Hc as [<-|[<-|[<-|[<-|[]]]]]; left; apply D3; cbn; tauto). }
  split; [|exact Hall].
  destruct H1 as [ -> | -> ]; destruct H3 as [ -> | -> ]; cbn; lia.
Qed.

Lemma valid_phone_shape_witness :
  isValidPhone (K "010-9876-5432") = true /\
  firstn 2 (K "010-9876-5432") = [48; 49] /\
  (11 <= List.length (K "010-9876-5432") <= 13)%nat /\
  forall c, In c (K "010-9876-5432") -> is_digit c = true \/ c = 45.
Proof.
  split; [reflexivity|]. apply valid_phone_shape. reflexivity.
Defined.

(** A successful [saveSajuData(userId, data)] stores the JSON copy of [data]
    and the time of the call in the account found by [userId]; the session
    shows the new data when it is that account, and is left as it was
    otherwise (another account, or no session at all). *)
Theorem saju_saved : forall hst now uid data st r st',
  reachable hst st -> data <> VUndef ->
  saveSajuData now (VStr uid) data st = (Ret r, st') ->
  fld r (K "success") = VBool true ->
  (exists u', find (by_id (VStr uid)) (users st') = Some u' /\
     fld u' (K "sajuData") = jnorm data /\
     fld u' (K "sajuCalculatedAt") = VStr (iso_string now)) /\
  (forall c, current st = Some c -> fld c (K "id") = VStr uid ->
     exists c', current st' = Some c' /\ fld c' (K "sajuData") = jnorm data) /\
  (forall c, current st = Some c -> strict_eq (fld c (K "id")) (VStr uid) = false ->
     current st' = current st) /\
  (current st = None -> current st' = None).
Proof.
  intros hst now uid data st r st' R Hd H Hs.
  pose proof (reachable_normal hst st R) as Hn. unfold store_normal in Hn.
  unfold saveSajuData, bind, getUsers in H.
  destruct (find (by_id (VStr uid)) (users st)) as [u|] eqn:Hf; cycle 1.
  { cbv [ret] in H. injection H as <- _. discriminate Hs. }
  pose proof (fld_by_id _ _ (find_sat _ _ _ Hf)) as Hid.
  assert (Hud : defined_fields u).
  { rewrite Forall_forall in Hn. exact (Hn u (find_In _ _ _ Hf)). }
  destruct u as [| | | | | |o]; try discriminate Hid.
  unfold lift at 1 in H. destruct (toISOString now) as [ts|ex] eqn:Ht; [|discriminate H].
  unfold toISOString in Ht. destruct (valid_time now) eqn:Hv; [|discriminate Ht].
  injection Ht as <-. cbv beta iota zeta delta [ret] in H.
  set (u' := set_fld (set_fld (VObj o) (K "sajuData") data) (K "sajuCalculatedAt")
               (VStr (iso_string now))) in H.
  assert (Hid' : fld u' (K "id") = VStr uid).
  { unfold u'. rewrite !fld_set_fld_other by reflexivity. exact Hid. }
  assert (Eo : u' = VObj (oset (oset o (K "sajuData") data) (K "sajuCalculatedAt")
                            (VStr (iso_string now)))) by reflexivity.
  assert (Hsd : oget (oset (oset o (K "sajuData") data) (K "sajuCalculatedAt")
                  (VStr (iso_string now))) (K "sajuData") = data).
  { rewrite oget_oset_other by reflexivity. apply oget_oset_same. }
  assert (Hsc : oget (oset (oset o (K "sajuData") data) (K "sajuCalculatedAt")
                  (VStr (iso_string now))) (K "sajuCalculatedAt") = VStr (iso_string now))
    by apply oget_oset_same.
  unfold saveUser, bind, getUsers in H. rewrite Hid' in H.
  assert (Hq : by_id (VStr uid) (VObj o) = true) by exact (find_sat _ _ _ Hf).
  destruct (findIndex (by_id (VStr uid)) (users st)) as [i|] eqn:Hi; cycle 1.
  { apply findIndex_none in Hi. congruence. }
  cbv [store_users getCurrentUser] in H. cbn [current users] in H.
  assert (Hdu' : defined_fields u').
  { unfold u'. apply defined_set_fld; [apply defined_set_fld; [exact Hud|exact Hd]|discriminate]. }
  assert (Hf' : find (by_id (VStr uid)) (jnorm_list (replace_nth i u' (users st)))
                = Some (jnorm_elem u')).
  { apply find_id_jnorm_list.
    - exact (defined_replace_nth _ _ _ Hn Hdu').
    - apply (find_replace_first _ _ _ _ _ _ Hf Hq Hi).
      unfold by_id. rewrite Hid'. apply jseqb_refl. }
  assert (Hu1 : exists u1, find (by_id (VStr uid)) (users st') = Some u1 /\
     fld u1 (K "sajuData") = jnorm data /\
     fld u1 (K "sajuCalculatedAt") = VStr (iso_string now)).
  { exists (jnorm_elem u'). split.
    - destruct (current st) as [c|]; [destruct (strict_eq _ _)|];
        cbv [setCurrentUser ret] in H; injection H as _ <-; exact Hf'.
    - change (jnorm_elem u') with (jnorm (VObj (oset (oset o (K "sajuData") data)
                 (K "sajuCalculatedAt") (VStr (iso_string now))))).
      rewrite (oget_jnorm _ _ _ Hsd Hd), (oget_jnorm _ _ _ Hsc ltac:(discriminate)).
      split; reflexivity. }
  split; [exact Hu1|split; [|split]].
  - intros c Hc Hcid. rewrite Hc in H. rewrite Hcid in H.
    cbn [strict_eq] in H. rewrite jseqb_refl in H.
    cbv [setCurrentUser ret] in H. injection H as _ <-.
    eexists. split; [reflexivity|].
    change (sanitizeUser u') with (sanitizeUser (VObj (oset (oset o (K "sajuData") data)
                 (K "sajuCalculatedAt") (VStr (iso_string now))))).
    refine (oget_jnorm (filter (fun kv => negb (jseqb (fst kv) (K "password")))
              (oset (oset o (K "sajuData") data) (K "sajuCalculatedAt")
                 (VStr (iso_string now)))) (K "sajuData") data _ Hd).
    rewrite oget_filter by reflexivity. exact Hsd.
  - intros c Hc Hcid. rewrite Hc in H. rewrite Hcid in H.
    cbv [ret] in H. injection H as _ <-. cbn [current]. symmetry. exact Hc.
  - intros Hc. rewrite Hc in H. cbv [ret] in H. injection H as _ <-. reflexivity.
Qed.

Lemma saju_saved_witness :
  match saveSajuData 1700000100000 (VStr demo_uid) (VStr (K "갑자")) demo_session with
  | (Ret r, st') =>
      fld r (K "success") = VBool true /\
      (exists u', find (by_id (VStr demo_uid)) (users st') = Some u' /\
         fld u' (K "sajuData") = VStr (K "갑자") /\
         fld u' (K "sajuCalculatedAt") = VStr (iso_string 1700000100000)) /\
      exists c', current st' = Some c' /\ fld c' (K "sajuData") = VStr (K "갑자")
  | _ => False
  end.
Proof.
  destruct (saveSajuData 1700000100000 (VStr demo_uid) (VStr (K "갑자")) demo_session)
    as [[r|e] st'] eqn:E; [|vm_compute in E; discriminate E].
  assert (Hs : fld r (K "success") = VBool true)
    by (vm_compute in E; injection E as <- _; reflexivity).
  destruct (saju_saved seoul 1700000100000 demo_uid (VStr (K "갑자")) demo_session r st')
    as [H1 [H2 _]].
  - apply (reach_step _ demo_state); [exact demo_state_reachable|].
    apply (step_login _ 1700000000000 (K "demo@saju2026.com") (K "demo1234") _
             (fst (login 1700000000000 (K "demo@saju2026.com") (K "demo1234") demo_state))).
    apply surjective_pairing.
  - discriminate.
  - exact E.
  - exact Hs.
  - split; [exact Hs|split; [exact H1|]].
    apply (H2 (match current demo_session with Some c => c | None => VUndef end));
      vm_compute; reflexivity.
Defined.

Lemma login_logout_session_witness :
  match login 1700000000000 (K "demo@saju2026.com") (K "demo1234") demo_state with
  | (Ret r, st') => fld r (K "success") = VBool true /\ isLoggedIn st' = (Ret true, st')
  | _ => False
  end.
Proof.
  destruct (login 1700000000000 (K "demo@saju2026.com") (K "demo1234") demo_state)
    as [[r|e] st'] eqn:E; [|vm_compute in E; discriminate E].
  assert (Hs : fld r (K "success") = VBool true)
    by (vm_compute in E; injection E as <- _; reflexivity).
  split; [exact Hs|].
  exact (proj1 login_logout_session _ _ _ _ _ _ E Hs).
Defined.

Lemma unknown_user_id_witness :
  find (by_id (VStr (K "u9"))) (users demo_state) = None /\
  getTodayConsultationCount seoul 1700000100000 (VStr (K "u9")) demo_state
    = (Ret 0, demo_state).
Proof.
  assert (H : find (by_id (VStr (K "u9"))) (users demo_state) = None)
    by (vm_compute; reflexivity).
  split; [exact H|].
  exact (proj2 (proj2 (proj2 (proj2 (unknown_user_id _ _ H)))) seoul 1700000100000).
Defined.

Lemma null_consultation_throws_witness :
  getTodayConsultationCount seoul 1700000100000 (VStr (K "u1")) null_history_state
    = (Exc TypeError, null_history_state).
Proof.
  apply (null_consultation_throws seoul 1700000100000 (VStr (K "u1")) null_history_state
           (VObj [(K "id", VStr (K "u1")); (K "consultationHistory", VArr [VNull])])
           [VNull]); [reflexivity|reflexivity|left; reflexivity].
Defined.

Lemma iso_string_read_back_witness :
  date_of_val seoul (VStr (iso_string 1700000000000)) = Some 1700000000000.
Proof. apply iso_string_read_back. reflexivity. Defined.

(** Every stored account found by [findIndex] is found by [find]. *)
Lemma findIndex_find : forall p l i, findIndex p l = Some i -> exists u, find p l = Some u.
Proof.
  intros p l. induction l as [|x l IH]; intros i; simpl; [discriminate|].
  destruct (p x); [intros _; eexists; reflexivity|].
  destruct (findIndex p l) as [j|]; simpl; [|discriminate]. intros _. exact (IH j eq_refl).
Qed.

Lemma find_app_none : forall p l m, find p l = None -> find p (l ++ m) = find p m.
Proof.
  intros p l m. induction l as [|x l IH]; simpl; [reflexivity|].
  destruct (p x); [discriminate|exact IH].
Qed.

Lemma replace_nth_length : forall l i x, List.length (replace_nth i x l) = List.length l.
Proof. induction l as [|y l IH]; intros [|i] x; simpl; try reflexivity. f_equal. apply IH. Qed.

Lemma jnorm_list_length : forall l, List.length (jnorm_list l) = List.length l.
Proof. intros l. unfold jnorm_list. rewrite jnorm_arr. apply length_map. Qed.

Lemma by_id_jnorm_elem_self : forall i x, by_id (VStr i) x = true ->
  by_id (VStr i) (jnorm_elem x) = true.
Proof.
  intros i x H. pose proof (fld_by_id _ _ H) as Hx.
  destruct x as [| | | | | |o]; try discriminate Hx.
  unfold by_id. cbn [jnorm_elem]. rewrite (oget_jnorm o (K "id") (VStr i) Hx) by discriminate.
  cbn [jnorm strict_eq]. apply jseqb_refl.
Qed.

(** The first record with a given string id, when every record before it has
    only defined properties, is found again after the [JSON] round trip. *)
Lemma find_id_jnorm_list_gen : forall i l x,
  Forall (fun y => defined_fields y \/ y = x) l ->
  find (by_id (VStr i)) l = Some x ->
  find (by_id (VStr i)) (jnorm_list l) = Some (jnorm_elem x).
Proof.
  intros i l x Hl Hf. unfold jnorm_list. rewrite jnorm_arr.
  induction l as [|y l IH]; [discriminate Hf|]. inversion Hl as [|? ? Hy Hr]; subst.
  simpl in Hf |- *. destruct (by_id (VStr i) y) eqn:E.
  - injection Hf as <-. rewrite (by_id_jnorm_elem_self _ _ E). reflexivity.
  - destruct (by_id (VStr i) (jnorm_elem y)) eqn:E'.
    + exfalso. destruct Hy as [Hy| ->].
      * unfold by_id in E, E'. rewrite (key_jnorm_elem _ _ _ Hy E') in E. discriminate E.
      * rewrite (find_sat _ _ _ Hf) in E. discriminate E.
    + exact (IH Hr Hf).
Qed.

Lemma nth_error_fixed : forall L k, Forall (fun x => jnorm_elem x = x) L ->
  nth_error (jnorm_list L) k = nth_error L k.
Proof.
  intros L k H. rewrite jnorm_list_map, nth_error_map.
  destruct (nth_error L k) as [v|] eqn:E; [|reflexivity]. cbn [option_map].
  rewrite Forall_forall in H. rewrite (H v (nth_error_In _ _ E)). reflexivity.
Qed.

(** In a reachable state, [saveUser(user)] with a string id succeeds, keeps the
    session, makes [user] (after the [JSON] round trip) the first account
    found by that id, and grows the store by one exactly when no account had
    that id.  The [JSON] copy of [user] sits at index [j]: the index
    [findIndex] gives for the id (the account is replaced in place), or the
    old length when no account has the id (it is appended); every other
    index holds what it held before. *)
Theorem saveUser_upsert : forall hst st user i r st',
  reachable hst st -> fld user (K "id") = VStr i ->
  saveUser user st = (r, st') ->
  r = Ret tt /\ current st' = current st /\
  find (by_id (VStr i)) (users st') = Some (jnorm_elem user) /\
  List.length (users st') =
    (List.length (users st) + match find (by_id (VStr i)) (users st) with
                         | Some _ => 0 | None => 1 end)%nat /\
  exists j,
    (findIndex (by_id (VStr i)) (users st) = Some j \/
     (findIndex (by_id (VStr i)) (users st) = None /\ j = List.length (users st))) /\
    nth_error (users st') j = Some (jnorm_elem user) /\
    forall k, k <> j -> nth_error (users st') k = nth_error (users st) k.
Proof.
  intros hst st user i r st' Hr Hi H.
  pose proof (reachable_fixed _ _ Hr) as Hx. unfold store_fixed in Hx.
  pose proof (reachable_normal _ _ Hr) as Hn. unfold store_normal in Hn.
  assert (Hu : by_id (VStr i) user = true)
    by (unfold by_id; rewrite Hi; cbn [strict_eq]; apply jseqb_refl).
  unfold saveUser, bind, getUsers in H. rewrite Hi in H.
  destruct (findIndex (by_id (VStr i)) (users st)) as [j|] eqn:Ej.
  - destruct (findIndex_find _ _ _ Ej) as [u0 Hf0].
    unfold store_users in H. injection H as <- <-. cbn [users current].
    split; [reflexivity|split; [reflexivity|split]].
    + apply find_id_jnorm_list_gen.
      * apply Forall_forall. intros y Hy. apply replace_nth_incl in Hy as [->|Hy].
        -- right; reflexivity.
        -- left. rewrite Forall_forall in Hn. exact (Hn y Hy).
      * exact (find_replace_first _ _ _ _ _ _ Hf0 (find_sat _ _ _ Hf0) Ej Hu).
    + split; [rewrite Hf0, jnorm_list_length, replace_nth_length; lia|].
      exists j. split; [left; reflexivity|split].
      * destruct (findIndex_some _ _ _ Ej) as [u [Hu0 _]].
        exact (nth_error_jnorm_list _ _ _ (nth_error_replace_nth _ _ _ _ Hu0)).
      * intros k Hk. rewrite jnorm_list_map, nth_error_map.
        rewrite nth_error_replace_nth_other by (intros E; apply Hk; symmetry; exact E).
        rewrite <- nth_error_map, <- jnorm_list_map. apply nth_error_fixed. exact Hx.
  - pose proof (findIndex_none _ _ Ej) as Hf0.
    unfold store_users in H. injection H as <- <-. cbn [users current].
    split; [reflexivity|split; [reflexivity|split]].
    + apply find_id_jnorm_list_gen.
      * apply Forall_app. split; [|constructor; [right; reflexivity|constructor]].
        revert Hn. apply Forall_impl. intros y Hy. left. exact Hy.
      * rewrite find_app_none by exact Hf0. simpl. rewrite Hu. reflexivity.
    + split; [rewrite Hf0, jnorm_list_length, length_app; simpl; lia|].
      exists (List.length (users st)). split; [right; split; reflexivity|split].
      * apply nth_error_jnorm_list. rewrite nth_error_app2, Nat.sub_diag by lia.
        reflexivity.
      * intros k Hk. rewrite jnorm_list_map, nth_error_map.
        destruct (Nat.lt_ge_cases k (List.length (users st))) as [Hl|Hl].
        -- rewrite nth_error_app1 by exact Hl. rewrite <- nth_error_map, <- jnorm_list_map.
           apply nth_error_fixed. exact Hx.
        -- rewrite (proj2 (nth_error_None (users st) k) Hl).
           rewrite (proj2 (nth_error_None (users st ++ [user]) k));
             [reflexivity|rewrite length_app; simpl; lia].
Qed.

Lemma saveUser_upsert_witness :
  match saveUser (VObj [(K "id", VStr (K "u7")); (K "email", VStr (K "a@b.co"))])
          demo_state with
  | (r, st') =>
      r = Ret tt /\ List.length (users st') = 2%nat /\
      find (by_id (VStr (K "u7"))) (users st') =
        Some (VObj [(K "id", VStr (K "u7")); (K "email", VStr (K "a@b.co"))])
  end.
Proof.
  destruct (saveUser (VObj [(K "id", VStr (K "u7")); (K "email", VStr (K "a@b.co"))])
              demo_state) as [r st'] eqn:E.
  destruct (saveUser_upsert seoul demo_state
              (VObj [(K "id", VStr (K "u7")); (K "email", VStr (K "a@b.co"))])
              (K "u7") r st' demo_state_reachable eq_refl E) as [H1 [_ [H3 [H4 _]]]].
  split; [exact H1|split; [rewrite H4; vm_compute; reflexivity|exact H3]].
Defined.

Lemma count_today_bounds : forall hst today l n,
  count_today hst today l = Ret n -> 0 <= n <= Z.of_nat (List.length l).
Proof.
  intros hst today l. induction l as [|c l IH]; intros n H; simpl in H.
  - injection H as <-. simpl. lia.
  - destruct (get_date c); [|discriminate H].
    destruct (count_today hst today l) as [m|]; [|discriminate H].
    injection H as <-. specialize (IH m eq_refl).
    rewrite length_cons, Nat2Z.inj_succ. destruct jseqb; lia.
Qed.

(** [getTodayConsultationCount] never changes the state, and a count it
    returns is between 0 and the length of the account's consultation
    history. *)
Theorem today_count_bounded : forall hst now userId st r st',
  getTodayConsultationCount hst now userId st = (r, st') ->
  st' = st /\
  forall n, r = Ret n ->
    0 <= n /\
    forall u l, find (by_id userId) (users st) = Some u ->
      fld u (K "consultationHistory") = VArr l -> n <= Z.of_nat (List.length l).
Proof.
  intros hst now userId st r st' H.
  unfold getTodayConsultationCount, bind, getUsers in H.
  destruct (find (by_id userId) (users st)) as [u0|] eqn:Ef.
  - cbv zeta in H.
    destruct (negb (truthy (fld u0 (K "consultationHistory")))) eqn:Et.
    + unfold ret in H. injection H as <- <-. split; [reflexivity|].
      intros n Hn. injection Hn as <-. split; [lia|]. intros u l Hu Hl. lia.
    + destruct (fld u0 (K "consultationHistory")) as [| | | | |l0|] eqn:Eh;
        try (unfold throw in H; injection H as <- <-; split; [reflexivity|discriminate]).
      unfold lift in H. destruct (count_today hst _ l0) as [m|e] eqn:Ec;
        injection H as <- <-; (split; [reflexivity|]); [|discriminate].
      intros n Hn. injection Hn as <-. pose proof (count_today_bounds _ _ _ _ Ec) as Hb.
      split; [lia|]. intros u l Hu Hl. injection Hu as <-.
      rewrite Eh in Hl. injection Hl as <-. lia.
  - unfold ret in H. injection H as <- <-. split; [reflexivity|].
    intros n Hn. injection Hn as <-. split; [lia|]. intros u l Hu. discriminate Hu.
Qed.

Lemma today_count_bounded_witness :
  match getTodayConsultationCount seoul 1700000000000 (VStr (K "u1"))
          (mkState [today_user] None) with
  | (Ret n, st') => st' = mkState [today_user] None /\ n = 3 /\ 0 <= n <= 5
  | _ => False
  end.
Proof.
  destruct (getTodayConsultationCount seoul 1700000000000 (VStr (K "u1"))
              (mkState [today_user] None)) as [[n|e] st'] eqn:E;
    [|vm_compute in E; discriminate E].
  destruct (today_count_bounded _ _ _ _ _ _ E) as [H1 H2].
  destruct (H2 n eq_refl) as [H3 H4]. split; [exact H1|split].
  - vm_compute in E. injection E as <- _. reflexivity.
  - split; [exact H3|].
    exact (H4 today_user today_history ltac:(vm_compute; reflexivity) eq_refl).
Defined.

